(** * zabbix_user: a shallow embedding of [modules/zabbix_user.py]

    The Ansible module reconciles one Zabbix user against the server:
    [main] reads the module parameters, coerces a few of them to text,
    logs in, and calls one of [User.delete_user], [User.update_user] or
    [User.create_user].  Each of these ends the process through
    [module.exit_json] or [module.fail_json].

    The embedding keeps Python's data as it is (nested dicts and lists
    of JSON-like values), keeps the remote API abstract (a record of
    state-passing functions over any server state), and records every
    remote call in a trace. *)

From Stdlib Require Import String Ascii List ZArith Bool Lia DecimalString.
Import ListNotations.
Local Open Scope string_scope.
Local Open Scope Z_scope.
Local Open Scope list_scope.

(* ================================================================== *)
(** ** Python values *)

(** JSON-like values: what YAML hands to the module and what the
    Zabbix API returns.  A dict is an association list in insertion
    order, as a Python dict is; its keys are strings. *)
#[local] Unset Elimination Schemes.
Inductive pyval : Type :=
| PNone
| PBool (b : bool)
| PInt (z : Z)
| PStr (s : string)
| PList (l : list pyval)
| PDict (d : list (string * pyval)).
#[local] Set Elimination Schemes.

Definition pydict : Type := list (string * pyval).

(** Python exceptions that are subclasses of [Exception]. [ApiError]
    stands for whatever the zabbix-api client raises. *)
Inductive pyexn : Type :=
| IndexError
| KeyError (k : pyval)
| TypeError
| AttributeError
| ApiError (text : string).

(** The result of evaluating an expression that may raise. *)
Inductive reply (A : Type) : Type :=
| Ok (a : A)
| Err (e : pyexn).
Arguments Ok {A} a.
Arguments Err {A} e.

Module Dict.

(** [d[k]] / [k in d] *)
Fixpoint get (k : string) (d : pydict) : option pyval :=
  match d with
  | [] => None
  | (k', v) :: d' => if String.eqb k k' then Some v else get k d'
  end.

Definition mem (k : string) (d : pydict) : bool :=
  match get k d with Some _ => true | None => false end.

(** [del d[k]] (on a key that is present) *)
Fixpoint del (k : string) (d : pydict) : pydict :=
  match d with
  | [] => []
  | (k', v) :: d' => if String.eqb k k' then del k d' else (k', v) :: del k d'
  end.

(** [d[k] = v]: an existing key keeps its place, a new one goes last. *)
Fixpoint set (k : string) (v : pyval) (d : pydict) : pydict :=
  match d with
  | [] => [(k, v)]
  | (k', v') :: d' =>
      if String.eqb k k' then (k', v) :: d' else (k', v') :: set k v d'
  end.

(** [list(d.keys())] *)
Definition keys (d : pydict) : list string := map fst d.

End Dict.

(** [f] holds of the two lists position by position. *)
Fixpoint forall2b {A B : Type} (f : A -> B -> bool) (l : list A) (m : list B)
  : bool :=
  match l, m with
  | [], [] => true
  | x :: l', y :: m' => f x y && forall2b f l' m'
  | _, _ => false
  end.

(** Python's [==] on these values.  Lists compare element by element in
    order; dicts compare as maps (same number of keys, and every key of
    the left one bound to an equal value in the right one); [True == 1]
    and [False == 0] hold, as [bool] is a subclass of [int]. *)
Fixpoint py_eqb (a b : pyval) {struct a} : bool :=
  match a, b with
  | PNone, PNone => true
  | PBool x, PBool y => Bool.eqb x y
  | PBool x, PInt z => Z.eqb (if x then 1 else 0) z
  | PInt z, PBool x => Z.eqb z (if x then 1 else 0)
  | PInt x, PInt y => Z.eqb x y
  | PStr s, PStr t => String.eqb s t
  | PList l, PList m => forall2b py_eqb l m
  | PDict d, PDict e =>
      Nat.eqb (List.length d) (List.length e) &&
      forallb (fun kv => match Dict.get (fst kv) e with
                         | Some w => py_eqb (snd kv) w
                         | None => false
                         end) d
  | _, _ => false
  end.

(** [a != b] *)
Definition py_ne (a b : pyval) : bool := negb (py_eqb a b).

(** Truth value of an object, as [if x:] tests it. *)
Definition py_truthy (v : pyval) : bool :=
  match v with
  | PNone => false
  | PBool b => b
  | PInt z => negb (Z.eqb z 0)
  | PStr s => negb (String.eqb s "")
  | PList l => match l with [] => false | _ => true end
  | PDict d => match d with [] => false | _ => true end
  end.

(** [v[0]] *)
Definition py_first (v : pyval) : reply pyval :=
  match v with
  | PList [] => Err IndexError
  | PList (x :: _) => Ok x
  | PStr EmptyString => Err IndexError
  | PStr (String c _) => Ok (PStr (String c EmptyString))
  | PDict _ => Err (KeyError (PInt 0))
  | _ => Err TypeError
  end.

(** [v[k]] for a string key [k] *)
Definition py_getitem (v : pyval) (k : string) : reply pyval :=
  match v with
  | PDict d =>
      match Dict.get k d with
      | Some x => Ok x
      | None => Err (KeyError (PStr k))
      end
  | _ => Err TypeError
  end.

(** [s in t] on strings: [s] occurs in [t]. *)
Fixpoint is_substring (s t : string) : bool :=
  if String.prefix s t then true
  else match t with
       | EmptyString => false
       | String _ t' => is_substring s t'
       end.

(** [k in v] for a string [k] *)
Definition py_contains (k : string) (v : pyval) : reply bool :=
  match v with
  | PDict d => Ok (Dict.mem k d)
  | PList l => Ok (existsb (py_eqb (PStr k)) l)
  | PStr t => Ok (is_substring k t)
  | _ => Err TypeError
  end.

(** [list(v.keys())] *)
Definition py_keys (v : pyval) : reply pyval :=
  match v with
  | PDict d => Ok (PList (map PStr (Dict.keys d)))
  | _ => Err AttributeError
  end.

(** [str(z)] for an integer: its decimal text. *)
Definition str_of_Z (z : Z) : string := NilZero.string_of_int (Z.to_int z).

(* ================================================================== *)
(** ** Module parameters, results and the remote API *)

(** [state]: the requested lifecycle, one of the two [choices]. *)
Inductive state_choice : Type := present | absent.

(** [module.params] as [AnsibleModule] hands it to [main], after its own
    validation of [argument_spec]: typed options hold a value of their
    type or their default, options without a default may be [None], and
    the two [type='list'] options hold a list of raw YAML items. *)
Record module_params : Type := {
  alias : string;
  server_url : string;
  login_user : string;
  login_password : option string;
  autologin : bool;
  autologout : string;
  http_login_user : option string;
  http_login_password : option string;
  lang : string;
  user_name : option string;
  user_password : option string;
  redirect_url : string;
  refresh : string;
  rows_per_page : Z;
  state : state_choice;
  user_surname : option string;
  user_theme : string;
  timeout : Z;
  user_type : Z;
  user_groups : option (list pyval);
  user_medias : option (list pyval);
  validate_certs : bool
}.

(** An optional string as a Python value. *)
Definition py_opt_str (o : option string) : pyval :=
  match o with
  | Some s => PStr s
  | None => PNone
  end.

(** The texts handed to [exit_json(result=...)] and [fail_json(msg=...)],
    one constructor per format string of the source, carrying the values
    that are interpolated into it. *)
Inductive message : Type :=
| MissingRequiredLib
| FailedToConnect (e : pyexn)
| FailedToCheckExists (alias : string) (e : pyexn)
| DoesNotExist (alias : string)
| FailedToGetId (alias : string) (e : pyexn)
| FailedToGetState (alias : string) (e : pyexn)
| SuccessfullyCreated (alias : string)
| FailedCreate (alias : string) (e : pyexn)
| SuccessfullyDeleted (alias : string)
| FailedToRemove (alias : string) (e : pyexn)
| SuccessfullyUpdated (alias : string) (cstate nstate : pyval)
| NoChangesRequired (alias : string)
| FailedToUpdate (alias : string) (e : pyexn).

(** What the module prints before the process ends. *)
Inductive outcome : Type :=
| ExitJson (changed : bool) (result : option message)
| FailJson (msg : message).

(** A call that reaches the Zabbix server. *)
Inductive call : Type :=
| Login
| Logout
| UserGet (request : pyval)
| UserCreate (params : pyval)
| UserUpdate (params : pyval)
| UserDelete (ids : pyval).

(** [zabbix_api.ZabbixAPI]: the client object [zbx].  The server is any
    state [S]; every method takes the state and returns the next one
    with its reply. [connect] is the constructor followed by [login]. *)
Record ZabbixAPI (S : Type) : Type := {
  connect : string -> Z -> option string -> option string -> bool ->
            string -> option string -> S -> reply unit * S;
  logout : S -> S;
  user_get : pyval -> S -> reply pyval * S;
  user_create : pyval -> S -> reply pyval * S;
  user_update : pyval -> S -> reply pyval * S;
  user_delete : pyval -> S -> reply pyval * S
}.
Arguments connect {S}.
Arguments logout {S}.
Arguments user_get {S}.
Arguments user_create {S}.
Arguments user_update {S}.
Arguments user_delete {S}.

(** The part of the world a run changes: the server, the calls made so
    far (oldest first) and whether [atexit] holds [zbx.logout]. *)
Record world (S : Type) : Type := {
  server : S;
  trace : list call;
  atexit_logout : bool
}.
Arguments server {S}.
Arguments trace {S}.
Arguments atexit_logout {S}.

(** How a piece of Python code ends: it returns a value, raises an
    [Exception], or raises [SystemExit] from [exit_json] / [fail_json],
    which no [except Exception] clause catches. *)
Inductive res (A : Type) : Type :=
| Ret (a : A)
| Raise (e : pyexn)
| Exit (o : outcome).
Arguments Ret {A} a.
Arguments Raise {A} e.
Arguments Exit {A} o.

Definition M (S A : Type) : Type := world S -> res A * world S.

Definition ret {S A} (a : A) : M S A := fun w => (Ret a, w).

Definition bind {S A B} (m : M S A) (f : A -> M S B) : M S B :=
  fun w =>
    match m w with
    | (Ret a, w') => f a w'
    | (Raise e, w') => (Raise e, w')
    | (Exit o, w') => (Exit o, w')
    end.

Definition raise {S A} (e : pyexn) : M S A := fun w => (Raise e, w).

(** [module.exit_json(changed=..., result=...)] *)
Definition exit_json {S A} (changed : bool) (result : option message) : M S A :=
  fun w => (Exit (ExitJson changed result), w).

(** [module.fail_json(msg=...)] *)
Definition fail_json {S A} (msg : message) : M S A :=
  fun w => (Exit (FailJson msg), w).

(** [try: m  except Exception as err: h err] *)
Definition try_except {S A} (m : M S A) (h : pyexn -> M S A) : M S A :=
  fun w =>
    match m w with
    | (Raise e, w') => h e w'
    | r => r
    end.

(** An expression that may raise, evaluated in place. *)
Definition lift {S A} (r : reply A) : M S A :=
  match r with
  | Ok a => ret a
  | Err e => raise e
  end.

Declare Scope py_scope.
Delimit Scope py_scope with py.
Notation "x <- m ;; k" := (bind m (fun x => k))
  (at level 100, m at next level, right associativity) : py_scope.
Notation "m ;;; k" := (bind m (fun _ => k))
  (at level 100, right associativity) : py_scope.
Local Open Scope py_scope.

(** A remote method call: the server moves on and the call is logged,
    whether it answers or raises. [logged w s' c] is the world after
    the call [c] left the server in [s']. *)
Definition logged {S} (w : world S) (s' : S) (c : call) : world S :=
  {| server := s'; trace := trace w ++ [c]; atexit_logout := atexit_logout w |}.

Definition remote {S} (f : S -> reply pyval * S) (c : call) : M S pyval :=
  fun w =>
    let (r, s') := f (server w) in
    match r with
    | Ok v => (Ret v, logged w s' c)
    | Err e => (Raise e, logged w s' c)
    end.

(** The same for the constructor [ZabbixAPI(...)] and [zbx.login(...)],
    followed on success by [atexit.register(zbx.logout)]. *)
Definition connect_and_register {S} (f : S -> reply unit * S) : M S unit :=
  fun w =>
    let (r, s') := f (server w) in
    match r with
    | Ok _ => (Ret tt, {| server := s'; trace := trace w ++ [Login];
                          atexit_logout := true |})
    | Err e => (Raise e, logged w s' Login)
    end.

(** [v.pop(k)]: the popped value and what is left of [v]. *)
Definition py_pop (v : pyval) (k : string) : reply (pyval * pyval) :=
  match v with
  | PDict d =>
      match Dict.get k d with
      | Some x => Ok (x, PDict (Dict.del k d))
      | None => Err (KeyError (PStr k))
      end
  | PList _ => Err TypeError
  | _ => Err AttributeError
  end.

(** [v[k] = x] *)
Definition py_setitem (v : pyval) (k : string) (x : pyval) : reply pyval :=
  match v with
  | PDict d => Ok (PDict (Dict.set k x d))
  | _ => Err TypeError
  end.

(** [del v[k]] *)
Definition py_delitem (d : pydict) (k : string) : reply pydict :=
  if Dict.mem k d then Ok (Dict.del k d) else Err (KeyError (PStr k)).

(** The dict objects a method creates, by address: two names bound to
    one address see each other's updates. *)
Module Heap.

Definition t : Type := list pydict.
Definition addr : Type := nat.

Definition empty : t := [].

Definition alloc (h : t) (d : pydict) : addr * t := (List.length h, h ++ [d]).

Definition read (h : t) (a : addr) : pydict := nth a h [].

Fixpoint write (h : t) (a : addr) (d : pydict) : t :=
  match h, a with
  | [], _ => []
  | _ :: h', O => d :: h'
  | x :: h', Datatypes.S a' => x :: write h' a' d
  end.

End Heap.

(** The filter [{"filter": {"alias": alias}}] of the lookups by alias. *)
Definition alias_filter (alias : string) : pyval :=
  PDict [("filter", PDict [("alias", PStr alias)])].

(** The ["output"] list of [_get_user_state]. *)
Definition state_outputs : list string :=
  ["alias"; "autologin"; "autologout"; "lang"; "name"; "passwd"; "refresh";
   "url"; "rows_per_page"; "surname"; "theme"; "type"].

Definition state_output : pyval := PList (map PStr state_outputs).

(** The request of [_get_user_state]. *)
Definition state_request (media_keys userids : pyval) : pyval :=
  PDict [("output", state_output);
         ("selectUsrgrps", PStr "usrgrpid");
         ("selectMedias", media_keys);
         ("userids", userids)].

(** The fourteen user properties of the [params] literals, in order. *)
Definition user_properties (alias : string)
    (autologin autologout lang redirect_url refresh rows_per_page
     user_groups user_medias user_name user_password user_surname
     user_theme user_type : pyval) : pydict :=
  [("alias", PStr alias);
   ("autologin", autologin);
   ("autologout", autologout);
   ("lang", lang);
   ("name", user_name);
   ("passwd", user_password);
   ("refresh", refresh);
   ("url", redirect_url);
   ("rows_per_page", rows_per_page);
   ("surname", user_surname);
   ("theme", user_theme);
   ("type", user_type);
   ("usrgrps", user_groups);
   ("user_medias", user_medias)].

(* ================================================================== *)
(** ** class User and main *)

Section Module.

(** The server and its client. *)
Context {S : Type}.
Variable zapi : ZabbixAPI S.

(** [module.check_mode]: Ansible's dry run. *)
Variable check_mode : bool.

(** [HAS_ZABBIX_API]: whether [import zabbix_api] succeeded. *)
Variable HAS_ZABBIX_API : bool.

(** Python's [repr], which [str] falls back on for lists and dicts.
    Its text is never inspected by the module. *)
Variable py_repr : pyval -> string.

(** [str(v)] *)
Definition py_str (v : pyval) : string :=
  match v with
  | PNone => "None"
  | PBool true => "True"
  | PBool false => "False"
  | PInt z => str_of_Z z
  | PStr s => s
  | _ => py_repr v
  end.

Definition check_user_exist (alias : string) : M S pyval :=
  try_except
    (result <- remote (user_get zapi (alias_filter alias))
                      (UserGet (alias_filter alias)) ;;
     ret result)
    (fun err => fail_json (FailedToCheckExists alias err)).

Definition _get_user_id (alias : string) : M S pyval :=
  try_except
    (result <- remote (user_get zapi (alias_filter alias))
                      (UserGet (alias_filter alias)) ;;
     if py_truthy result then
       r0 <- lift (py_first result) ;;
       lift (py_getitem r0 "userid")
     else
       fail_json (DoesNotExist alias))
    (fun err => fail_json (FailedToGetId alias err)).

Definition _get_user_state (alias : string) (medias : pyval) : M S pyval :=
  m0 <- lift (py_first medias) ;;
  media_keys <- lift (py_keys m0) ;;
  try_except
    (userids <- _get_user_id alias ;;
     result <- remote (user_get zapi (state_request media_keys userids))
                      (UserGet (state_request media_keys userids)) ;;
     lift (py_first result))
    (fun err => fail_json (FailedToGetState alias err)).

Definition create_user (alias : string)
    (autologin autologout lang redirect_url refresh rows_per_page
     user_groups user_medias user_name user_password user_surname
     user_theme user_type : pyval) : M S unit :=
  try_except
    ((if check_mode then exit_json true None else ret tt) ;;;
     let params :=
       PDict (user_properties alias autologin autologout lang redirect_url
                refresh rows_per_page user_groups user_medias user_name
                user_password user_surname user_theme user_type) in
     remote (user_create zapi params) (UserCreate params) ;;;
     exit_json true (Some (SuccessfullyCreated alias)))
    (fun err => fail_json (FailedCreate alias err)).

Definition delete_user (alias : string) : M S unit :=
  try_except
    (uid <- _get_user_id alias ;;
     if py_truthy uid then
       remote (user_delete zapi (PList [PStr (py_str uid)]))
              (UserDelete (PList [PStr (py_str uid)])) ;;;
       exit_json true (Some (SuccessfullyDeleted alias))
     else
       fail_json (DoesNotExist alias))
    (fun err => fail_json (FailedToRemove alias err)).

(** [params] and [nstate] are two names of one dict object: the
    assignment [nstate = params] copies the reference, so
    [del nstate['passwd']] changes the object both names read. *)
Definition update_user (alias : string)
    (autologin autologout lang redirect_url refresh rows_per_page
     user_groups user_medias user_name user_password user_surname
     user_theme user_type : pyval) : M S unit :=
  try_except
    (userid <- _get_user_id alias ;;
     let (params, h) :=
       Heap.alloc Heap.empty
         (("userid", userid) ::
          user_properties alias autologin autologout lang redirect_url
            refresh rows_per_page user_groups user_medias user_name
            user_password user_surname user_theme user_type) in
     let nstate := params in
     d <- lift (py_delitem (Heap.read h nstate) "passwd") ;;
     let h := Heap.write h nstate d in
     medias <- lift (py_getitem (PDict (Heap.read h params)) "user_medias") ;;
     cstate <- _get_user_state alias medias ;;
     popped <- lift (py_pop cstate "medias") ;;
     cstate <- lift (py_setitem (snd popped) "user_medias" (fst popped)) ;;
     if py_ne cstate (PDict (Heap.read h nstate)) then
       remote (user_update zapi (PDict (Heap.read h params)))
              (UserUpdate (PDict (Heap.read h params))) ;;;
       exit_json true
         (Some (SuccessfullyUpdated alias cstate (PDict (Heap.read h nstate))))
     else
       exit_json false (Some (NoChangesRequired alias)))
    (fun err => fail_json (FailedToUpdate alias err)).

(** Body of the loop over [user_groups] under "Convert int to str". *)
Definition convert_usrgrp_entry (usrgrp_entry : pyval) : reply pyval :=
  match py_getitem usrgrp_entry "usrgrpid" with
  | Ok v => py_setitem usrgrp_entry "usrgrpid" (PStr (py_str v))
  | Err e => Err e
  end.

(** [if key in entry: entry[key] = str(entry[key])] *)
Definition convert_if_present (key : string) (entry : pyval) : reply pyval :=
  match py_contains key entry with
  | Ok true =>
      match py_getitem entry key with
      | Ok v => py_setitem entry key (PStr (py_str v))
      | Err e => Err e
      end
  | Ok false => Ok entry
  | Err e => Err e
  end.

(** Body of the loop over [user_medias]. *)
Definition convert_medias_entry (medias_entry : pyval) : reply pyval :=
  match convert_if_present "mediatypeid" medias_entry with
  | Ok medias_entry => convert_if_present "severity" medias_entry
  | Err e => Err e
  end.

(** [for entry in l: body], the body updating the entry in place; the
    entries are separate objects, as JSON decoding made them. *)
Fixpoint for_each (body : pyval -> reply pyval) (l : list pyval)
  : reply (list pyval) :=
  match l with
  | [] => Ok []
  | entry :: l' =>
      match body entry with
      | Ok entry' =>
          match for_each body l' with
          | Ok r => Ok (entry' :: r)
          | Err e => Err e
          end
      | Err e => Err e
      end
  end.

(** The same over an option that was left out: [None] is not iterable. *)
Definition for_each_in (body : pyval -> reply pyval)
    (o : option (list pyval)) : reply (list pyval) :=
  match o with
  | Some l => for_each body l
  | None => Err TypeError
  end.

Definition main (p : module_params) : M S unit :=
  (if HAS_ZABBIX_API then ret tt else fail_json MissingRequiredLib) ;;;
  let autologin := if negb (autologin p) then PStr "0" else PStr "1" in
  let rows_per_page := PStr (py_str (PInt (rows_per_page p))) in
  let user_type := PStr (py_str (PInt (user_type p))) in
  user_groups <- lift (for_each_in convert_usrgrp_entry (user_groups p)) ;;
  user_medias <- lift (for_each_in convert_medias_entry (user_medias p)) ;;
  try_except
    (connect_and_register
       (connect zapi (server_url p) (timeout p) (http_login_user p)
          (http_login_password p) (validate_certs p) (login_user p)
          (login_password p)))
    (fun e => fail_json (FailedToConnect e)) ;;;
  (match state p with
   | absent => delete_user (alias p)
   | present => ret tt
   end) ;;;
  (match state p with
   | present =>
       found <- check_user_exist (alias p) ;;
       if py_truthy found then
         update_user (alias p) autologin (PStr (autologout p))
           (PStr (lang p)) (PStr (redirect_url p)) (PStr (refresh p))
           rows_per_page (PList user_groups) (PList user_medias)
           (py_opt_str (user_name p)) (py_opt_str (user_password p))
           (py_opt_str (user_surname p)) (PStr (user_theme p)) user_type
       else
         create_user (alias p) autologin (PStr (autologout p))
           (PStr (lang p)) (PStr (redirect_url p)) (PStr (refresh p))
           rows_per_page (PList user_groups) (PList user_medias)
           (py_opt_str (user_name p)) (py_opt_str (user_password p))
           (py_opt_str (user_surname p)) (PStr (user_theme p)) user_type
   | absent => ret tt
   end).

(** One run of the module on server [s]: [main], then the [atexit]
    handler.  The result is how [main] ended, the calls that reached
    the server, and the server afterwards. *)
Definition run (p : module_params) (s : S) : res unit * list call * S :=
  let (r, w) := main p {| server := s; trace := []; atexit_logout := false |} in
  if atexit_logout w
  then (r, trace w ++ [Logout], logout zapi (server w))
  else (r, trace w, server w).

End Module.

(* ================================================================== *)
(** ** Reading a run *)

(** The world at the start of [main]. *)
Definition boot {S} (s : S) : world S :=
  {| server := s; trace := []; atexit_logout := false |}.

(** The calls of a run that change the server. *)
Definition mutating (c : call) : bool :=
  match c with
  | UserCreate _ | UserUpdate _ | UserDelete _ => true
  | _ => false
  end.

(** The number of mutating calls among [l]. *)
Definition mutations (l : list call) : nat := List.length (filter mutating l).

(** No call of [l] but the last is mutating. *)
Fixpoint last_only (l : list call) : bool :=
  match l with
  | [] => true
  | c :: l' =>
      match l' with
      | [] => true
      | _ => negb (mutating c) && last_only l'
      end
  end.

(** A method that ends the run: it never returns to its caller, leaves
    the exit handler alone, and adds to the trace calls of which only
    the last may be mutating. *)
Definition final_action {S A} (m : M S A) : Prop :=
  forall w,
    (forall a, fst (m w) <> Ret a)
    /\ atexit_logout (snd (m w)) = atexit_logout w
    /\ exists ext, trace (snd (m w)) = trace w ++ ext /\ last_only ext = true.

(** The parts of a run's result. *)
Definition ending {S} (r : res unit * list call * S) : res unit := fst (fst r).
Definition calls {S} (r : res unit * list call * S) : list call := snd (fst r).
Definition after {S} (r : res unit * list call * S) : S := snd r.

(** A run reports [changed]: it ends in [exit_json(changed=...)]. *)
Definition reports {S} (r : res unit * list call * S) (changed : bool) : Prop :=
  exists result, ending r = Exit (ExitJson changed result).

(** The calls of a run on the update path, up to the detailed fetch. *)
Definition update_reads (alias : string) (media_keys userids : pyval) : list call :=
  [Login; UserGet (alias_filter alias); UserGet (alias_filter alias);
   UserGet (alias_filter alias); UserGet (state_request media_keys userids)].

(* ================================================================== *)
(** ** The two sides of the comparison *)

(** The two sides of the comparison in [update_user].  [nstate_of] is
    the dict that [params] and [nstate] both name once
    [del nstate['passwd']] has run; [cstate_of c m] is the fetched
    record [c] after [cstate['user_medias'] = cstate.pop("medias")],
    [m] being the popped value. *)
Definition nstate_of (userid : pyval) (alias : string)
    (autologin autologout lang redirect_url refresh rows_per_page
     user_groups user_medias user_name user_password user_surname
     user_theme user_type : pyval) : pydict :=
  Dict.del "passwd"
    (("userid", userid) ::
     user_properties alias autologin autologout lang redirect_url refresh
       rows_per_page user_groups user_medias user_name user_password
       user_surname user_theme user_type).

Definition cstate_of (c : pydict) (m : pyval) : pydict :=
  Dict.set "user_medias" m (Dict.del "medias" c).

(** The desired record of a run: what [main] hands to [update_user],
    the lists being those the coercion loops left, as [nstate] holds
    it. *)
Definition desired_record (p : module_params) (userid : pyval)
    (user_groups user_medias : list pyval) : pydict :=
  nstate_of userid (alias p)
    (if negb (autologin p) then PStr "0" else PStr "1")
    (PStr (autologout p)) (PStr (lang p)) (PStr (redirect_url p))
    (PStr (refresh p)) (PStr (str_of_Z (rows_per_page p)))
    (PList user_groups) (PList user_medias)
    (py_opt_str (user_name p)) (py_opt_str (user_password p))
    (py_opt_str (user_surname p)) (PStr (user_theme p))
    (PStr (str_of_Z (user_type p))).

(** The parameters of a run's [user.create]: what [main] hands to
    [create_user], the lists being those the coercion loops left. *)
Definition create_params (p : module_params)
    (user_groups user_medias : list pyval) : pydict :=
  user_properties (alias p)
    (if negb (autologin p) then PStr "0" else PStr "1")
    (PStr (autologout p)) (PStr (lang p)) (PStr (redirect_url p))
    (PStr (refresh p)) (PStr (str_of_Z (rows_per_page p)))
    (PList user_groups) (PList user_medias)
    (py_opt_str (user_name p)) (py_opt_str (user_password p))
    (py_opt_str (user_surname p)) (PStr (user_theme p))
    (PStr (str_of_Z (user_type p))).

(** The entry [e] is a dict that holds a text under [k]. *)
Definition has_text (k : string) (e : pyval) : Prop :=
  exists d s, e = PDict d /\ Dict.get k d = Some (PStr s).

(** Whatever the entry [e] holds under [k] is a text. *)
Definition text_if_present (k : string) (e : pyval) : Prop :=
  forall d v, e = PDict d -> Dict.get k d = Some v -> exists s, v = PStr s.

(* ================================================================== *)
(** ** Well-formed values *)

(** Well-formed values: no dict, at any depth, binds a key twice.  This
    is the invariant of Python's dicts that the association lists do
    not enforce by themselves. *)
Fixpoint distinct (l : list string) : bool :=
  match l with
  | [] => true
  | k :: l' => negb (existsb (String.eqb k) l') && distinct l'
  end.

Fixpoint wf (v : pyval) : bool :=
  match v with
  | PList l => forallb wf l
  | PDict d => distinct (Dict.keys d) && forallb (fun kv => wf (snd kv)) d
  | _ => true
  end.

(** The entry [e] is a dict with as many keys as [m0], those of [m0]
    among them. *)
Definition same_keys (m0 : pydict) (e : pyval) : bool :=
  match e with
  | PDict d =>
      Nat.eqb (List.length d) (List.length m0)
      && forallb (fun k => Dict.mem k d) (Dict.keys m0)
  | _ => false
  end.

(* ================================================================== *)
(** ** A server that stores what is applied *)

(** Modelled from the spec: the RemoteResourceService of section 6 is
    an external collaborator (the Zabbix server), of which the source
    holds only the calls.  This is the plainest server that "stores the
    applied state": [create] files the parameters under a fresh id,
    [update] overwrites the properties it is given, [delete] removes the
    ids it is given, the lookup by alias returns the matching records,
    and the detailed fetch returns the properties asked for, the groups
    cut down to the field asked for and the medias cut down to the keys
    asked for (section 4.2: the projection names the group-membership
    ids and the field keys of one desired media entry).  As the spec has
    it (section 3), the server keeps no plaintext password to return. *)
Module Mirror.

Record t : Type := {
  next_id : Z;
  users : list pydict
}.

Definition empty : t := {| next_id := 1; users := [] |}.

Definition has (k : string) (v : pyval) (u : pydict) : bool :=
  match Dict.get k u with
  | Some x => py_eqb x v
  | None => false
  end.

(** The entries of [u] under the keys [ks], in the order of [ks]. *)
Fixpoint project (ks : list string) (u : pydict) : pydict :=
  match ks with
  | [] => []
  | k :: ks' =>
      match Dict.get k u with
      | Some v => (k, v) :: project ks' u
      | None => project ks' u
      end
  end.

Definition strings (v : pyval) : list string :=
  match v with
  | PList l =>
      flat_map (fun x => match x with PStr s => [s] | _ => [] end) l
  | _ => []
  end.

(** The fields a [select...] parameter names: one name or a list. *)
Definition fields (v : pyval) : list string :=
  match v with
  | PStr k => [k]
  | _ => strings v
  end.

Definition project_media (ks : list string) (m : pyval) : pyval :=
  match m with
  | PDict d => PDict (project ks d)
  | _ => m
  end.

Definition public (u : pydict) : pydict := Dict.del "passwd" u.

(** The record a detailed fetch returns for the stored user [u]. *)
Definition view (output group_keys media_keys : list string) (u : pydict)
  : pydict :=
  project ("userid" :: filter (fun k => negb (String.eqb k "passwd")) output) u
  ++ [("usrgrps", match Dict.get "usrgrps" u with
                  | Some (PList gs) => PList (map (project_media group_keys) gs)
                  | _ => PList []
                  end);
      ("medias", match Dict.get "user_medias" u with
                 | Some (PList ms) => PList (map (project_media media_keys) ms)
                 | _ => PList []
                 end)].

Definition get (request : pyval) (s : t) : reply pyval * t :=
  match request with
  | PDict r =>
      match Dict.get "filter" r, Dict.get "userids" r with
      | Some (PDict f), _ =>
          match Dict.get "alias" f with
          | Some a =>
              (Ok (PList (map (fun u => PDict (public u))
                            (filter (has "alias" a) (users s)))), s)
          | None => (Err (ApiError "filter"), s)
          end
      | _, Some uid =>
          let output := match Dict.get "output" r with
                        | Some o => strings o
                        | None => []
                        end in
          let group_keys := match Dict.get "selectUsrgrps" r with
                            | Some ks => fields ks
                            | None => []
                            end in
          let media_keys := match Dict.get "selectMedias" r with
                            | Some ks => fields ks
                            | None => []
                            end in
          (Ok (PList (map (fun u => PDict (view output group_keys media_keys u))
                        (filter (has "userid" uid) (users s)))), s)
      | _, _ => (Err (ApiError "request"), s)
      end
  | _ => (Err (ApiError "request"), s)
  end.

Definition create (params : pyval) (s : t) : reply pyval * t :=
  match params with
  | PDict d =>
      let uid := PStr (str_of_Z (next_id s)) in
      (Ok (PDict [("userids", PList [uid])]),
       {| next_id := next_id s + 1;
          users := users s ++ [Dict.set "userid" uid d] |})
  | _ => (Err (ApiError "params"), s)
  end.

(** [u.update(d)] *)
Definition merge (d u : pydict) : pydict :=
  fold_left (fun acc kv => Dict.set (fst kv) (snd kv) acc) d u.

Definition update (params : pyval) (s : t) : reply pyval * t :=
  match params with
  | PDict d =>
      match Dict.get "userid" d with
      | Some uid =>
          if existsb (has "userid" uid) (users s) then
            (Ok (PDict [("userids", PList [uid])]),
             {| next_id := next_id s;
                users := map (fun u => if has "userid" uid u
                                       then merge d u else u) (users s) |})
          else (Err (ApiError "no such user"), s)
      | None => (Err (ApiError "userid"), s)
      end
  | _ => (Err (ApiError "params"), s)
  end.

Definition delete (ids : pyval) (s : t) : reply pyval * t :=
  match ids with
  | PList l =>
      (Ok (PDict [("userids", ids)]),
       {| next_id := next_id s;
          users := filter (fun u => negb (existsb (fun i => has "userid" i u) l))
                     (users s) |})
  | _ => (Err (ApiError "ids"), s)
  end.

Definition api : ZabbixAPI t := {|
  connect := fun _ _ _ _ _ _ _ s => (Ok tt, s);
  logout := fun s => s;
  user_get := get;
  user_create := create;
  user_update := update;
  user_delete := delete
|}.

End Mirror.

(** A mirror server in order: every stored user has a text for id, and
    none has the id the next created user will get. *)
Definition mirror_ready (s : Mirror.t) : bool :=
  forallb (fun u => match Dict.get "userid" u with
                    | Some (PStr i) =>
                        negb (String.eqb i (str_of_Z (Mirror.next_id s)))
                    | _ => false
                    end) (Mirror.users s).

(** The entry is a dict whose one key is ["usrgrpid"]: a group named
    by its id and nothing else. *)
Definition only_usrgrpid (e : pyval) : bool :=
  match e with
  | PDict [(k, _)] => String.eqb k "usrgrpid"
  | _ => false
  end.

(** What the mirror server returns to a run for the alias [a] whose
    first media entry has the keys [ks]: the id of the first user stored
    under [a], and the record the detailed fetch returns for that id. *)
Definition mirror_fetched (a : string) (ks : list string) (s : Mirror.t)
  : option (pyval * pydict) :=
  match filter (Mirror.has "alias" (PStr a)) (Mirror.users s) with
  | u :: _ =>
      match Dict.get "userid" u with
      | Some uid =>
          match filter (Mirror.has "userid" uid) (Mirror.users s) with
          | u' :: _ =>
              Some (uid, Mirror.view state_outputs ["usrgrpid"] ks u')
          | [] => None
          end
      | None => None
      end
  | [] => None
  end.

(** The mirror server holds the desired state of the task [p], whose
    lists the loops left as [g] and [m0 :: ms]: the record it returns
    for the alias, its medias under the desired key, equals the desired
    record. *)
Definition holds_desired (p : module_params) (g : list pyval) (m0 : pydict)
    (ms : list pyval) (s : Mirror.t) : bool :=
  match mirror_fetched (alias p) (Dict.keys m0) s with
  | Some (uid, c) =>
      match Dict.get "medias" c with
      | Some med =>
          py_eqb (PDict (cstate_of c med))
            (PDict (desired_record p uid g (PDict m0 :: ms)))
      | None => false
      end
  | None => false
  end.

(* ================================================================== *)
(** ** A server with canned answers *)

(** A server with canned answers, for runs in which what the server
    returns is the point: [found] answers the lookups by alias and
    [record] the detailed fetch; create, update and delete succeed. *)
Module Canned.

Definition get (found record : pyval) (request : pyval) (s : unit)
  : reply pyval * unit :=
  match request with
  | PDict r =>
      if Dict.mem "filter" r then (Ok found, s) else (Ok (PList [record]), s)
  | _ => (Err (ApiError "request"), s)
  end.

Definition api (found record : pyval) : ZabbixAPI unit := {|
  connect := fun _ _ _ _ _ _ _ s => (Ok tt, s);
  logout := fun s => s;
  user_get := get found record;
  user_create := fun _ s => (Ok PNone, s);
  user_update := fun _ s => (Ok PNone, s);
  user_delete := fun _ s => (Ok PNone, s)
|}.

End Canned.

(* ================================================================== *)
(** ** Concrete inputs *)

(** A rendering of lists and dicts for the concrete runs below: the
    module never looks into the text. *)
Definition repr_opaque (v : pyval) : string := "<object>".

(** A task for the user [a] that sets the options the properties below
    vary and leaves the others at the module's defaults. *)
Definition task (a : string) (st : state_choice) (password : option string)
    (theme : string) (groups medias : option (list pyval)) : module_params := {|
  alias := a;
  server_url := "http://zabbix.dev.local";
  login_user := "admin";
  login_password := Some "zabbix";
  autologin := false;
  autologout := "15m";
  http_login_user := None;
  http_login_password := None;
  lang := "en_GB";
  user_name := None;
  user_password := password;
  redirect_url := "";
  refresh := "30s";
  rows_per_page := 50;
  state := st;
  user_surname := None;
  user_theme := theme;
  timeout := 10;
  user_type := 1;
  user_groups := groups;
  user_medias := medias;
  validate_certs := true
|}.

(** [user_groups: [{usrgrpid: 7}]] *)
Definition group7 : list pyval := [PDict [("usrgrpid", PInt 7)]].

(** [user_medias: [{mediatypeid: 1, sendto: [a@example.com]}]] *)
Definition mail1 : list pyval :=
  [PDict [("mediatypeid", PInt 1); ("sendto", PList [PStr "a@example.com"])]].

(** Scenario tasks: "carol" as [carol_record] mirrors her, "bob" with a
    theme of choice. *)
Definition carol (password : string) : module_params :=
  task "carol" present (Some password) "default" (Some group7) (Some mail1).

Definition bob (password theme : string) : module_params :=
  task "bob" present (Some password) theme (Some group7) (Some mail1).

(** Tasks on "bob" whose lists are of the kinds that never settle: two
    media entries with different keys, and a group entry that carries a
    name beside its id. *)
Definition bob_two_medias : module_params :=
  task "bob" present (Some "p@ss1") "default" (Some group7)
    (Some [PDict [("mediatypeid", PInt 1);
                  ("sendto", PList [PStr "a@example.com"])];
           PDict [("mediatypeid", PInt 3);
                  ("sendto", PList [PStr "b@example.com"]);
                  ("severity", PInt 48)]]).

Definition bob_named_group : module_params :=
  task "bob" present (Some "p@ss1") "default"
    (Some [PDict [("usrgrpid", PInt 7); ("name", PStr "ops")]]) (Some mail1).

Definition bob_no_medias : module_params :=
  task "bob" present (Some "p@ss1") "default" (Some group7) (Some []).

(** A real run and a dry run against the mirror server. *)
Definition real_run : module_params -> Mirror.t -> res unit * list call * Mirror.t :=
  run Mirror.api false true repr_opaque.
Definition dry_run : module_params -> Mirror.t -> res unit * list call * Mirror.t :=
  run Mirror.api true true repr_opaque.

(** A real run against a canned server. *)
Definition canned_run (found record : pyval) (p : module_params)
  : res unit * list call * unit :=
  run (Canned.api found record) false true repr_opaque p tt.

(** Two users filed under one alias. *)
Definition two_bobs : Mirror.t := {|
  Mirror.next_id := 3;
  Mirror.users := [[("alias", PStr "bob"); ("userid", PStr "1")];
                   [("alias", PStr "bob"); ("userid", PStr "2")]]
|}.

(** The server once user "bob" of scenario B exists on it. *)
Definition with_bob : Mirror.t :=
  after (real_run (task "bob" present (Some "p@ss1") "default"
                     (Some group7) (Some mail1)) Mirror.empty).

(** The record of user "carol" as [task] describes her with the default
    theme, [group7] and [mail1], in the server's words, with [extra]
    entries in front. *)
Definition carol_medias : pyval :=
  PList [PDict [("mediatypeid", PStr "1");
                ("sendto", PList [PStr "a@example.com"])]].

Definition carol_fields (rows_per_page : pyval) (extra : pydict) : pydict :=
  extra ++
  [("userid", PStr "3"); ("alias", PStr "carol"); ("autologin", PStr "0");
   ("autologout", PStr "15m"); ("lang", PStr "en_GB"); ("name", PNone);
   ("refresh", PStr "30s"); ("url", PStr "");
   ("rows_per_page", rows_per_page); ("surname", PNone);
   ("theme", PStr "default"); ("type", PStr "1");
   ("usrgrps", PList [PDict [("usrgrpid", PStr "7")]]);
   ("medias", carol_medias)].

Definition carol_record (rows_per_page : pyval) (extra : pydict) : pyval :=
  PDict (carol_fields rows_per_page extra).

Definition carol_found : pyval := PList [PDict [("userid", PStr "3")]].

(* ================================================================== *)
(** ** Two tasks that differ in the password *)

(** The task [p] with [user_password: pw] in place of its own. *)
Definition with_password (pw : option string) (p : module_params)
  : module_params := {|
  alias := alias p;
  server_url := server_url p;
  login_user := login_user p;
  login_password := login_password p;
  autologin := autologin p;
  autologout := autologout p;
  http_login_user := http_login_user p;
  http_login_password := http_login_password p;
  lang := lang p;
  user_name := user_name p;
  user_password := pw;
  redirect_url := redirect_url p;
  refresh := refresh p;
  rows_per_page := rows_per_page p;
  state := state p;
  user_surname := user_surname p;
  user_theme := user_theme p;
  timeout := timeout p;
  user_type := user_type p;
  user_groups := user_groups p;
  user_medias := user_medias p;
  validate_certs := validate_certs p
|}.

(** A server on which reading changes nothing: the login, the logout
    and [user.get] leave its state as it was. *)
Definition quiet_reads {S} (zapi : ZabbixAPI S) : Prop :=
  (forall url t hu hp vc lu lp s, snd (connect zapi url t hu hp vc lu lp s) = s)
  /\ (forall s, logout zapi s = s)
  /\ (forall request s, snd (user_get zapi request s) = s).

(* ================================================================== *)
(** ** What an ending tells about the calls *)

(** The mutating calls [muts] that go with the ending [o] of a run:
    none with [changed=False], with a dry creation, with an uncaught
    exception and with the failures of the read path; the one call of
    the kind the message names with a success; the one attempted call
    with "Failed create" and "Failed to remove"; none or the attempted
    update with "Failed to update", which also wraps what goes wrong
    before the call. *)
Definition told_by (o : res unit) (muts : list call) : Prop :=
  match o with
  | Exit (ExitJson true (Some (SuccessfullyCreated _))) =>
      exists params, muts = [UserCreate params]
  | Exit (ExitJson true (Some (SuccessfullyUpdated _ _ nstate))) =>
      muts = [UserUpdate nstate]
  | Exit (ExitJson true (Some (SuccessfullyDeleted _))) =>
      exists ids, muts = [UserDelete ids]
  | Exit (ExitJson true (Some _)) => False
  | Exit (ExitJson true None) => muts = []
  | Exit (ExitJson false _) => muts = []
  | Exit (FailJson (FailedCreate _ _)) => exists params, muts = [UserCreate params]
  | Exit (FailJson (FailedToRemove _ _)) => exists ids, muts = [UserDelete ids]
  | Exit (FailJson (FailedToUpdate _ _)) =>
      muts = [] \/ exists params, muts = [UserUpdate params]
  | Exit (FailJson _) => muts = []
  | Raise _ => muts = []
  | Ret _ => muts = []
  end.

(** A method whose ending tells its calls. *)
Definition telling {S} (m : M S unit) : Prop :=
  forall w, exists ext,
    trace (snd (m w)) = trace w ++ ext
    /\ told_by (fst (m w)) (filter mutating ext).

(* ================================================================== *)
(** ** A scripted server *)

(** A server that plays a script: [login] is the answer to the login,
    [answers] are handed out to the [user.get] calls in order, and
    [applied] is the answer to any create, update or delete. *)
Module Script.

Record t : Type := {
  login : reply unit;
  answers : list (reply pyval);
  applied : reply pyval
}.

Definition get (request : pyval) (s : t) : reply pyval * t :=
  match answers s with
  | [] => (Err (ApiError "no answer left"), s)
  | r :: rest => (r, {| login := login s; answers := rest; applied := applied s |})
  end.

Definition mutate (params : pyval) (s : t) : reply pyval * t := (applied s, s).

Definition api : ZabbixAPI t := {|
  connect := fun _ _ _ _ _ _ _ s => (login s, s);
  logout := fun s => s;
  user_get := get;
  user_create := mutate;
  user_update := mutate;
  user_delete := mutate
|}.

End Script.

(** A real run against a scripted server. *)
Definition scripted_run (p : module_params) (s : Script.t)
  : res unit * list call * Script.t :=
  run Script.api false true repr_opaque p s.

(** The scripted server that lets the login through, answers the
    lookups with [answers] and every create, update and delete with
    [applied]. *)
Definition script (answers : list (reply pyval)) (applied : reply pyval)
  : Script.t :=
  {| Script.login := Ok tt; Script.answers := answers; Script.applied := applied |}.

(** Tasks on "bob" with empty lists. *)
Definition remove_bob : module_params :=
  task "bob" absent None "default" (Some []) (Some []).

Definition ensure_bob : module_params :=
  task "bob" present (Some "p@ss1") "default" (Some []) (Some []).

(* ================================================================== *)
(** ** What a call is about *)

(** [medias[0].keys()], with which [_get_user_state] starts. *)
Definition media_keys_of (medias : pyval) : reply pyval :=
  match py_first medias with
  | Ok m0 => py_keys m0
  | Err e => Err e
  end.

(** [result[0]] of the detailed fetch, the reply being [r]: what the
    [try] of [_get_user_state] returns, or the exception it catches. *)
Definition first_fetched (r : reply pyval) : reply pyval :=
  match r with
  | Ok result => py_first result
  | Err e => Err e
  end.

(** The call [c] is about the user of the task [p], whose lists the
    coercion loops left as [g] and [m]: a lookup by the alias of [p], a
    detailed fetch under the keys of the first media entry, a creation
    with the fourteen properties of [p], an update with the desired
    record of [p], the deletion of one id, or the login or logout. *)
Definition concerns (p : module_params) (g m : list pyval) (c : call) : Prop :=
  match c with
  | Login | Logout => True
  | UserGet q =>
      q = alias_filter (alias p)
      \/ exists media_keys userids,
           media_keys_of (PList m) = Ok media_keys
           /\ q = state_request media_keys userids
  | UserCreate params => params = PDict (create_params p g m)
  | UserUpdate params =>
      exists userid, params = PDict (desired_record p userid g m)
  | UserDelete ids => exists uid, ids = PList [PStr uid]
  end.

(** What the media loop makes of an entry [e]: a dict keeps its keys,
    their order and its values, but for the values under
    ["mediatypeid"] and ["severity"], which become their text; an entry
    of another kind passes as it is, if it passes. *)
Definition media_coerced (py_repr : pyval -> string) (e e' : pyval) : Prop :=
  match e with
  | PDict d =>
      exists d',
        e' = PDict d'
        /\ Dict.keys d' = Dict.keys d
        /\ forall k,
             Dict.get k d'
             = if String.eqb k "mediatypeid" || String.eqb k "severity"
               then match Dict.get k d with
                    | Some v => Some (PStr (py_str py_repr v))
                    | None => None
                    end
               else Dict.get k d
  | _ => e' = e
  end.

(** A method that adds to the trace only calls that satisfy [P]. *)
Definition adding {S A} (P : call -> Prop) (m : M S A) : Prop :=
  forall w, exists ext, trace (snd (m w)) = trace w ++ ext /\ Forall P ext.

(* ================================================================== *)
(** ** Entries the coercion loops accept *)

(** The entry is a dict. *)
Definition is_dict (e : pyval) : bool :=
  match e with
  | PDict _ => true
  | _ => false
  end.

(** The entry is a dict with a ["usrgrpid"]. *)
Definition has_usrgrpid (e : pyval) : bool :=
  match e with
  | PDict d => Dict.mem "usrgrpid" d
  | _ => false
  end.

(** [e'] is [e] with nothing changed but the value under [k], which is
    now the text of the old one. *)
Definition text_under (py_repr : pyval -> string) (k : string) (e e' : pyval)
  : Prop :=
  exists d d' v,
    e = PDict d /\ e' = PDict d'
    /\ Dict.keys d' = Dict.keys d
    /\ Dict.get k d = Some v
    /\ Dict.get k d' = Some (PStr (py_str py_repr v))
    /\ forall k', String.eqb k' k = false -> Dict.get k' d' = Dict.get k' d.

(* ================================================================== *)
(** * Properties *)

Ltac unfold_py :=
  unfold bind, ret, raise, lift, try_except, remote, fail_json, exit_json,
    connect_and_register in *.

(** The end of a path through a method: the result is not [Ret], the
    exit handler is as before and the calls added are read off. *)
Ltac final_leaf :=
  cbn; repeat split; try discriminate;
  eexists; split; [repeat rewrite <- app_assoc; reflexivity | reflexivity].

(** ** Dicts *)

Lemma dict_get_set_same k v d : Dict.get k (Dict.set k v d) = Some v.
Proof.
  induction d as [| [k' v'] d IH]; cbn.
  - now rewrite String.eqb_refl.
  - destruct (String.eqb k k') eqn:E; cbn; rewrite E; [reflexivity | exact IH].
Qed.

Lemma dict_get_set_other k k' v d :
  String.eqb k k' = false -> Dict.get k (Dict.set k' v d) = Dict.get k d.
Proof.
  intros E. induction d as [| [k0 v0] d IH]; cbn.
  - now rewrite E.
  - destruct (String.eqb k' k0) eqn:E0; cbn.
    + apply String.eqb_eq in E0. subst k0. now rewrite E.
    + now rewrite IH.
Qed.

Lemma dict_get_del_other k k' d :
  String.eqb k k' = false -> Dict.get k (Dict.del k' d) = Dict.get k d.
Proof.
  intros E. induction d as [| [k0 v0] d IH]; cbn; [reflexivity |].
  destruct (String.eqb k' k0) eqn:E0; cbn.
  - apply String.eqb_eq in E0. subst k0. now rewrite E.
  - now rewrite IH.
Qed.

Lemma dict_get_app k d e :
  Dict.get k (d ++ e)
  = match Dict.get k d with
    | Some v => Some v
    | None => Dict.get k e
    end.
Proof.
  induction d as [| [k' v'] d IH]; cbn; [reflexivity |].
  now destruct (String.eqb k k').
Qed.

(** ** Values and their equality *)

(** Induction on values: a property that holds of a list when it holds
    of its elements, and of a dict when it holds of its values, holds of
    every value. *)
Lemma pyval_induction (P : pyval -> Prop) :
  P PNone ->
  (forall b, P (PBool b)) ->
  (forall z, P (PInt z)) ->
  (forall s, P (PStr s)) ->
  (forall l, (forall x, In x l -> P x) -> P (PList l)) ->
  (forall d, (forall k x, In (k, x) d -> P x) -> P (PDict d)) ->
  forall v, P v.
Proof.
  intros HN HB HI HS HL HD.
  refine (fix go (v : pyval) : P v :=
            match v with
            | PNone => HN
            | PBool b => HB b
            | PInt z => HI z
            | PStr s => HS s
            | PList l =>
                HL l ((fix elems (l : list pyval) : forall x, In x l -> P x :=
                         match l with
                         | [] => fun x H => match H with end
                         | y :: l' => fun x H => _
                         end) l)
            | PDict d =>
                HD d ((fix vals (d : pydict) : forall k x, In (k, x) d -> P x :=
                         match d with
                         | [] => fun k x H => match H with end
                         | (k', y) :: d' => fun k x H => _
                         end) d)
            end).
  - destruct H as [<- | H]; [exact (go y) | exact (elems l' x H)].
  - destruct H as [E | H]; [ | exact (vals d' k x H)].
    injection E as _ <-. exact (go y).
Qed.

Lemma dict_get_in k v d : Dict.get k d = Some v -> In (k, v) d.
Proof.
  induction d as [| [k' v'] d IH]; cbn; [discriminate |].
  destruct (String.eqb k k') eqn:E.
  - apply String.eqb_eq in E. intros [= ->]. subst. now left.
  - intros H. right. now apply IH.
Qed.

Lemma dict_get_distinct k v d :
  distinct (Dict.keys d) = true -> In (k, v) d -> Dict.get k d = Some v.
Proof.
  induction d as [| [k' v'] d IH]; cbn; [intros _ [] |].
  intros Hd [E | H].
  - injection E as -> ->. now rewrite String.eqb_refl.
  - apply andb_true_iff in Hd as [Hk Hd].
    destruct (String.eqb k k') eqn:E; [ | now apply IH].
    apply String.eqb_eq in E. subst k'.
    apply negb_true_iff in Hk.
    unfold Dict.keys in *.
    assert (existsb (String.eqb k) (map fst d) = true) as Hex.
    { apply existsb_exists. exists k. split; [ | apply String.eqb_refl].
      change k with (fst (k, v)). now apply in_map. }
    congruence.
Qed.

(** On well-formed values [==] is reflexive. *)
Lemma py_eqb_refl v : wf v = true -> py_eqb v v = true.
Proof.
  induction v as [ | b | z | s | l IH | d IH] using pyval_induction;
    cbn [py_eqb wf]; intros Hwf.
  - reflexivity.
  - now destruct b.
  - apply Z.eqb_refl.
  - apply String.eqb_refl.
  - induction l as [| x l IHl]; cbn in *; [reflexivity |].
    apply andb_true_iff in Hwf as [Hx Hl].
    rewrite IH by auto. cbn. apply IHl; auto.
  - apply andb_true_iff in Hwf as [Hk Hv].
    rewrite Nat.eqb_refl. cbn.
    apply forallb_forall. intros [k x] Hin. cbn.
    rewrite (dict_get_distinct k x d Hk Hin).
    apply (IH k x Hin).
    rewrite forallb_forall in Hv. exact (Hv (k, x) Hin).
Qed.

(** ** Locator: [_get_user_id] *)

Section Locator.

Context {S : Type} (zapi : ZabbixAPI S).

Lemma get_user_id_remote_error alias w e s' :
  user_get zapi (alias_filter alias) (server w) = (Err e, s') ->
  _get_user_id zapi alias w =
    (Exit (FailJson (FailedToGetId alias e)),
     logged w s' (UserGet (alias_filter alias))).
Proof.
  intros H. unfold _get_user_id. unfold_py. rewrite H. reflexivity.
Qed.

Lemma get_user_id_no_match alias w v s' :
  user_get zapi (alias_filter alias) (server w) = (Ok v, s') ->
  py_truthy v = false ->
  _get_user_id zapi alias w =
    (Exit (FailJson (DoesNotExist alias)),
     logged w s' (UserGet (alias_filter alias))).
Proof.
  intros H Hv. unfold _get_user_id. unfold_py. rewrite H, Hv. reflexivity.
Qed.

Lemma get_user_id_first_match alias w u rest uid s' :
  user_get zapi (alias_filter alias) (server w)
    = (Ok (PList (PDict u :: rest)), s') ->
  Dict.get "userid" u = Some uid ->
  _get_user_id zapi alias w =
    (Ret uid, logged w s' (UserGet (alias_filter alias))).
Proof.
  intros H Hu. unfold _get_user_id. unfold_py. rewrite H. cbn.
  rewrite Hu. reflexivity.
Qed.

(** [_get_user_id] makes exactly one call, the lookup by alias, and
    either returns or ends the run: it lets no exception out. *)
Lemma get_user_id_world alias w :
  exists s', snd (_get_user_id zapi alias w)
             = logged w s' (UserGet (alias_filter alias))
             /\ forall e, fst (_get_user_id zapi alias w) <> Raise e.
Proof.
  unfold _get_user_id. unfold_py.
  destruct (user_get zapi (alias_filter alias) (server w)) as [[v | e] s'];
    exists s'; cbn.
  - destruct (py_truthy v); cbn; [| split; [reflexivity | discriminate]].
    destruct (py_first v) as [r0 | e]; cbn; [| split; [reflexivity | discriminate]].
    destruct (py_getitem r0 "userid"); cbn; split;
      solve [reflexivity | discriminate].
  - split; [reflexivity | discriminate].
Qed.

(** C6, as the code has it: with zero matches (an empty reply)
    identifier resolution fails with the "does not exists" message
    after its single lookup; with one match or several it returns the
    ["userid"] of the first record of the reply, whatever follows it. *)
Theorem get_user_id_zero_or_first alias w v s' :
  user_get zapi (alias_filter alias) (server w) = (Ok v, s') ->
  (py_truthy v = false ->
   _get_user_id zapi alias w =
     (Exit (FailJson (DoesNotExist alias)),
      logged w s' (UserGet (alias_filter alias))))
  /\ (forall u rest uid,
        v = PList (PDict u :: rest) ->
        Dict.get "userid" u = Some uid ->
        _get_user_id zapi alias w =
          (Ret uid, logged w s' (UserGet (alias_filter alias)))).
Proof.
  intros H. split.
  - intros Hv. now apply get_user_id_no_match with (v := v).
  - intros u rest uid -> Hu. now apply get_user_id_first_match with (u := u) (rest := rest).
Qed.

End Locator.

(** One call of [_get_user_id]: it returns an id or ends the run, after
    its single lookup. *)
Ltac step_id :=
  match goal with
  | |- context [_get_user_id ?z ?a ?w] =>
      let s1 := fresh "s" in
      let Hw := fresh "Hw" in
      let Hr := fresh "Hr" in
      let w1 := fresh "w" in
      destruct (get_user_id_world z a w) as (s1 & Hw & Hr);
      destruct (_get_user_id z a w) as [[? | ? | ?] w1];
      cbn [fst snd] in Hw, Hr; subst w1;
      [ | exfalso; eapply Hr; reflexivity | ]; clear Hr
  end.

(** The endings of [_get_user_id]: an id, or one of its two failures. *)
Lemma get_user_id_endings {S} (zapi : ZabbixAPI S) alias w :
  exists s',
    snd (_get_user_id zapi alias w) = logged w s' (UserGet (alias_filter alias))
    /\ ((exists uid, fst (_get_user_id zapi alias w) = Ret uid)
        \/ fst (_get_user_id zapi alias w) = Exit (FailJson (DoesNotExist alias))
        \/ exists e, fst (_get_user_id zapi alias w)
                     = Exit (FailJson (FailedToGetId alias e))).
Proof.
  unfold _get_user_id. unfold_py.
  destruct (user_get zapi (alias_filter alias) (server w)) as [[v | e] s'];
    exists s'; cbn; [ | eauto].
  destruct (py_truthy v); cbn; [ | auto].
  destruct (py_first v) as [r0 | e]; cbn; [ | eauto].
  destruct (py_getitem r0 "userid"); cbn; eauto.
Qed.

(** One call of [_get_user_id], its endings told apart. *)
Ltac step_id_endings :=
  match goal with
  | |- context [_get_user_id ?z ?a ?w] =>
      let s1 := fresh "s" in
      let Hw := fresh "Hw" in
      let Hr := fresh "Hr" in
      let w1 := fresh "w" in
      let r1 := fresh "r" in
      destruct (get_user_id_endings z a w) as (s1 & Hw & Hr);
      destruct (_get_user_id z a w) as [r1 w1];
      cbn [fst snd] in Hw, Hr; subst w1;
      destruct Hr as [[? ->] | [-> | [? ->]]]
  end.

Lemma get_user_id_zero_or_first_witness :
  user_get Mirror.api (alias_filter "bob") (server (boot two_bobs))
    = (Ok (PList [PDict [("alias", PStr "bob"); ("userid", PStr "1")];
                  PDict [("alias", PStr "bob"); ("userid", PStr "2")]]),
       two_bobs)
  /\ _get_user_id Mirror.api "bob" (boot two_bobs)
     = (Ret (PStr "1"),
        logged (boot two_bobs) two_bobs (UserGet (alias_filter "bob"))).
Proof.
  split; [reflexivity |].
  eapply (proj2 (get_user_id_zero_or_first Mirror.api "bob" (boot two_bobs) _ _
                   eq_refl)); reflexivity.
Defined.

(** C6 as stated fails: with two records under the alias, resolution
    does not fail; it returns the id of the first, and a delete run then
    removes that user and reports success. *)
Lemma get_user_id_two_matches_picks_first :
  fst (user_get Mirror.api (alias_filter "bob") two_bobs)
    = Ok (PList [PDict [("alias", PStr "bob"); ("userid", PStr "1")];
                 PDict [("alias", PStr "bob"); ("userid", PStr "2")]])
  /\ fst (_get_user_id Mirror.api "bob" (boot two_bobs)) = Ret (PStr "1")
  /\ ending (real_run (task "bob" absent None "default" (Some []) (Some []))
               two_bobs)
     = Exit (ExitJson true (Some (SuccessfullyDeleted "bob")))
  /\ calls (real_run (task "bob" absent None "default" (Some []) (Some []))
              two_bobs)
     = [Login; UserGet (alias_filter "bob"); UserDelete (PList [PStr "1"]);
        Logout].
Proof. repeat split; reflexivity. Qed.

(** ** Deleting *)

Section Delete.

Context {S : Type} (zapi : ZabbixAPI S).
Variable check_mode : bool.
Variable py_repr : pyval -> string.

(** C2, as the code has it: a run with [state: absent] on an alias the
    server has no record of makes the lookup by alias and nothing
    else (between login and logout), and ends in [fail_json] with the
    "does not exists" message: it is reported as a failure, not as a
    success with [changed=false]. *)
Theorem absent_on_missing_alias_fails p s g m s1 v s2 :
  state p = absent ->
  for_each_in (convert_usrgrp_entry py_repr) (user_groups p) = Ok g ->
  for_each_in (convert_medias_entry py_repr) (user_medias p) = Ok m ->
  connect zapi (server_url p) (timeout p) (http_login_user p)
    (http_login_password p) (validate_certs p) (login_user p)
    (login_password p) s = (Ok tt, s1) ->
  user_get zapi (alias_filter (alias p)) s1 = (Ok v, s2) ->
  py_truthy v = false ->
  run zapi check_mode true py_repr p s
    = (Exit (FailJson (DoesNotExist (alias p))),
       [Login; UserGet (alias_filter (alias p)); Logout],
       logout zapi s2).
Proof.
  intros Hst Hg Hm Hc Hget Hv.
  unfold run, main. unfold_py. cbn.
  rewrite Hg, Hm. cbn. rewrite Hc, Hst. cbn.
  unfold delete_user. unfold_py.
  erewrite get_user_id_no_match by (cbn; eassumption).
  reflexivity.
Qed.

End Delete.

Lemma absent_on_missing_alias_fails_witness :
  state (task "dave" absent None "default" (Some []) (Some [])) = absent
  /\ py_truthy (PList []) = false
  /\ real_run (task "dave" absent None "default" (Some []) (Some [])) Mirror.empty
     = (Exit (FailJson (DoesNotExist "dave")),
        [Login; UserGet (alias_filter "dave"); Logout],
        Mirror.empty).
Proof.
  split; [reflexivity | split; [reflexivity |]].
  exact (absent_on_missing_alias_fails Mirror.api false repr_opaque
           (task "dave" absent None "default" (Some []) (Some []))
           Mirror.empty [] [] Mirror.empty (PList []) Mirror.empty
           eq_refl eq_refl eq_refl eq_refl eq_refl eq_refl).
Defined.

(** C2 as stated fails: scenario D (alias "dave" absent remotely,
    [state: absent]) does not end as a success with [changed=false]. *)
Lemma absent_on_missing_alias_not_success :
  ending (real_run (task "dave" absent None "default" (Some []) (Some []))
            Mirror.empty)
    = Exit (FailJson (DoesNotExist "dave"))
  /\ ~ reports (real_run (task "dave" absent None "default" (Some []) (Some []))
                  Mirror.empty) false.
Proof.
  split; [reflexivity |].
  intros [result H]. discriminate H.
Qed.

(** ** Updating *)

Section Update.

Context {S : Type} (zapi : ZabbixAPI S).
Variable alias : string.
Variables autologin autologout lang redirect_url refresh rows_per_page
  user_groups user_medias user_name user_surname user_theme user_type : pyval.

(** [update_user] called with the password [pw], and the desired
    record it compares. *)
Local Abbreviation update pw :=
  (update_user zapi alias autologin autologout lang redirect_url refresh
     rows_per_page user_groups user_medias user_name pw user_surname
     user_theme user_type).

Local Abbreviation nstate userid pw :=
  (nstate_of userid alias autologin autologout lang redirect_url refresh
     rows_per_page user_groups user_medias user_name pw user_surname
     user_theme user_type).

(** The desired side holds no password, whichever was supplied. *)
Lemma nstate_without_password userid pw pw' :
  Dict.mem "passwd" (nstate userid pw) = false
  /\ nstate userid pw = nstate userid pw'.
Proof. split; reflexivity. Qed.

(** The fetch of [_get_user_state]: with a first media entry [m0] that
    is a dict, the server is asked for the medias under the keys of
    [m0], and the first record of its reply is returned. *)
Lemma get_user_state_fetch w m0 ms userids w1 result s2 c :
  _get_user_id zapi alias w = (Ret userids, w1) ->
  user_get zapi (state_request (PList (map PStr (Dict.keys m0))) userids)
    (server w1) = (Ok result, s2) ->
  py_first result = Ok c ->
  _get_user_state zapi alias (PList (PDict m0 :: ms)) w
    = (Ret c,
       logged w1 s2
         (UserGet (state_request (PList (map PStr (Dict.keys m0))) userids))).
Proof.
  intros Hid Hget Hc. unfold _get_user_state. unfold_py. cbn.
  rewrite Hid, Hget, Hc. reflexivity.
Qed.

(** An empty media list stops [_get_user_state] at [medias[0]], before
    its [try] and before any call. *)
Lemma get_user_state_no_medias w :
  _get_user_state zapi alias (PList []) w = (Raise IndexError, w).
Proof. reflexivity. Qed.

(** The verdict of [update_user], once both fetches succeeded: the
    fetched record, its medias renamed, is compared with the desired
    record as Python's [!=] compares dicts; equal means no call and
    [changed=False], different means [user.update] on the desired
    record and [changed=True]. *)
Lemma update_user_verdict pw w userid w1 m0 ms userids w2 result s3 c m :
  user_medias = PList (PDict m0 :: ms) ->
  _get_user_id zapi alias w = (Ret userid, w1) ->
  _get_user_id zapi alias w1 = (Ret userids, w2) ->
  user_get zapi (state_request (PList (map PStr (Dict.keys m0))) userids)
    (server w2) = (Ok result, s3) ->
  py_first result = Ok (PDict c) ->
  Dict.get "medias" c = Some m ->
  let w3 := logged w2 s3
              (UserGet (state_request (PList (map PStr (Dict.keys m0))) userids)) in
  update pw w =
    if py_eqb (PDict (cstate_of c m)) (PDict (nstate userid pw))
    then (Exit (ExitJson false (Some (NoChangesRequired alias))), w3)
    else
      let (r, s4) := user_update zapi (PDict (nstate userid pw)) s3 in
      (match r with
       | Ok _ => Exit (ExitJson true
                         (Some (SuccessfullyUpdated alias
                                  (PDict (cstate_of c m))
                                  (PDict (nstate userid pw)))))
       | Err e => Exit (FailJson (FailedToUpdate alias e))
       end,
       logged w3 s4 (UserUpdate (PDict (nstate userid pw)))).
Proof.
  intros Hm Hid1 Hid2 Hget Hc Hmed w3. subst w3.
  pose proof (get_user_state_fetch w1 m0 ms userids w2 result s3 (PDict c)
                Hid2 Hget Hc) as Hst.
  unfold nstate_of, update_user. unfold_py.
  rewrite Hid1. cbn -[py_eqb]. rewrite Hm, Hst. cbn -[py_eqb].
  rewrite Hmed. cbn -[py_eqb]. fold (cstate_of c m). unfold py_ne.
  destruct (py_eqb (PDict (cstate_of c m)) _); cbn -[py_eqb].
  - reflexivity.
  - destruct (user_update zapi _ s3) as [[v | e] s4]; reflexivity.
Qed.

(** Nothing in [update_user] reads the password once it is deleted
    from the one dict that [params] and [nstate] name. *)
Lemma update_user_password_unread pw pw' w : update pw w = update pw' w.
Proof. reflexivity. Qed.

Lemma update_user_final pw : final_action (update pw).
Proof.
  intros w. unfold update_user, _get_user_state. unfold_py.
  step_id; cbn -[py_ne py_first py_keys py_pop]; [ | final_leaf].
  destruct (py_first user_medias); cbn -[py_ne py_first py_keys py_pop];
    [ | final_leaf].
  destruct (py_keys _); cbn -[py_ne py_first py_keys py_pop]; [ | final_leaf].
  step_id; cbn -[py_ne py_first py_keys py_pop]; [ | final_leaf].
  destruct (user_get zapi _ _) as [[result | e] s3];
    cbn -[py_ne py_first py_keys py_pop]; [ | final_leaf].
  destruct (py_first result); cbn -[py_ne py_first py_keys py_pop];
    [ | final_leaf].
  destruct (py_pop _ _) as [[m c] | e]; cbn -[py_ne py_first py_keys py_pop];
    [ | final_leaf].
  destruct (py_setitem _ _ _); cbn -[py_ne]; [ | final_leaf].
  destruct (py_ne _ _); cbn; [ | final_leaf].
  destruct (user_update zapi _ _) as [[v | e] s4]; final_leaf.
Qed.

End Update.

(** ** One action per run *)

Lemma last_only_cons c l :
  mutating c = false -> last_only l = true -> last_only (c :: l) = true.
Proof.
  intros Hc Hl. destruct l as [| c' l']; [reflexivity |].
  cbn [last_only]. rewrite Hc. exact Hl.
Qed.

Lemma last_only_mutations l : last_only l = true -> (mutations l <= 1)%nat.
Proof.
  unfold mutations. induction l as [| c l IH]; cbn [last_only]; intros H.
  - cbn. lia.
  - destruct l as [| c' l'].
    + cbn. destruct (mutating c); cbn; lia.
    + apply andb_true_iff in H as [Hc Hl]. apply negb_true_iff in Hc.
      cbn [filter]. rewrite Hc. exact (IH Hl).
Qed.

Lemma mutations_app l l' : mutations (l ++ l') = (mutations l + mutations l')%nat.
Proof. unfold mutations. now rewrite filter_app, length_app. Qed.

Section Actions.

Context {S : Type} (zapi : ZabbixAPI S).
Variable check_mode : bool.
Variable HAS_ZABBIX_API : bool.
Variable py_repr : pyval -> string.

Lemma delete_user_final alias : final_action (delete_user zapi py_repr alias).
Proof.
  intros w. unfold delete_user. unfold_py.
  step_id; cbn -[py_truthy]; [ | final_leaf].
  destruct (py_truthy _); cbn; [ | final_leaf].
  destruct (user_delete zapi _ _) as [[v | e] s2]; final_leaf.
Qed.

Lemma create_user_final alias autologin autologout lang redirect_url refresh
    rows_per_page user_groups user_medias user_name user_password
    user_surname user_theme user_type :
  final_action
    (create_user zapi check_mode alias autologin autologout lang redirect_url
       refresh rows_per_page user_groups user_medias user_name user_password
       user_surname user_theme user_type).
Proof.
  intros w. unfold create_user. unfold_py.
  destruct check_mode; cbn.
  - repeat split; try discriminate. exists []. now rewrite app_nil_r.
  - destruct (user_create zapi _ _) as [[v | e] s2]; final_leaf.
Qed.

(** [check_user_exist] makes one call, the lookup by alias. *)
Lemma check_user_exist_world alias w :
  exists s', snd (check_user_exist zapi alias w)
             = logged w s' (UserGet (alias_filter alias))
             /\ forall e, fst (check_user_exist zapi alias w) <> Raise e.
Proof.
  unfold check_user_exist. unfold_py.
  destruct (user_get zapi _ _) as [[v | e] s']; exists s'; cbn;
    split; solve [reflexivity | discriminate].
Qed.

(** The whole of [main]: it never returns normally, and of the calls
    it makes only the last may be mutating. *)
Lemma main_final p w :
  (forall u, fst (main zapi check_mode HAS_ZABBIX_API py_repr p w) <> Ret u)
  /\ exists ext,
       trace (snd (main zapi check_mode HAS_ZABBIX_API py_repr p w))
         = trace w ++ ext
       /\ last_only ext = true.
Proof.
  unfold main. unfold_py.
  destruct HAS_ZABBIX_API; cbn; [ | split; [discriminate | exists []; now rewrite app_nil_r]].
  destruct (for_each_in _ (user_groups p)) as [g | e]; cbn;
    [ | split; [discriminate | exists []; now rewrite app_nil_r]].
  destruct (for_each_in _ (user_medias p)) as [m | e]; cbn;
    [ | split; [discriminate | exists []; now rewrite app_nil_r]].
  destruct (connect zapi _ _ _ _ _ _ _ _) as [[[] | e] s1]; cbn;
    [ | split; [discriminate | exists [Login]; split; reflexivity]].
  destruct (state p).
  - (* present *)
    cbn.
    destruct (check_user_exist_world (alias p)
                {| server := s1; trace := trace w ++ [Login];
                   atexit_logout := true |}) as (s2 & Hw & Hr).
    destruct (check_user_exist zapi (alias p) _) as [[found | e | o] w2];
      cbn [fst snd] in Hw, Hr; subst w2;
      [ | exfalso; eapply Hr; reflexivity
        | split; [discriminate | eexists; split;
                                 [cbn; rewrite <- app_assoc; reflexivity | reflexivity]]].
    match goal with
    | |- context [if py_truthy found then ?u else ?c] =>
        assert (Hf : final_action (if py_truthy found then u else c))
          by (destruct (py_truthy found);
              [apply update_user_final | apply create_user_final])
    end.
    match type of Hf with
    | final_action ?m =>
        destruct (Hf (logged {| server := s1; trace := trace w ++ [Login];
                                atexit_logout := true |} s2
                        (UserGet (alias_filter (alias p)))))
          as (Hnr & _ & ext & Htr & Hlast);
        destruct (m _) as [[u | e | o] w3]
    end; cbn [fst snd] in *;
      try (exfalso; eapply Hnr; reflexivity);
      (split; [discriminate | ]);
      exists (Login :: UserGet (alias_filter (alias p)) :: ext);
      (split; [rewrite Htr; cbn; repeat rewrite <- app_assoc; reflexivity
              | now repeat apply last_only_cons]).
  - (* absent *)
    destruct (delete_user_final (alias p)
                {| server := s1; trace := trace w ++ [Login];
                   atexit_logout := true |}) as (Hnr & _ & ext & Htr & Hlast).
    destruct (delete_user zapi py_repr (alias p) _) as [[u | e | o] w2];
      cbn [fst snd] in *;
      try (exfalso; eapply Hnr; reflexivity);
      (split; [discriminate | ]);
      exists (Login :: ext);
      (split; [rewrite Htr; cbn; repeat rewrite <- app_assoc; reflexivity
              | now apply last_only_cons]).
Qed.

(** C10: a run makes at most one mutating call.  The module's calls
    are followed at most by the exit handler's logout, only the last of
    them may be a create, an update or a delete, and [main] never
    returns normally: every path ends in [exit_json], [fail_json] or
    an uncaught exception. *)
Theorem at_most_one_mutating_call p s :
  (mutations (calls (run zapi check_mode HAS_ZABBIX_API py_repr p s)) <= 1)%nat
  /\ ending (run zapi check_mode HAS_ZABBIX_API py_repr p s) <> Ret tt
  /\ exists body closing,
       calls (run zapi check_mode HAS_ZABBIX_API py_repr p s) = body ++ closing
       /\ last_only body = true
       /\ (closing = [] \/ closing = [Logout]).
Proof.
  unfold run, calls, ending.
  destruct (main_final p {| server := s; trace := []; atexit_logout := false |})
    as (Hnr & ext & Htr & Hlast).
  destruct (main zapi check_mode HAS_ZABBIX_API py_repr p _) as [r w].
  cbn [fst snd trace] in *. rewrite app_nil_l in Htr.
  destruct (atexit_logout w); cbn [fst snd]; rewrite Htr.
  - split; [ | split; [apply Hnr | exists ext, [Logout]; auto]].
    rewrite mutations_app. cbn. pose proof (last_only_mutations ext Hlast). lia.
  - split; [ | split; [apply Hnr | exists ext, []; rewrite app_nil_r; auto]].
    now apply last_only_mutations.
Qed.

End Actions.

(** ** Dry runs *)

(** C1 fails on the code: only [create_user] looks at [check_mode].
    A dry run with [state: absent] on an existing user calls
    [user.delete] and the user is gone; a dry run that finds a
    difference calls [user.update] and the server stores it.  The dry
    run of a creation makes no mutating call, and in all three cases the
    dry run reports the [changed] a real run reports. *)
Theorem dry_run_still_deletes_and_updates :
  filter mutating
    (calls (dry_run (task "bob" absent None "default" (Some []) (Some []))
              with_bob))
    = [UserDelete (PList [PStr "1"])]
  /\ Mirror.users
       (after (dry_run (task "bob" absent None "default" (Some []) (Some []))
                 with_bob)) = []
  /\ mutations (calls (dry_run (bob "p@ss1" "dark-theme") with_bob)) = 1%nat
  /\ map (Dict.get "theme")
       (Mirror.users (after (dry_run (bob "p@ss1" "dark-theme") with_bob)))
     = [Some (PStr "dark-theme")]
  /\ mutations (calls (dry_run (bob "p@ss1" "default") Mirror.empty)) = 0%nat
  /\ reports (dry_run (task "bob" absent None "default" (Some []) (Some []))
                with_bob) true
  /\ reports (real_run (task "bob" absent None "default" (Some []) (Some []))
                with_bob) true
  /\ reports (dry_run (bob "p@ss1" "dark-theme") with_bob) true
  /\ reports (real_run (bob "p@ss1" "dark-theme") with_bob) true
  /\ reports (dry_run (bob "p@ss1" "default") Mirror.empty) true
  /\ reports (real_run (bob "p@ss1" "default") Mirror.empty) true.
Proof.
  repeat split; try reflexivity; eexists; reflexivity.
Qed.

(** ** The password on the update path *)

(** C5 fails on the code: [nstate = params] binds a second name to the
    one dict, so [del nstate['passwd']] empties the password out of
    [params] too.  In scenario B (theme changed, password "p@ss1"
    supplied) the one mutating call is a [user.update] whose parameters
    hold the new theme and no ["passwd"]. *)
Theorem update_call_drops_password :
  user_password (bob "p@ss1" "dark-theme") = Some "p@ss1"
  /\ exists d,
       filter mutating (calls (real_run (bob "p@ss1" "dark-theme") with_bob))
         = [UserUpdate (PDict d)]
       /\ Dict.get "theme" d = Some (PStr "dark-theme")
       /\ Dict.get "passwd" d = None.
Proof.
  split; [reflexivity |]. eexists. repeat split; reflexivity.
Qed.

Section PasswordChange.

Context {S : Type} (zapi : ZabbixAPI S).
Variable check_mode : bool.
Variable HAS_ZABBIX_API : bool.
Variable py_repr : pyval -> string.

(** [create_user] and [delete_user] never report [changed=False]. *)
Lemma create_user_reports_change alias autologin autologout lang redirect_url
    refresh rows_per_page user_groups user_medias user_name user_password
    user_surname user_theme user_type w result :
  fst (create_user zapi check_mode alias autologin autologout lang
         redirect_url refresh rows_per_page user_groups user_medias user_name
         user_password user_surname user_theme user_type w)
  <> Exit (ExitJson false result).
Proof.
  unfold create_user. unfold_py.
  destruct check_mode; cbn; [discriminate | ].
  destruct (user_create zapi _ _) as [[v | e] s2]; discriminate.
Qed.

Lemma delete_user_reports_change alias w result :
  fst (delete_user zapi py_repr alias w) <> Exit (ExitJson false result).
Proof.
  unfold delete_user. unfold_py.
  step_id_endings; cbn -[py_truthy]; try discriminate.
  destruct (py_truthy _); cbn; [ | discriminate].
  destruct (user_delete zapi _ _) as [[v | e] s2]; discriminate.
Qed.

(** On a server with quiet reads, [_get_user_id] leaves the server as
    it found it. *)
Lemma get_user_id_quiet alias w :
  quiet_reads zapi ->
  snd (_get_user_id zapi alias w)
    = logged w (server w) (UserGet (alias_filter alias))
  /\ ((exists uid, fst (_get_user_id zapi alias w) = Ret uid)
      \/ exists msg, fst (_get_user_id zapi alias w) = Exit (FailJson msg)).
Proof.
  intros (_ & _ & Hget). unfold _get_user_id. unfold_py.
  pose proof (Hget (alias_filter alias) (server w)) as Hs.
  destruct (user_get zapi (alias_filter alias) (server w)) as [[v | e] s'];
    cbn in Hs; subst s'; cbn; [ | eauto].
  destruct (py_truthy v); cbn; [ | eauto].
  destruct (py_first v) as [r0 | e]; cbn; [ | eauto].
  destruct (py_getitem r0 "userid"); cbn; eauto.
Qed.

(** An [update_user] that reports [changed=False] on such a server has
    left it as it found it. *)
Lemma update_user_quiet alias autologin autologout lang redirect_url refresh
    rows_per_page user_groups user_medias user_name user_password
    user_surname user_theme user_type w result :
  quiet_reads zapi ->
  fst (update_user zapi alias autologin autologout lang redirect_url refresh
         rows_per_page user_groups user_medias user_name user_password
         user_surname user_theme user_type w)
  = Exit (ExitJson false result) ->
  server (snd (update_user zapi alias autologin autologout lang redirect_url
                 refresh rows_per_page user_groups user_medias user_name
                 user_password user_surname user_theme user_type w))
  = server w.
Proof.
  intros Hq. pose proof Hq as (_ & _ & Hget).
  unfold update_user, _get_user_state. unfold_py.
  destruct (get_user_id_quiet alias w Hq) as (Hw & Hr).
  destruct (_get_user_id zapi alias w) as [r1 w1]. cbn [fst snd] in Hw, Hr.
  subst w1. destruct Hr as [[uid ->] | [msg ->]];
    cbn -[py_ne py_first py_keys py_pop]; [ | discriminate].
  destruct (py_first user_medias); cbn -[py_ne py_first py_keys py_pop];
    [ | discriminate].
  destruct (py_keys _); cbn -[py_ne py_first py_keys py_pop]; [ | discriminate].
  match goal with
  | |- context [_get_user_id zapi alias ?w'] =>
      destruct (get_user_id_quiet alias w' Hq) as (Hw & Hr);
      destruct (_get_user_id zapi alias w') as [r2 w2]
  end.
  cbn [fst snd] in Hw, Hr. subst w2.
  destruct Hr as [[uids ->] | [msg ->]];
    cbn -[py_ne py_first py_keys py_pop]; [ | discriminate].
  match goal with
  | |- context [user_get zapi ?q ?s0] =>
      pose proof (Hget q s0) as Hs;
      destruct (user_get zapi q s0) as [[fetched | e] s3]
  end;
    cbn in Hs; subst s3; cbn -[py_ne py_first py_keys py_pop];
    [ | discriminate].
  destruct (py_first fetched); cbn -[py_ne py_first py_keys py_pop];
    [ | discriminate].
  destruct (py_pop _ _) as [[med c] | e];
    cbn -[py_ne py_first py_keys py_pop]; [ | discriminate].
  destruct (py_setitem _ _ _); cbn -[py_ne]; [ | discriminate].
  destruct (py_ne _ _); cbn; [ | reflexivity].
  destruct (user_update zapi _ _) as [[v | e] s4]; discriminate.
Qed.

(** A [main] that reports [changed=False] ran [update_user], which
    never reads the password: with another password it runs alike; and
    on a server with quiet reads it leaves the server as it found it. *)
Lemma main_unchanged p pw' w result :
  fst (main zapi check_mode HAS_ZABBIX_API py_repr p w)
    = Exit (ExitJson false result) ->
  main zapi check_mode HAS_ZABBIX_API py_repr (with_password pw' p) w
    = main zapi check_mode HAS_ZABBIX_API py_repr p w
  /\ (quiet_reads zapi ->
      server (snd (main zapi check_mode HAS_ZABBIX_API py_repr p w))
      = server w).
Proof.
  unfold main, with_password. unfold_py. cbn.
  destruct HAS_ZABBIX_API; cbn; [ | discriminate].
  destruct (for_each_in _ (user_groups p)) as [g | e]; cbn; [ | discriminate].
  destruct (for_each_in _ (user_medias p)) as [m | e]; cbn; [ | discriminate].
  destruct (connect zapi _ _ _ _ _ _ _ (server w)) as [[[] | e] s1] eqn:Hc;
    cbn; [ | discriminate].
  assert (Hs1 : quiet_reads zapi -> s1 = server w).
  { intros (Hcon & _). specialize (Hcon (server_url p) (timeout p)
      (http_login_user p) (http_login_password p) (validate_certs p)
      (login_user p) (login_password p) (server w)).
    rewrite Hc in Hcon. exact Hcon. }
  clear Hc. destruct (state p).
  - (* present *)
    cbn. unfold check_user_exist. unfold_py. cbn.
    destruct (user_get zapi (alias_filter (alias p)) s1) as [[found | e] s2]
      eqn:Hfound; cbn; [ | discriminate].
    assert (Hs2 : quiet_reads zapi -> s2 = server w).
    { intros Hq. rewrite <- (Hs1 Hq). destruct Hq as (_ & _ & Hget).
      specialize (Hget (alias_filter (alias p)) s1).
      rewrite Hfound in Hget. exact Hget. }
    clear Hfound. destruct (py_truthy found).
    + match goal with
      | |- context [update_user zapi ?a ?b ?c0 ?d ?e ?f ?g0 ?h ?i ?j
                      (py_opt_str (user_password p)) ?l ?m0 ?n ?w0] =>
          pose proof (update_user_quiet a b c0 d e f g0 h i j
                        (py_opt_str (user_password p)) l m0 n w0) as Hu;
          rewrite (update_user_password_unread zapi a b c0 d e f g0 h i j
                     l m0 n (py_opt_str pw') (py_opt_str (user_password p)) w0)
      end.
      destruct (update_user zapi _ _ _ _ _ _ _ _ _ _ _ _ _ _ _) as [r3 w3].
      cbn [fst snd] in *. intros Hr. split; [reflexivity | ].
      intros Hq. destruct r3 as [[] | e | o]; cbn [fst snd] in *;
        try discriminate.
      rewrite (Hu result Hq Hr). now apply Hs2.
    + intros Hr. exfalso. revert Hr.
      match goal with
      | |- context [create_user zapi check_mode ?a ?b ?c0 ?d ?e ?f ?g0 ?h ?i ?j
                      ?k ?l ?m0 ?n ?w0] =>
          pose proof (create_user_reports_change a b c0 d e f g0 h i j k l m0
                        n w0 result) as Hn;
          destruct (create_user zapi check_mode a b c0 d e f g0 h i j k l m0 n
                      w0) as [[[] | ex | o] w3]
      end; cbn [fst snd] in *; congruence.
  - (* absent *)
    intros Hr. exfalso. revert Hr.
    pose proof (delete_user_reports_change (alias p)
                  {| server := s1; trace := trace w ++ [Login];
                     atexit_logout := true |} result) as Hn.
    destruct (delete_user zapi py_repr (alias p) _) as [[[] | e | o] w3];
      cbn [fst snd] in *; congruence.
Qed.

(** C3, as the code has it.  The desired record enters the comparison
    without the password, and the fetched record as the server returned
    it: a ["passwd"] entry in it makes the two differ.  So for two runs
    that differ only in the password supplied, on the same server:
    when the one reports [changed=False] (the server returned no
    password and the other fields are in sync), so does the other; and
    on a server that reading leaves as it is, so does the other when it
    runs after the one. *)
Theorem password_only_change_keeps_no_change p pw' s :
  reports (run zapi check_mode HAS_ZABBIX_API py_repr p s) false ->
  (forall userid g m,
      Dict.mem "passwd" (desired_record p userid g m) = false
      /\ desired_record (with_password pw' p) userid g m
         = desired_record p userid g m)
  /\ (forall userid g m c med,
         Dict.mem "passwd" c = true ->
         py_eqb (PDict (cstate_of c med)) (PDict (desired_record p userid g m))
         = false)
  /\ reports (run zapi check_mode HAS_ZABBIX_API py_repr (with_password pw' p) s)
       false
  /\ (quiet_reads zapi ->
      after (run zapi check_mode HAS_ZABBIX_API py_repr p s) = s
      /\ reports (run zapi check_mode HAS_ZABBIX_API py_repr
                    (with_password pw' p)
                    (after (run zapi check_mode HAS_ZABBIX_API py_repr p s)))
           false).
Proof.
  intros Hrep.
  assert (Hsame :
            run zapi check_mode HAS_ZABBIX_API py_repr (with_password pw' p) s
            = run zapi check_mode HAS_ZABBIX_API py_repr p s
            /\ (quiet_reads zapi ->
                after (run zapi check_mode HAS_ZABBIX_API py_repr p s) = s)).
  { destruct Hrep as (result & Hr). revert Hr. unfold run, ending, after.
    pose proof (main_unchanged p pw'
                  {| server := s; trace := []; atexit_logout := false |} result)
      as Hm.
    destruct (main zapi check_mode HAS_ZABBIX_API py_repr p _) as [r w].
    intros Hr.
    assert (Hr' : r = Exit (ExitJson false result))
      by (destruct (atexit_logout w); exact Hr).
    destruct (Hm Hr') as (-> & Hq). split; [reflexivity | ].
    intros Hquiet. specialize (Hq Hquiet). cbn [fst snd server] in Hq.
    destruct Hquiet as (_ & Hout & _).
    destruct (atexit_logout w); cbn [snd]; [rewrite Hout | ]; exact Hq. }
  destruct Hsame as (Hrun & Hafter).
  split; [intros userid g m; split; reflexivity | ].
  split.
  { intros userid g m c med Hc.
    unfold Dict.mem in Hc.
    destruct (Dict.get "passwd" c) as [v |] eqn:Hv; [ | discriminate].
    assert (Hin : In ("passwd", v) (cstate_of c med)).
    { apply dict_get_in. unfold cstate_of.
      rewrite dict_get_set_other by reflexivity.
      now rewrite dict_get_del_other by reflexivity. }
    cbn [py_eqb]. apply andb_false_iff. right.
    apply not_true_is_false. intros Hall.
    rewrite forallb_forall in Hall. specialize (Hall _ Hin).
    cbn in Hall. discriminate Hall. }
  split; [now rewrite Hrun | ].
  intros Hquiet. specialize (Hafter Hquiet).
  split; [exact Hafter | ]. rewrite Hafter. now rewrite Hrun.
Qed.

End PasswordChange.

(** Reading leaves the mirror server as it is. *)
Lemma mirror_quiet_reads : quiet_reads Mirror.api.
Proof.
  repeat split.
  intros request s. unfold user_get, Mirror.api, Mirror.get.
  destruct request as [ | | | | | r]; try reflexivity.
  destruct (Dict.get "filter" r) as [[ | | | | | f] |];
    try (destruct (Dict.get "alias" f); reflexivity);
    destruct (Dict.get "userids" r); reflexivity.
Qed.

Lemma password_only_change_keeps_no_change_witness :
  reports (real_run (bob "one" "default") Mirror.empty) true
  /\ reports (real_run (bob "two" "default")
                (after (real_run (bob "one" "default") Mirror.empty))) false
  /\ reports (real_run (bob "two" "default")
                (after (real_run (bob "one" "default")
                          (after (real_run (bob "one" "default")
                                    Mirror.empty))))) false.
Proof.
  split; [eexists; reflexivity | ].
  destruct (password_only_change_keeps_no_change Mirror.api false true
              repr_opaque (bob "one" "default") (Some "two")
              (after (real_run (bob "one" "default") Mirror.empty)))
    as (_ & _ & Hsame & Hnext).
  - eexists; reflexivity.
  - split; [exact Hsame | exact (proj2 (Hnext mirror_quiet_reads))].
Defined.

(** C3 as stated fails: the record fetched from the server is not
    stripped of its password.  When the server returns the ["passwd"]
    the module asks for, two update runs that differ only in the
    supplied password, on a user whose other fields are all as desired,
    both report [changed=True]; the same record without the entry is
    in sync. *)
Lemma remote_password_is_compared :
  reports (canned_run carol_found
             (carol_record (PStr "50") [("passwd", PStr "5fce1b3e34b520af")])
             (carol "secret")) true
  /\ reports (canned_run carol_found
                (carol_record (PStr "50") [("passwd", PStr "5fce1b3e34b520af")])
                (carol "other")) true
  /\ reports (canned_run carol_found (carol_record (PStr "50") [])
                (carol "secret")) false.
Proof. repeat split; eexists; reflexivity. Qed.

(** ** The media projection *)

(** C8 fails on the code when the media list is empty: [medias[0]]
    raises [IndexError] ahead of the fetch, and [update_user] turns it
    into a failed run.  No detailed fetch is made: the two calls
    between login and logout are lookups by alias. *)
Theorem empty_media_list_fails_update :
  ending (real_run (task "bob" present (Some "p@ss1") "default"
                      (Some group7) (Some [])) with_bob)
    = Exit (FailJson (FailedToUpdate "bob" IndexError))
  /\ calls (real_run (task "bob" present (Some "p@ss1") "default"
                        (Some group7) (Some [])) with_bob)
     = [Login; UserGet (alias_filter "bob"); UserGet (alias_filter "bob");
        Logout].
Proof. split; reflexivity. Qed.

(** ** The coercion loops *)

Section Coercion.

Context {S : Type} (zapi : ZabbixAPI S).
Variable check_mode : bool.
Variable py_repr : pyval -> string.

(** What the group loop can raise: the [TypeError] of a list left out
    or of an entry that is no dict, or the [KeyError] of a dict without
    ["usrgrpid"]. *)
Lemma usrgrp_loop_errors o e :
  for_each_in (convert_usrgrp_entry py_repr) o = Err e ->
  e = TypeError \/ e = KeyError (PStr "usrgrpid").
Proof.
  destruct o as [l |]; cbn; [ | intros [= <-]; now left].
  induction l as [| x l IH]; cbn; [discriminate | ].
  destruct (convert_usrgrp_entry py_repr x) as [x' | ex] eqn:Hx.
  - destruct (for_each _ l) as [r | er]; [discriminate | ].
    intros [= <-]. now apply IH.
  - intros [= <-]. revert Hx.
    unfold convert_usrgrp_entry, py_getitem, py_setitem.
    destruct x as [ | | | | | d]; try (intros [= <-]; now left).
    destruct (Dict.get "usrgrpid" d); [discriminate | ].
    intros [= <-]. now right.
Qed.

(** C9, as the code has it.  When [user_groups] or [user_medias] is
    left out, a run that got past the import guard ends in an uncaught
    exception raised by the "Convert int to str" loops, before the
    login and before any call, whatever [state] asks for.  The
    exception is the [TypeError] of iterating [None] when [user_groups]
    is the one left out, and when [user_medias] is and the group loop
    passes; when [user_medias] is left out and a supplied group entry
    fails its own conversion, the exception is that entry's, raised
    before the media loop is reached.  Without the library the run
    fails with the missing-library message ahead of the loops. *)
Theorem omitted_list_raises_before_any_call p s :
  user_groups p = None \/ user_medias p = None ->
  run zapi check_mode false py_repr p s
    = (Exit (FailJson MissingRequiredLib), [], s)
  /\ exists e,
       run zapi check_mode true py_repr p s = (Raise e, [], s)
       /\ (user_groups p = None -> e = TypeError)
       /\ (forall g,
              for_each_in (convert_usrgrp_entry py_repr) (user_groups p) = Ok g ->
              e = TypeError)
       /\ (forall e',
              for_each_in (convert_usrgrp_entry py_repr) (user_groups p) = Err e' ->
              e = e' /\ (e' = TypeError \/ e' = KeyError (PStr "usrgrpid"))).
Proof.
  intros H. split; [reflexivity | ].
  unfold run, main. unfold_py. cbn.
  destruct (for_each_in (convert_usrgrp_entry py_repr) (user_groups p))
    as [g | e] eqn:Hg; cbn.
  - destruct H as [H | H].
    + rewrite H in Hg. discriminate Hg.
    + rewrite H. cbn. exists TypeError.
      split; [reflexivity | ]. split; [reflexivity | ].
      split; [reflexivity | ]. intros e' He'. discriminate He'.
  - exists e. split; [reflexivity | ]. split; [ | split].
    + intros Hnone. rewrite Hnone in Hg. cbn in Hg. now injection Hg as <-.
    + intros g Hok. discriminate Hok.
    + intros e' He'. injection He' as <-.
      split; [reflexivity | now apply (usrgrp_loop_errors (user_groups p))].
Qed.

End Coercion.

Lemma omitted_list_raises_before_any_call_witness :
  run Mirror.api false true repr_opaque
    (task "bob" absent None "default" (Some group7) None) with_bob
  = (Raise TypeError, [], with_bob).
Proof.
  destruct (omitted_list_raises_before_any_call Mirror.api false repr_opaque
              (task "bob" absent None "default" (Some group7) None) with_bob
              (or_intror eq_refl)) as (_ & e & Hrun & _ & Hpass & _).
  rewrite (Hpass [PDict [("usrgrpid", PStr "7")]] eq_refl) in Hrun.
  exact Hrun.
Defined.

(** C9 as stated fails: a run with a list left out need not end in a
    type error.  With [user_medias] left out and a group entry without
    ["usrgrpid"], the group loop raises [KeyError('usrgrpid')] before
    the media loop is reached; and where the library is missing, the
    import guard ends the run in [fail_json] before either loop. *)
Lemma omitted_medias_can_raise_key_error :
  user_medias (task "bob" absent None "default"
                 (Some [PDict [("name", PStr "ops")]]) None) = None
  /\ real_run (task "bob" absent None "default"
                 (Some [PDict [("name", PStr "ops")]]) None) with_bob
     = (Raise (KeyError (PStr "usrgrpid")), [], with_bob)
  /\ KeyError (PStr "usrgrpid") <> TypeError
  /\ run Mirror.api false false repr_opaque
       (task "bob" absent None "default" None None) with_bob
     = (Exit (FailJson MissingRequiredLib), [], with_bob).
Proof. repeat split. discriminate. Qed.

(** ** What the coercion loops leave *)

Section Loops.

Variable py_repr : pyval -> string.

Lemma for_each_Forall (body : pyval -> reply pyval) (P : pyval -> Prop) :
  (forall e e', body e = Ok e' -> P e') ->
  forall l l', for_each body l = Ok l' -> Forall P l'.
Proof.
  intros Hbody. induction l as [| e l IH]; cbn; intros l' H.
  - injection H as <-. constructor.
  - destruct (body e) as [e' |] eqn:He; [ | discriminate].
    destruct (for_each body l) as [r |]; [ | discriminate].
    injection H as <-. constructor; eauto.
Qed.

Lemma convert_usrgrp_entry_text e e' :
  convert_usrgrp_entry py_repr e = Ok e' -> has_text "usrgrpid" e'.
Proof.
  unfold convert_usrgrp_entry, py_getitem, py_setitem.
  destruct e as [ | | | | | d]; try discriminate.
  destruct (Dict.get "usrgrpid" d); [ | discriminate].
  intros H. injection H as <-.
  eexists _, _. split; [reflexivity | apply dict_get_set_same].
Qed.

Lemma convert_if_present_text k e e' :
  convert_if_present py_repr k e = Ok e' -> text_if_present k e'.
Proof.
  unfold convert_if_present, py_contains, py_getitem, py_setitem, Dict.mem.
  destruct e as [ | | | | l | d]; try discriminate.
  - destruct (is_substring k s); [discriminate |].
    intros H. injection H as <-. intros d v Hd. discriminate Hd.
  - destruct (existsb _ l); [discriminate |].
    intros H. injection H as <-. intros d v Hd. discriminate Hd.
  - destruct (Dict.get k d) as [x |] eqn:Hx.
    + intros H. injection H as <-. intros d' v Hd Hv.
      injection Hd as <-. rewrite dict_get_set_same in Hv.
      injection Hv as <-. eauto.
    + intros H. injection H as <-. intros d' v Hd Hv.
      injection Hd as <-. congruence.
Qed.

Lemma convert_if_present_keeps k k' e e' :
  String.eqb k' k = false ->
  convert_if_present py_repr k e = Ok e' ->
  text_if_present k' e -> text_if_present k' e'.
Proof.
  intros E. unfold convert_if_present, py_contains, py_getitem, py_setitem,
    Dict.mem.
  destruct e as [ | | | | l | d]; try discriminate.
  - destruct (is_substring k s); [discriminate |]. now intros [= <-].
  - destruct (existsb _ l); [discriminate |]. now intros [= <-].
  - destruct (Dict.get k d) as [x |]; intros [= <-]; [ | auto].
    intros Ht d' v [= <-] Hv. rewrite dict_get_set_other in Hv by exact E.
    now apply (Ht d v).
Qed.

Lemma convert_medias_entry_text e e' :
  convert_medias_entry py_repr e = Ok e' ->
  text_if_present "mediatypeid" e' /\ text_if_present "severity" e'.
Proof.
  unfold convert_medias_entry.
  destruct (convert_if_present py_repr "mediatypeid" e) as [e1 |] eqn:H1;
    [ | discriminate].
  intros H2. split.
  - eapply convert_if_present_keeps; [ | exact H2 | ]; [reflexivity |].
    now apply convert_if_present_text in H1.
  - now apply convert_if_present_text in H2.
Qed.

End Loops.

(** ** A run on the update path *)

Section UpdatePath.

Context {S : Type} (zapi : ZabbixAPI S).
Variable check_mode : bool.
Variable py_repr : pyval -> string.

(** A run with [state: present] that finds the alias, resolves it twice
    and fetches a record [c] with a medias entry: it compares [c], the
    medias renamed, with the desired record and ends accordingly. *)
Lemma run_update_path p s g m0 ms s1 found s2 u1 rest1 userid s3
    u2 rest2 userids s4 result s5 c med :
  state p = present ->
  for_each_in (convert_usrgrp_entry py_repr) (user_groups p) = Ok g ->
  for_each_in (convert_medias_entry py_repr) (user_medias p)
    = Ok (PDict m0 :: ms) ->
  connect zapi (server_url p) (timeout p) (http_login_user p)
    (http_login_password p) (validate_certs p) (login_user p)
    (login_password p) s = (Ok tt, s1) ->
  user_get zapi (alias_filter (alias p)) s1 = (Ok found, s2) ->
  py_truthy found = true ->
  user_get zapi (alias_filter (alias p)) s2
    = (Ok (PList (PDict u1 :: rest1)), s3) ->
  Dict.get "userid" u1 = Some userid ->
  user_get zapi (alias_filter (alias p)) s3
    = (Ok (PList (PDict u2 :: rest2)), s4) ->
  Dict.get "userid" u2 = Some userids ->
  user_get zapi (state_request (PList (map PStr (Dict.keys m0))) userids) s4
    = (Ok result, s5) ->
  py_first result = Ok (PDict c) ->
  Dict.get "medias" c = Some med ->
  let desired := PDict (desired_record p userid g (PDict m0 :: ms)) in
  let reads := update_reads (alias p) (PList (map PStr (Dict.keys m0))) userids in
  run zapi check_mode true py_repr p s =
    if py_eqb (PDict (cstate_of c med)) desired
    then (Exit (ExitJson false (Some (NoChangesRequired (alias p)))),
          reads ++ [Logout], logout zapi s5)
    else
      let (r, s6) := user_update zapi desired s5 in
      (match r with
       | Ok _ => Exit (ExitJson true
                         (Some (SuccessfullyUpdated (alias p)
                                  (PDict (cstate_of c med)) desired)))
       | Err e => Exit (FailJson (FailedToUpdate (alias p) e))
       end,
       reads ++ [UserUpdate desired; Logout], logout zapi s6).
Proof.
  intros Hst Hg Hm Hc Hfound Htruthy Hid1 Hu1 Hid2 Hu2 Hget Hfirst Hmed
    desired reads.
  subst desired reads.
  unfold run, main. unfold_py. cbn -[py_eqb].
  rewrite Hg, Hm. cbn -[py_eqb]. rewrite Hc, Hst. cbn -[py_eqb].
  unfold check_user_exist. unfold_py. cbn -[py_eqb].
  rewrite Hfound. cbn -[py_eqb]. rewrite Htruthy.
  match goal with
  | |- context [update_user zapi ?a ?b ?c0 ?d ?e ?f ?g0 ?h ?i ?j ?k ?l ?m ?n ?w] =>
      pose proof (update_user_verdict zapi a b c0 d e f g0 h i j l m n k w
                    userid _ m0 ms userids _ result s5 c med eq_refl
                    (get_user_id_first_match zapi a w u1 rest1 userid s3 Hid1 Hu1)
                    (get_user_id_first_match zapi a
                       (logged w s3 (UserGet (alias_filter a))) u2 rest2
                       userids s4 Hid2 Hu2)
                    Hget Hfirst Hmed) as Hv
  end.
  cbn -[py_eqb update_user nstate_of] in Hv. rewrite Hv. clear Hv.
  unfold desired_record.
  destruct (py_eqb (PDict (cstate_of c med)) _); cbn -[py_eqb nstate_of].
  - reflexivity.
  - destruct (user_update zapi _ s5) as [[v | e] s6]; reflexivity.
Qed.

End UpdatePath.

(** ** Normalisation *)

Section Normalizer.

Context {S : Type} (zapi : ZabbixAPI S).
Variable check_mode : bool.
Variable py_repr : pyval -> string.

Lemma for_each_in_Forall (body : pyval -> reply pyval) (P : pyval -> Prop) :
  (forall e e', body e = Ok e' -> P e') ->
  forall o l', for_each_in body o = Ok l' -> Forall P l'.
Proof.
  intros Hbody [l |] l'; cbn; [ | discriminate].
  now apply for_each_Forall.
Qed.

(** C7, as the code has it: the coercion to text happens on the desired
    side only.  In the desired record rows-per-page and user type are
    the decimal texts of the integers, every group entry holds a text
    under ["usrgrpid"], and whatever a media entry holds under
    ["mediatypeid"] or ["severity"] is a text.  The record [c] fetched
    from the server enters the comparison as the server returned it,
    only its ["medias"] renamed: the run reports [changed=False] exactly
    when that record equals the desired one as Python dicts. *)
Theorem desired_side_coerced_remote_side_as_fetched
    p s g m0 ms s1 found s2 u1 rest1 userid s3
    u2 rest2 userids s4 result s5 c med :
  state p = present ->
  for_each_in (convert_usrgrp_entry py_repr) (user_groups p) = Ok g ->
  for_each_in (convert_medias_entry py_repr) (user_medias p)
    = Ok (PDict m0 :: ms) ->
  connect zapi (server_url p) (timeout p) (http_login_user p)
    (http_login_password p) (validate_certs p) (login_user p)
    (login_password p) s = (Ok tt, s1) ->
  user_get zapi (alias_filter (alias p)) s1 = (Ok found, s2) ->
  py_truthy found = true ->
  user_get zapi (alias_filter (alias p)) s2
    = (Ok (PList (PDict u1 :: rest1)), s3) ->
  Dict.get "userid" u1 = Some userid ->
  user_get zapi (alias_filter (alias p)) s3
    = (Ok (PList (PDict u2 :: rest2)), s4) ->
  Dict.get "userid" u2 = Some userids ->
  user_get zapi (state_request (PList (map PStr (Dict.keys m0))) userids) s4
    = (Ok result, s5) ->
  py_first result = Ok (PDict c) ->
  Dict.get "medias" c = Some med ->
  Dict.get "rows_per_page" (desired_record p userid g (PDict m0 :: ms))
    = Some (PStr (str_of_Z (rows_per_page p)))
  /\ Dict.get "type" (desired_record p userid g (PDict m0 :: ms))
     = Some (PStr (str_of_Z (user_type p)))
  /\ Forall (has_text "usrgrpid") g
  /\ Forall (fun e => text_if_present "mediatypeid" e
                      /\ text_if_present "severity" e) (PDict m0 :: ms)
  /\ (reports (run zapi check_mode true py_repr p s) false
      <-> py_eqb (PDict (cstate_of c med))
            (PDict (desired_record p userid g (PDict m0 :: ms))) = true).
Proof.
  intros Hst Hg Hm Hc Hfound Htruthy Hid1 Hu1 Hid2 Hu2 Hget Hfirst Hmed.
  split; [reflexivity | split; [reflexivity | ]].
  split; [eapply for_each_in_Forall; [ | exact Hg];
          apply convert_usrgrp_entry_text | ].
  split; [eapply for_each_in_Forall; [ | exact Hm];
          apply convert_medias_entry_text | ].
  rewrite (run_update_path zapi check_mode py_repr p s g m0 ms s1 found s2 u1
             rest1 userid s3 u2 rest2 userids s4 result s5 c med)
    by assumption.
  unfold reports, ending.
  destruct (py_eqb (PDict (cstate_of c med)) _).
  - split; [reflexivity | intros _; eexists; reflexivity].
  - destruct (user_update zapi _ s5) as [[v | e] s6]; cbn;
      (split; [intros [r H]; discriminate H | discriminate]).
Qed.

End Normalizer.

Lemma desired_side_coerced_remote_side_as_fetched_witness :
  Forall (has_text "usrgrpid") [PDict [("usrgrpid", PStr "7")]]
  /\ (reports (canned_run carol_found (carol_record (PInt 50) [])
                 (carol "secret")) false
      <-> py_eqb (PDict (cstate_of (carol_fields (PInt 50) []) carol_medias))
            (PDict (desired_record (carol "secret") (PStr "3")
                      [PDict [("usrgrpid", PStr "7")]]
                      [PDict [("mediatypeid", PStr "1");
                              ("sendto", PList [PStr "a@example.com"])]]))
          = true).
Proof.
  destruct (desired_side_coerced_remote_side_as_fetched
              (Canned.api carol_found (carol_record (PInt 50) []))
              false repr_opaque (carol "secret") tt
              [PDict [("usrgrpid", PStr "7")]]
              [("mediatypeid", PStr "1"); ("sendto", PList [PStr "a@example.com"])]
              [] tt carol_found tt
              [("userid", PStr "3")] [] (PStr "3") tt
              [("userid", PStr "3")] [] (PStr "3") tt
              (PList [carol_record (PInt 50) []]) tt
              (carol_fields (PInt 50) []) carol_medias
              eq_refl eq_refl eq_refl eq_refl eq_refl eq_refl eq_refl eq_refl
              eq_refl eq_refl eq_refl eq_refl eq_refl)
    as (_ & _ & Hg & _ & Hiff).
  split; [exact Hg | exact Hiff].
Defined.

(** C7 as stated fails: the remote side is not coerced.  A server that
    returns rows-per-page as the number 50 makes a user whose desired
    rows-per-page is 50 count as changed; returned as the text "50",
    the same record is in sync. *)
Lemma remote_number_is_not_coerced :
  rows_per_page (carol "secret") = 50
  /\ reports (canned_run carol_found (carol_record (PInt 50) [])
                (carol "secret")) true
  /\ reports (canned_run carol_found (carol_record (PStr "50") [])
                (carol "secret")) false.
Proof. split; [reflexivity | split; eexists; reflexivity]. Qed.

(** ** The mirror server *)

Lemma mirror_strings ks : Mirror.strings (PList (map PStr ks)) = ks.
Proof.
  unfold Mirror.strings. induction ks as [| k ks IH]; cbn; [reflexivity |].
  now rewrite IH.
Qed.

(** The lookup by alias returns the users under the alias, in order,
    without their password, and leaves the server as it is. *)
Lemma mirror_get_by_alias a s :
  Mirror.get (alias_filter a) s
  = (Ok (PList (map (fun u => PDict (Mirror.public u))
                  (filter (Mirror.has "alias" (PStr a)) (Mirror.users s)))), s).
Proof. reflexivity. Qed.

(** The detailed fetch returns the view of the users with the id. *)
Lemma mirror_get_state ks uid s :
  Mirror.get (state_request (PList (map PStr ks)) uid) s
  = (Ok (PList (map (fun u => PDict (Mirror.view state_outputs ["usrgrpid"]
                                       ks u))
                  (filter (Mirror.has "userid" uid) (Mirror.users s)))), s).
Proof.
  unfold Mirror.get, state_request, state_output.
  cbn [Dict.get String.eqb Ascii.eqb Bool.eqb Mirror.fields].
  now rewrite !mirror_strings.
Qed.

Lemma project_in ks d k v :
  In (k, v) (Mirror.project ks d) -> Dict.get k d = Some v.
Proof.
  induction ks as [| k0 ks IH]; cbn; [intros [] |].
  destruct (Dict.get k0 d) as [x |] eqn:E; [ | exact IH].
  intros [[= <- <-] | H]; [exact E | now apply IH].
Qed.

Lemma project_length ks d :
  forallb (fun k => Dict.mem k d) ks = true ->
  List.length (Mirror.project ks d) = List.length ks.
Proof.
  unfold Dict.mem. induction ks as [| k ks IH]; cbn; [reflexivity |].
  destruct (Dict.get k d); cbn; [ | discriminate].
  intros H. now rewrite IH.
Qed.

Lemma project_get_other ks u k :
  existsb (String.eqb k) ks = false -> Dict.get k (Mirror.project ks u) = None.
Proof.
  induction ks as [| k0 ks IH]; cbn; [reflexivity |].
  intros H. apply orb_false_iff in H as [Hk H].
  destruct (Dict.get k0 u); cbn; [rewrite Hk |]; now apply IH.
Qed.

(** Cut down to the keys of [m0], a well-formed dict with those keys
    equals itself. *)
Lemma project_same_keys m0 e :
  same_keys m0 e = true -> wf e = true ->
  py_eqb (Mirror.project_media (Dict.keys m0) e) e = true.
Proof.
  destruct e as [ | | | | | d]; try discriminate.
  cbn [same_keys wf Mirror.project_media py_eqb].
  intros Hk Hwf.
  apply andb_true_iff in Hk as [Hlen Hmem].
  apply andb_true_iff in Hwf as [_ Hvals].
  rewrite project_length by exact Hmem.
  apply Nat.eqb_eq in Hlen. unfold Dict.keys. rewrite length_map, Hlen.
  rewrite Nat.eqb_refl. cbn.
  apply forallb_forall. intros [k v] Hin. cbn.
  apply project_in in Hin. rewrite Hin.
  apply py_eqb_refl.
  rewrite forallb_forall in Hvals.
  exact (Hvals (k, v) (dict_get_in k v d Hin)).
Qed.

Lemma project_medias m0 ms :
  forallb (same_keys m0) ms = true -> forallb wf ms = true ->
  forall2b py_eqb (map (Mirror.project_media (Dict.keys m0)) ms) ms = true.
Proof.
  induction ms as [| e ms IH]; cbn; [reflexivity |].
  intros Hk Hwf.
  apply andb_true_iff in Hk as [Hk Hks].
  apply andb_true_iff in Hwf as [Hw Hws].
  rewrite project_same_keys by assumption. cbn. now apply IH.
Qed.

(** Cut down to its id, a well-formed group entry that holds nothing
    else equals itself. *)
Lemma project_groups g :
  forallb only_usrgrpid g = true -> forallb wf g = true ->
  forall2b py_eqb (map (Mirror.project_media ["usrgrpid"]) g) g = true.
Proof.
  intros Hk Hwf.
  apply (project_medias [("usrgrpid", PNone)]); [ | exact Hwf].
  rewrite forallb_forall in Hk |- *. intros e Hin. specialize (Hk e Hin).
  destruct e as [ | | | | | [| [k v] [| kv d]]]; try discriminate.
  cbn in Hk |- *. unfold Dict.mem. cbn.
  apply String.eqb_eq in Hk. subst k. reflexivity.
Qed.

Lemma py_eqb_dict d e :
  py_eqb (PDict d) (PDict e)
  = Nat.eqb (List.length d) (List.length e)
    && forallb (fun kv => match Dict.get (fst kv) e with
                          | Some w => py_eqb (snd kv) w
                          | None => false
                          end) d.
Proof. reflexivity. Qed.

(** The view of a stored user who holds the desired record is that
    record, its groups cut down to the field asked for, and its medias
    under the server's key and cut down to the keys asked for. *)
Lemma mirror_view_of_holder p uid g m gks ks u :
  Forall (fun kv => Dict.get (fst kv) u = Some (snd kv))
    (desired_record p uid g m) ->
  Mirror.view state_outputs gks ks u
  = Dict.del "usrgrps" (Dict.del "user_medias" (desired_record p uid g m))
    ++ [("usrgrps", PList (map (Mirror.project_media gks) g));
        ("medias", PList (map (Mirror.project_media ks) m))].
Proof.
  intros Hholds.
  unfold desired_record, nstate_of, user_properties in *.
  cbn [Dict.del String.eqb Ascii.eqb Bool.eqb] in *.
  repeat match goal with
         | H : Forall _ (_ :: _) |- _ => inversion_clear H
         end.
  cbn [fst snd] in *.
  unfold Mirror.view, state_outputs.
  cbn [filter negb String.eqb Ascii.eqb Bool.eqb Mirror.project].
  repeat match goal with
         | H : Dict.get _ u = Some _ |- _ => rewrite H; clear H
         end.
  reflexivity.
Qed.

(** Every view has a ["medias"] entry. *)
Lemma mirror_view_medias gks ks u :
  Dict.get "medias" (Mirror.view state_outputs gks ks u)
  = Some match Dict.get "user_medias" u with
         | Some (PList ms) => PList (map (Mirror.project_media ks) ms)
         | _ => PList []
         end.
Proof.
  unfold Mirror.view. rewrite dict_get_app.
  rewrite project_get_other by reflexivity. reflexivity.
Qed.

Section InSync.

Variable check_mode : bool.
Variable py_repr : pyval -> string.

(** A stored user who holds the entries of the desired record makes
    the server hold the desired state, when the group entries hold
    their id only and the media entries have the keys of the first. *)
Lemma holder_holds_desired p s g m0 ms u rest i u' rest' :
  forallb wf g = true ->
  forallb wf (PDict m0 :: ms) = true ->
  forallb only_usrgrpid g = true ->
  forallb (same_keys m0) (PDict m0 :: ms) = true ->
  filter (Mirror.has "alias" (PStr (alias p))) (Mirror.users s) = u :: rest ->
  Dict.get "userid" u = Some (PStr i) ->
  filter (Mirror.has "userid" (PStr i)) (Mirror.users s) = u' :: rest' ->
  Forall (fun kv => Dict.get (fst kv) u' = Some (snd kv))
    (desired_record p (PStr i) g (PDict m0 :: ms)) ->
  holds_desired p g m0 ms s = true.
Proof.
  intros Hwg Hwm Hgk Hkeys Halias Hid Hbyid Hholds.
  unfold holds_desired, mirror_fetched. rewrite Halias, Hid, Hbyid.
  rewrite mirror_view_medias.
  rewrite (mirror_view_of_holder p (PStr i) g (PDict m0 :: ms) ["usrgrpid"]
             (Dict.keys m0) u' Hholds).
  replace (Dict.get "user_medias" u') with (Some (PList (PDict m0 :: ms))).
  2:{ symmetry. rewrite Forall_forall in Hholds.
      apply (Hholds ("user_medias", PList (PDict m0 :: ms))).
      unfold desired_record, nstate_of, user_properties. cbn. intuition. }
  unfold desired_record, nstate_of, user_properties, cstate_of.
  cbn [Dict.del Dict.set app String.eqb Ascii.eqb Bool.eqb].
  rewrite py_eqb_dict. cbn -[py_eqb Mirror.project_media].
  rewrite !andb_true_iff. repeat split;
    try (apply py_eqb_refl; cbn [wf]);
    try solve [reflexivity | assumption
              | now destruct (autologin p)
              | now destruct (user_name p)
              | now destruct (user_surname p)].
  - change (py_eqb (PList (map (Mirror.project_media ["usrgrpid"]) g))
              (PList g) = true).
    cbn [py_eqb]. now apply project_groups.
  - change (py_eqb (PList (map (Mirror.project_media (Dict.keys m0))
                             (PDict m0 :: ms))) (PList (PDict m0 :: ms)) = true).
    cbn [py_eqb]. now apply project_medias.
Qed.

(** A run with [state: present] against the mirror server when the
    alias is stored under a text id.  When the server holds the desired
    state the run makes its four reads, reports [changed=False] and
    leaves the server as it is; when not, it sends the desired record
    in one [user.update], reports [changed=True], and the server has
    merged the record into the users of that id. *)
Lemma mirror_run_update p s g m0 ms u rest i u' rest' :
  state p = present ->
  for_each_in (convert_usrgrp_entry py_repr) (user_groups p) = Ok g ->
  for_each_in (convert_medias_entry py_repr) (user_medias p)
    = Ok (PDict m0 :: ms) ->
  filter (Mirror.has "alias" (PStr (alias p))) (Mirror.users s) = u :: rest ->
  Dict.get "userid" u = Some (PStr i) ->
  filter (Mirror.has "userid" (PStr i)) (Mirror.users s) = u' :: rest' ->
  let desired := desired_record p (PStr i) g (PDict m0 :: ms) in
  let reads :=
    update_reads (alias p) (PList (map PStr (Dict.keys m0))) (PStr i) in
  if holds_desired p g m0 ms s
  then run Mirror.api check_mode true py_repr p s
       = (Exit (ExitJson false (Some (NoChangesRequired (alias p)))),
          reads ++ [Logout], s)
  else exists cstate,
      run Mirror.api check_mode true py_repr p s
      = (Exit (ExitJson true
                 (Some (SuccessfullyUpdated (alias p) cstate (PDict desired)))),
         reads ++ [UserUpdate (PDict desired); Logout],
         {| Mirror.next_id := Mirror.next_id s;
            Mirror.users :=
              map (fun z => if Mirror.has "userid" (PStr i) z
                            then Mirror.merge desired z else z)
                (Mirror.users s) |}).
Proof.
  intros Hst Hg Hm Halias Hid Hbyid desired reads.
  assert (Hpub : Dict.get "userid" (Mirror.public u) = Some (PStr i))
    by (unfold Mirror.public; now rewrite dict_get_del_other).
  assert (Hrun := run_update_path Mirror.api check_mode py_repr p s g m0 ms s
                    (PList (map (fun z => PDict (Mirror.public z)) (u :: rest)))
                    s (Mirror.public u)
                    (map (fun z => PDict (Mirror.public z)) rest) (PStr i) s
                    (Mirror.public u)
                    (map (fun z => PDict (Mirror.public z)) rest) (PStr i) s
                    (PList (map (fun z => PDict (Mirror.view state_outputs
                                                   ["usrgrpid"] (Dict.keys m0) z))
                              (u' :: rest'))) s
                    (Mirror.view state_outputs ["usrgrpid"] (Dict.keys m0) u')
                    match Dict.get "user_medias" u' with
                    | Some (PList l) =>
                        PList (map (Mirror.project_media (Dict.keys m0)) l)
                    | _ => PList []
                    end
                    Hst Hg Hm eq_refl).
  cbn [user_get Mirror.api] in Hrun.
  rewrite mirror_get_by_alias, mirror_get_state, Halias, Hbyid in Hrun.
  specialize (Hrun eq_refl eq_refl eq_refl Hpub eq_refl Hpub eq_refl eq_refl
                (mirror_view_medias _ _ _)).
  cbv zeta in Hrun.
  unfold holds_desired, mirror_fetched.
  rewrite Halias, Hid, Hbyid, mirror_view_medias.
  fold desired in Hrun |- *.
  destruct (py_eqb _ (PDict desired)).
  - exact Hrun.
  - eexists. rewrite Hrun. clear Hrun.
    assert (Hex : existsb (Mirror.has "userid" (PStr i)) (Mirror.users s) = true).
    { apply existsb_exists. exists u'. apply filter_In.
      rewrite Hbyid. now left. }
    cbn [user_update Mirror.api]. unfold Mirror.update.
    replace (Dict.get "userid" desired) with (Some (PStr i)) by reflexivity.
    rewrite Hex. reflexivity.
Qed.

End InSync.

(** ** A run on the create path *)

Section CreatePath.

Context {S : Type} (zapi : ZabbixAPI S).
Variable py_repr : pyval -> string.

(** A real run with [state: present] that does not find the alias:
    it calls [user.create] with all fourteen properties, the password
    among them. *)
Lemma run_create_path p s g m s1 found s2 :
  state p = present ->
  for_each_in (convert_usrgrp_entry py_repr) (user_groups p) = Ok g ->
  for_each_in (convert_medias_entry py_repr) (user_medias p) = Ok m ->
  connect zapi (server_url p) (timeout p) (http_login_user p)
    (http_login_password p) (validate_certs p) (login_user p)
    (login_password p) s = (Ok tt, s1) ->
  user_get zapi (alias_filter (alias p)) s1 = (Ok found, s2) ->
  py_truthy found = false ->
  run zapi false true py_repr p s =
    let (r, s3) := user_create zapi (PDict (create_params p g m)) s2 in
    (match r with
     | Ok _ => Exit (ExitJson true (Some (SuccessfullyCreated (alias p))))
     | Err e => Exit (FailJson (FailedCreate (alias p) e))
     end,
     [Login; UserGet (alias_filter (alias p));
      UserCreate (PDict (create_params p g m)); Logout],
     logout zapi s3).
Proof.
  intros Hst Hg Hm Hc Hfound Hfalsy.
  unfold run, main. unfold_py. cbn.
  rewrite Hg, Hm. cbn. rewrite Hc, Hst. cbn.
  unfold check_user_exist. unfold_py. cbn.
  rewrite Hfound. cbn. rewrite Hfalsy.
  unfold create_user, create_params. unfold_py. cbn.
  destruct (user_create zapi _ s2) as [[v | e] s3]; reflexivity.
Qed.

End CreatePath.

(** ** Lists after an update in place *)

Section UpdateInPlace.

Context {A : Type} (P Q : A -> bool) (f : A -> A).

Lemma filter_nonempty (l : list A) x :
  In x l -> P x = true -> exists y rest, filter P l = y :: rest.
Proof.
  intros Hin Hx.
  destruct (filter P l) as [| y rest] eqn:E; [ | eauto].
  assert (In x (filter P l)) as H by (apply filter_In; auto).
  rewrite E in H. destruct H.
Qed.

Lemma filter_head_in (l : list A) x rest :
  filter P l = x :: rest -> In x l /\ P x = true.
Proof.
  intros E. apply filter_In. rewrite E. now left.
Qed.

(** Updating the [Q]-elements with an [f] that keeps them in [Q] maps
    the [Q]-elements and leaves their order. *)
Lemma filter_updated_elements l :
  (forall y, Q y = true -> Q (f y) = true) ->
  filter Q (map (fun z => if Q z then f z else z) l) = map f (filter Q l).
Proof.
  intros Hf.
  induction l as [| z l IH]; cbn; [reflexivity |].
  destruct (Q z) eqn:Ez.
  - rewrite (Hf z Ez). cbn. now rewrite IH.
  - rewrite Ez. exact IH.
Qed.

(** When [f] sends the [Q]-elements into [P] and the first [P]-element
    is in [Q], the first [P]-element after the update is an updated
    one. *)
Lemma filter_head_updated l x rest :
  (forall y, Q y = true -> P (f y) = true) ->
  filter P l = x :: rest -> Q x = true ->
  exists y rest',
    filter P (map (fun z => if Q z then f z else z) l) = f y :: rest'
    /\ Q y = true.
Proof.
  intros Hf.
  induction l as [| z l IH]; cbn; [discriminate |].
  intros E Hx. destruct (Q z) eqn:Ez.
  - rewrite (Hf z Ez). eauto.
  - destruct (P z) eqn:Pz.
    + injection E as -> _. congruence.
    + now apply IH.
Qed.

End UpdateInPlace.

(** ** What the mirror server stores *)

Lemma merge_get_other d u k :
  existsb (String.eqb k) (Dict.keys d) = false ->
  Dict.get k (Mirror.merge d u) = Dict.get k u.
Proof.
  unfold Mirror.merge. revert u.
  induction d as [| [k0 v0] d IH]; cbn; intros u H; [reflexivity |].
  apply orb_false_iff in H as [Hk H].
  rewrite IH by exact H. now apply dict_get_set_other.
Qed.

Lemma merge_get d u k v :
  distinct (Dict.keys d) = true -> In (k, v) d ->
  Dict.get k (Mirror.merge d u) = Some v.
Proof.
  unfold Mirror.merge. revert u.
  induction d as [| [k0 v0] d IH]; cbn; intros u Hd Hin; [destruct Hin |].
  apply andb_true_iff in Hd as [Hk Hd]. apply negb_true_iff in Hk.
  destruct Hin as [[= -> ->] | Hin].
  - fold (Mirror.merge d (Dict.set k v u)).
    rewrite merge_get_other by exact Hk. apply dict_get_set_same.
  - now apply IH.
Qed.

Lemma merge_holds d u :
  distinct (Dict.keys d) = true ->
  Forall (fun kv => Dict.get (fst kv) (Mirror.merge d u) = Some (snd kv)) d.
Proof.
  intros Hd. apply Forall_forall. intros [k v] Hin. now apply merge_get.
Qed.

Lemma mirror_ready_text s u :
  mirror_ready s = true -> In u (Mirror.users s) ->
  exists i, Dict.get "userid" u = Some (PStr i)
            /\ String.eqb i (str_of_Z (Mirror.next_id s)) = false.
Proof.
  unfold mirror_ready. rewrite forallb_forall. intros H Hin.
  specialize (H u Hin).
  destruct (Dict.get "userid" u) as [[ | | | i | | ] |]; try discriminate.
  exists i. split; [reflexivity | now apply negb_true_iff].
Qed.

Lemma mirror_ready_fresh s :
  mirror_ready s = true ->
  filter (Mirror.has "userid" (PStr (str_of_Z (Mirror.next_id s))))
    (Mirror.users s) = [].
Proof.
  intros H.
  destruct (filter _ (Mirror.users s)) as [| u rest] eqn:E; [reflexivity |].
  apply filter_head_in in E as [Hin Hu].
  destruct (mirror_ready_text s u H Hin) as (i & Hi & Hne).
  unfold Mirror.has in Hu. rewrite Hi in Hu. cbn in Hu. congruence.
Qed.

Lemma desired_record_distinct p uid g m :
  distinct (Dict.keys (desired_record p uid g m)) = true.
Proof. reflexivity. Qed.

Lemma merged_has_alias p uid g m u :
  Mirror.has "alias" (PStr (alias p))
    (Mirror.merge (desired_record p uid g m) u) = true.
Proof.
  unfold Mirror.has.
  rewrite (merge_get _ u "alias" (PStr (alias p))
             (desired_record_distinct p uid g m)) by (cbn; auto).
  cbn. apply String.eqb_refl.
Qed.

Lemma merged_userid p uid g m u :
  Dict.get "userid" (Mirror.merge (desired_record p uid g m) u) = Some uid.
Proof.
  apply merge_get; [apply desired_record_distinct | cbn; auto].
Qed.

(** ** Two runs in a row *)

Section Idempotence.

Variable py_repr : pyval -> string.

Section Settled.

Variable p : module_params.
Variable g : list pyval.
Variable m0 : pydict.
Variable ms : list pyval.

Hypothesis Hst : state p = present.
Hypothesis Hg :
  for_each_in (convert_usrgrp_entry py_repr) (user_groups p) = Ok g.
Hypothesis Hm :
  for_each_in (convert_medias_entry py_repr) (user_medias p)
  = Ok (PDict m0 :: ms).
Hypothesis Hwg : forallb wf g = true.
Hypothesis Hwm : forallb wf (PDict m0 :: ms) = true.
Hypothesis Hgk : forallb only_usrgrpid g = true.
Hypothesis Hkeys : forallb (same_keys m0) (PDict m0 :: ms) = true.

(** Scenario C on the mirror server, in general: when the first user
    under the alias has a text id, and the first user with that id
    holds the entries of the desired record, the server holds the
    desired state, and a run reports [changed=False] and leaves it as
    it is. *)
Lemma mirror_settled s u rest i u' rest' :
  filter (Mirror.has "alias" (PStr (alias p))) (Mirror.users s) = u :: rest ->
  Dict.get "userid" u = Some (PStr i) ->
  filter (Mirror.has "userid" (PStr i)) (Mirror.users s) = u' :: rest' ->
  Forall (fun kv => Dict.get (fst kv) u' = Some (snd kv))
    (desired_record p (PStr i) g (PDict m0 :: ms)) ->
  holds_desired p g m0 ms s = true
  /\ reports (run Mirror.api false true py_repr p s) false
  /\ after (run Mirror.api false true py_repr p s) = s.
Proof.
  intros Halias Hid Hbyid Hholds.
  pose proof (holder_holds_desired p s g m0 ms u rest i u' rest'
                Hwg Hwm Hgk Hkeys Halias Hid Hbyid Hholds) as Hh.
  pose proof (mirror_run_update false py_repr p s g m0 ms u rest i u' rest'
                Hst Hg Hm Halias Hid Hbyid) as Hrun.
  cbv zeta in Hrun. rewrite Hh in Hrun. rewrite Hrun.
  split; [exact Hh | ]. split; [eexists; reflexivity | reflexivity].
Qed.


End Settled.

End Idempotence.



(* ================================================================== *)
(** * Further properties *)

(** ** What the ending of a run tells *)

(** The end of a path through a method: the calls added are read off
    and the ending is checked against them. *)
Ltac telling_leaf :=
  cbn; eexists; split;
  [repeat rewrite <- app_assoc; reflexivity
  | cbn; first [reflexivity
               | eexists; reflexivity
               | left; reflexivity
               | right; eexists; reflexivity]].

Section Telling.

Context {S : Type} (zapi : ZabbixAPI S).
Variable check_mode : bool.
Variable HAS_ZABBIX_API : bool.
Variable py_repr : pyval -> string.

Lemma delete_user_telling alias : telling (delete_user zapi py_repr alias).
Proof.
  intros w. unfold delete_user. unfold_py.
  step_id_endings; cbn -[py_truthy]; [ | telling_leaf | telling_leaf].
  destruct (py_truthy _); cbn; [ | telling_leaf].
  destruct (user_delete zapi _ _) as [[v | e] s2]; telling_leaf.
Qed.

Lemma create_user_telling alias autologin autologout lang redirect_url refresh
    rows_per_page user_groups user_medias user_name user_password
    user_surname user_theme user_type :
  telling
    (create_user zapi check_mode alias autologin autologout lang redirect_url
       refresh rows_per_page user_groups user_medias user_name user_password
       user_surname user_theme user_type).
Proof.
  intros w. unfold create_user. unfold_py.
  destruct check_mode; cbn.
  - exists []. now rewrite app_nil_r.
  - destruct (user_create zapi _ _) as [[v | e] s2]; telling_leaf.
Qed.

Lemma update_user_telling alias autologin autologout lang redirect_url refresh
    rows_per_page user_groups user_medias user_name user_password
    user_surname user_theme user_type :
  telling
    (update_user zapi alias autologin autologout lang redirect_url
       refresh rows_per_page user_groups user_medias user_name user_password
       user_surname user_theme user_type).
Proof.
  intros w. unfold update_user, _get_user_state. unfold_py.
  step_id_endings; cbn -[py_ne py_first py_keys py_pop];
    [ | telling_leaf | telling_leaf].
  destruct (py_first user_medias); cbn -[py_ne py_first py_keys py_pop];
    [ | telling_leaf].
  destruct (py_keys _); cbn -[py_ne py_first py_keys py_pop]; [ | telling_leaf].
  step_id_endings; cbn -[py_ne py_first py_keys py_pop];
    [ | telling_leaf | telling_leaf].
  destruct (user_get zapi _ _) as [[result | e] s3];
    cbn -[py_ne py_first py_keys py_pop]; [ | telling_leaf].
  destruct (py_first result); cbn -[py_ne py_first py_keys py_pop];
    [ | telling_leaf].
  destruct (py_pop _ _) as [[m c] | e]; cbn -[py_ne py_first py_keys py_pop];
    [ | telling_leaf].
  destruct (py_setitem _ _ _); cbn -[py_ne]; [ | telling_leaf].
  destruct (py_ne _ _); cbn; [ | telling_leaf].
  destruct (user_update zapi _ _) as [[v | e] s4]; telling_leaf.
Qed.

(** [check_user_exist] returns what the lookup returned, or ends the run
    with its own failure. *)
Lemma check_user_exist_endings alias w :
  exists s',
    snd (check_user_exist zapi alias w)
      = logged w s' (UserGet (alias_filter alias))
    /\ ((exists found, fst (check_user_exist zapi alias w) = Ret found)
        \/ exists e, fst (check_user_exist zapi alias w)
                     = Exit (FailJson (FailedToCheckExists alias e))).
Proof.
  unfold check_user_exist. unfold_py.
  destruct (user_get zapi _ _) as [[v | e] s']; exists s'; cbn; eauto.
Qed.

Lemma main_telling p : telling (main zapi check_mode HAS_ZABBIX_API py_repr p).
Proof.
  intros w. unfold main. unfold_py.
  destruct HAS_ZABBIX_API; cbn; [ | exists []; now rewrite app_nil_r].
  destruct (for_each_in _ (user_groups p)) as [g | e]; cbn;
    [ | exists []; now rewrite app_nil_r].
  destruct (for_each_in _ (user_medias p)) as [m | e]; cbn;
    [ | exists []; now rewrite app_nil_r].
  destruct (connect zapi _ _ _ _ _ _ _ _) as [[[] | e] s1]; cbn;
    [ | exists [Login]; split; reflexivity].
  destruct (state p).
  - (* present *)
    cbn.
    destruct (check_user_exist_endings (alias p)
                {| server := s1; trace := trace w ++ [Login];
                   atexit_logout := true |}) as (s2 & Hw & Hr).
    destruct (check_user_exist zapi (alias p) _) as [r2 w2];
      cbn [fst snd] in Hw, Hr; subst w2.
    destruct Hr as [[found ->] | [e ->]];
      [ | eexists; split; [cbn; rewrite <- app_assoc; reflexivity | reflexivity]].
    match goal with
    | |- context [if py_truthy found then ?u else ?c] =>
        assert (Ht : telling (if py_truthy found then u else c))
          by (destruct (py_truthy found);
              [apply update_user_telling | apply create_user_telling])
    end.
    match type of Ht with
    | telling ?m =>
        destruct (Ht (logged {| server := s1; trace := trace w ++ [Login];
                                atexit_logout := true |} s2
                        (UserGet (alias_filter (alias p)))))
          as (ext & Htr & Htold);
        destruct (m _) as [r3 w3]
    end.
    cbn [fst snd] in *.
    exists (Login :: UserGet (alias_filter (alias p)) :: ext).
    split; [rewrite Htr; cbn; repeat rewrite <- app_assoc; reflexivity | ].
    cbn [filter mutating]. destruct r3 as [[] | e | o]; exact Htold.
  - (* absent *)
    destruct (delete_user_telling (alias p)
                {| server := s1; trace := trace w ++ [Login];
                   atexit_logout := true |}) as (ext & Htr & Htold).
    destruct (delete_user zapi py_repr (alias p) _) as [r2 w2].
    cbn [fst snd] in Htr, Htold.
    destruct r2 as [[] | e | o]; cbn; exists (Login :: ext);
      (split; [rewrite Htr; cbn; repeat rewrite <- app_assoc; reflexivity
              | exact Htold]).
Qed.

(** X1: the ending of a run tells which mutating call was made, on
    every server and for every input.  [changed=False], a dry creation,
    an uncaught exception and every failure of the read path (missing
    library, login, lookups, detailed fetch, "does not exists") come
    with no create, update or delete at all.  Each success message
    comes with exactly the one call of its kind, and the record printed
    as [nstate] by "Successfully updated" is the very parameter of that
    [user.update].  "Failed create" and "Failed to remove" come with
    exactly the attempted call, "Failed to update" with the attempted
    update or with none. *)
Theorem ending_tells_the_calls p s :
  told_by (ending (run zapi check_mode HAS_ZABBIX_API py_repr p s))
    (filter mutating (calls (run zapi check_mode HAS_ZABBIX_API py_repr p s))).
Proof.
  unfold run, calls, ending.
  destruct (main_telling p {| server := s; trace := []; atexit_logout := false |})
    as (ext & Htr & Htold).
  destruct (main zapi check_mode HAS_ZABBIX_API py_repr p _) as [r w].
  cbn [fst snd trace] in *. rewrite app_nil_l in Htr.
  destruct (atexit_logout w); cbn [fst snd]; rewrite Htr; [ | exact Htold].
  rewrite filter_app. cbn. rewrite app_nil_r. exact Htold.
Qed.

End Telling.

(** ** The session *)

Section Session.

Context {S : Type} (zapi : ZabbixAPI S).
Variable check_mode : bool.
Variable py_repr : pyval -> string.

(** X2: a session that was opened is closed, on every way out.  When
    the login succeeds the calls of the run start with it and end with
    the exit handler's logout, whether the run ends in [exit_json], in
    [fail_json] or fails half way; when the login raises, the run ends
    with "Failed to connect" after that one call and no logout is
    attempted. *)
Theorem session_closed_when_opened p s g m rc s1 :
  for_each_in (convert_usrgrp_entry py_repr) (user_groups p) = Ok g ->
  for_each_in (convert_medias_entry py_repr) (user_medias p) = Ok m ->
  connect zapi (server_url p) (timeout p) (http_login_user p)
    (http_login_password p) (validate_certs p) (login_user p)
    (login_password p) s = (rc, s1) ->
  match rc with
  | Ok _ =>
      exists body,
        calls (run zapi check_mode true py_repr p s) = Login :: body ++ [Logout]
  | Err e =>
      run zapi check_mode true py_repr p s
      = (Exit (FailJson (FailedToConnect e)), [Login], s1)
  end.
Proof.
  intros Hg Hm Hc. unfold run, calls, main. unfold_py. cbn.
  rewrite Hg, Hm. cbn. rewrite Hc.
  destruct rc as [[] | e]; cbn; [ | reflexivity].
  destruct (state p); cbn.
  - destruct (check_user_exist_world zapi (alias p)
                {| server := s1; trace := [Login]; atexit_logout := true |})
      as (s2 & Hw & Hr).
    destruct (check_user_exist zapi (alias p) _) as [[found | e | o] w2];
      cbn [fst snd] in Hw, Hr; subst w2;
      [ | exfalso; eapply Hr; reflexivity
        | cbn; exists [UserGet (alias_filter (alias p))]; reflexivity].
    match goal with
    | |- context [if py_truthy found then ?u else ?c] =>
        assert (Hf : final_action (if py_truthy found then u else c))
          by (destruct (py_truthy found);
              [apply update_user_final | apply create_user_final])
    end.
    match type of Hf with
    | final_action ?f =>
        destruct (Hf (logged {| server := s1; trace := [Login];
                                atexit_logout := true |} s2
                        (UserGet (alias_filter (alias p)))))
          as (_ & Hat & ext & Htr & _);
        destruct (f _) as [r3 w3]
    end.
    cbn [fst snd atexit_logout logged] in *. rewrite Hat. cbn [fst snd].
    rewrite Htr. cbn. exists (UserGet (alias_filter (alias p)) :: ext).
    reflexivity.
  - destruct (delete_user_final zapi py_repr (alias p)
                {| server := s1; trace := [Login]; atexit_logout := true |})
      as (Hnr & Hat & ext & Htr & _).
    destruct (delete_user zapi py_repr (alias p) _) as [[u | e | o] w2];
      cbn [fst snd atexit_logout] in *;
      try (exfalso; eapply Hnr; reflexivity);
      rewrite Hat; cbn [fst snd]; rewrite Htr; exists ext; reflexivity.
Qed.

End Session.

Lemma session_closed_when_opened_witness :
  exists body,
    calls (scripted_run (task "bob" absent None "default" (Some []) (Some []))
             {| Script.login := Ok tt;
                Script.answers := [Err (ApiError "timeout")];
                Script.applied := Ok PNone |})
    = Login :: body ++ [Logout].
Proof.
  exact (session_closed_when_opened Script.api false repr_opaque
           (task "bob" absent None "default" (Some []) (Some []))
           {| Script.login := Ok tt;
              Script.answers := [Err (ApiError "timeout")];
              Script.applied := Ok PNone |}
           [] [] (Ok tt) _ eq_refl eq_refl eq_refl).
Defined.

(** ** More on the coercion loops *)

Lemma dict_keys_set_present k v d :
  Dict.mem k d = true -> Dict.keys (Dict.set k v d) = Dict.keys d.
Proof.
  unfold Dict.mem, Dict.keys. induction d as [| [k' v'] d IH]; cbn.
  - discriminate.
  - destruct (String.eqb k k'); cbn; [reflexivity |].
    intros H. now rewrite IH.
Qed.

(** Writing back the value a key already has changes nothing. *)
Lemma dict_set_same_value k v d :
  Dict.get k d = Some v -> Dict.set k v d = d.
Proof.
  induction d as [| [k' v'] d IH]; cbn; [discriminate |].
  destruct (String.eqb k k') eqn:E.
  - now intros [= ->].
  - intros H. now rewrite IH.
Qed.

Section MoreLoops.

Context {S : Type} (zapi : ZabbixAPI S).
Variable check_mode : bool.
Variable py_repr : pyval -> string.

(** What the body of the group loop does to one entry. *)
Lemma convert_usrgrp_entry_cases e :
  match e with
  | PDict d =>
      match Dict.get "usrgrpid" d with
      | Some v =>
          convert_usrgrp_entry py_repr e
          = Ok (PDict (Dict.set "usrgrpid" (PStr (py_str py_repr v)) d))
      | None =>
          convert_usrgrp_entry py_repr e = Err (KeyError (PStr "usrgrpid"))
      end
  | _ => convert_usrgrp_entry py_repr e = Err TypeError
  end.
Proof.
  destruct e as [ | | | | | d]; try reflexivity.
  unfold convert_usrgrp_entry, py_getitem. now destruct (Dict.get "usrgrpid" d).
Qed.

(** The loop stops at the first entry its body refuses. *)
Lemma for_each_refused (body : pyval -> reply pyval) l :
  existsb (fun x => match body x with Ok _ => false | Err _ => true end) l = true ->
  exists x e, In x l /\ body x = Err e /\ for_each body l = Err e.
Proof.
  induction l as [| x l IH]; cbn; [discriminate |].
  destruct (body x) as [x' | e] eqn:Hx; cbn.
  - intros H. destruct (IH H) as (y & e & Hin & Hy & Hl).
    exists y, e. rewrite Hl. auto.
  - intros _. exists x, e. auto.
Qed.

Lemma for_each_accepted (body : pyval -> reply pyval) l :
  forallb (fun x => match body x with Ok _ => true | Err _ => false end) l = true ->
  exists l', for_each body l = Ok l'.
Proof.
  induction l as [| x l IH]; cbn; [eauto |].
  destruct (body x) as [x' | e]; cbn; [ | discriminate].
  intros H. destruct (IH H) as (l' & ->). eauto.
Qed.

(** X3: a group entry that is not a dict with a ["usrgrpid"] ends the
    run in an uncaught exception, before the login and before any call,
    whatever [state] asks for: a [KeyError] for a dict without the key,
    a [TypeError] for an entry that is no dict. *)
Theorem malformed_group_entry_is_uncaught p s l :
  user_groups p = Some l ->
  forallb has_usrgrpid l = false ->
  exists e,
    run zapi check_mode true py_repr p s = (Raise e, [], s)
    /\ (e = KeyError (PStr "usrgrpid") \/ e = TypeError).
Proof.
  intros Hl Hbad.
  assert (existsb (fun x => match convert_usrgrp_entry py_repr x with
                            | Ok _ => false
                            | Err _ => true
                            end) l = true) as Hex.
  { clear Hl. induction l as [| x l IH]; cbn in *; [discriminate |].
    pose proof (convert_usrgrp_entry_cases x) as Hx.
    destruct x as [ | | | | | d]; try (rewrite Hx; reflexivity).
    cbn in Hbad. unfold Dict.mem in Hbad.
    destruct (Dict.get "usrgrpid" d); rewrite Hx; cbn; [auto | reflexivity]. }
  destruct (for_each_refused _ l Hex) as (x & e & _ & Hx & Hfor).
  exists e. split.
  - unfold run, main. unfold_py. cbn. rewrite Hl. cbn. rewrite Hfor. reflexivity.
  - pose proof (convert_usrgrp_entry_cases x) as Hc.
    destruct x as [ | | | | | d]; try (right; congruence).
    destruct (Dict.get "usrgrpid" d); [congruence | left; congruence].
Qed.

End MoreLoops.

Lemma malformed_group_entry_is_uncaught_witness :
  exists e,
    run Mirror.api false true repr_opaque
      (task "bob" absent None "default"
         (Some [PDict [("usrgrpid", PInt 7)]; PDict [("name", PStr "ops")]])
         (Some [])) with_bob
    = (Raise e, [], with_bob)
    /\ (e = KeyError (PStr "usrgrpid") \/ e = TypeError).
Proof.
  exact (malformed_group_entry_is_uncaught Mirror.api false repr_opaque
           (task "bob" absent None "default"
              (Some [PDict [("usrgrpid", PInt 7)]; PDict [("name", PStr "ops")]])
              (Some [])) with_bob _ eq_refl eq_refl).
Defined.


(** ** Runs that do not crash *)

(** A method that always ends the run through [exit_json] or
    [fail_json]. *)
Ltac exits_leaf := cbn; eexists; reflexivity.

Section Exits.

Context {S : Type} (zapi : ZabbixAPI S).
Variable check_mode : bool.
Variable py_repr : pyval -> string.

Lemma delete_user_exits alias w :
  exists o, fst (delete_user zapi py_repr alias w) = Exit o.
Proof.
  unfold delete_user. unfold_py.
  step_id; cbn -[py_truthy]; [ | exits_leaf].
  destruct (py_truthy _); cbn; [ | exits_leaf].
  destruct (user_delete zapi _ _) as [[v | e] s2]; exits_leaf.
Qed.

Lemma create_user_exits alias autologin autologout lang redirect_url refresh
    rows_per_page user_groups user_medias user_name user_password
    user_surname user_theme user_type w :
  exists o,
    fst (create_user zapi check_mode alias autologin autologout lang
           redirect_url refresh rows_per_page user_groups user_medias
           user_name user_password user_surname user_theme user_type w)
    = Exit o.
Proof.
  unfold create_user. unfold_py.
  destruct check_mode; cbn; [exits_leaf |].
  destruct (user_create zapi _ _) as [[v | e] s2]; exits_leaf.
Qed.

Lemma update_user_exits alias autologin autologout lang redirect_url refresh
    rows_per_page user_groups user_medias user_name user_password
    user_surname user_theme user_type w :
  exists o,
    fst (update_user zapi alias autologin autologout lang
           redirect_url refresh rows_per_page user_groups user_medias
           user_name user_password user_surname user_theme user_type w)
    = Exit o.
Proof.
  unfold update_user, _get_user_state. unfold_py.
  step_id; cbn -[py_ne py_first py_keys py_pop]; [ | exits_leaf].
  destruct (py_first user_medias); cbn -[py_ne py_first py_keys py_pop];
    [ | exits_leaf].
  destruct (py_keys _); cbn -[py_ne py_first py_keys py_pop]; [ | exits_leaf].
  step_id; cbn -[py_ne py_first py_keys py_pop]; [ | exits_leaf].
  destruct (user_get zapi _ _) as [[result | e] s3];
    cbn -[py_ne py_first py_keys py_pop]; [ | exits_leaf].
  destruct (py_first result); cbn -[py_ne py_first py_keys py_pop];
    [ | exits_leaf].
  destruct (py_pop _ _) as [[m c] | e]; cbn -[py_ne py_first py_keys py_pop];
    [ | exits_leaf].
  destruct (py_setitem _ _ _); cbn -[py_ne]; [ | exits_leaf].
  destruct (py_ne _ _); cbn; [ | exits_leaf].
  destruct (user_update zapi _ _) as [[v | e] s4]; exits_leaf.
Qed.

(** The media loop accepts every dict. *)
Lemma convert_if_present_dict k d :
  exists d', convert_if_present py_repr k (PDict d) = Ok (PDict d').
Proof.
  unfold convert_if_present, py_contains, py_getitem, py_setitem, Dict.mem.
  destruct (Dict.get k d); eauto.
Qed.

Lemma convert_medias_entry_dict e :
  is_dict e = true -> exists e', convert_medias_entry py_repr e = Ok e'.
Proof.
  destruct e as [ | | | | | d]; try discriminate. intros _.
  unfold convert_medias_entry.
  destruct (convert_if_present_dict "mediatypeid" d) as (d1 & ->).
  destruct (convert_if_present_dict "severity" d1) as (d2 & ->). eauto.
Qed.

(** X4: with group entries that are dicts with a ["usrgrpid"] and media
    entries that are dicts, no exception goes uncaught: the coercion
    loops pass, the first call of the run is the login, and the run ends
    in [exit_json] or [fail_json], whatever the server answers. *)
Theorem well_formed_lists_never_crash p s l ms :
  user_groups p = Some l ->
  user_medias p = Some ms ->
  forallb has_usrgrpid l = true ->
  forallb is_dict ms = true ->
  exists o rest,
    ending (run zapi check_mode true py_repr p s) = Exit o
    /\ calls (run zapi check_mode true py_repr p s) = Login :: rest.
Proof.
  intros Hl Hms Hgood Hdicts.
  destruct (for_each_accepted (convert_usrgrp_entry py_repr) l) as (g & Hg).
  { apply forallb_forall. intros x Hx.
    rewrite forallb_forall in Hgood. specialize (Hgood x Hx).
    pose proof (convert_usrgrp_entry_cases py_repr x) as Hc.
    destruct x as [ | | | | | d]; try discriminate.
    cbn in Hgood. unfold Dict.mem in Hgood.
    destruct (Dict.get "usrgrpid" d); [now rewrite Hc | discriminate]. }
  destruct (for_each_accepted (convert_medias_entry py_repr) ms) as (m & Hm).
  { apply forallb_forall. intros x Hx.
    rewrite forallb_forall in Hdicts.
    destruct (convert_medias_entry_dict x (Hdicts x Hx)) as (x' & ->).
    reflexivity. }
  unfold run, calls, ending, main. unfold_py. cbn.
  rewrite Hl, Hms. cbn. rewrite Hg, Hm. cbn.
  destruct (connect zapi _ _ _ _ _ _ _ _) as [[[] | e] s1]; cbn;
    [ | eexists _, _; split; reflexivity].
  destruct (state p); cbn.
  - destruct (check_user_exist_world zapi (alias p)
                {| server := s1; trace := [Login]; atexit_logout := true |})
      as (s2 & Hw & Hr).
    destruct (check_user_exist zapi (alias p) _) as [[found | e | o] w2];
      cbn [fst snd] in Hw, Hr; subst w2;
      [ | exfalso; eapply Hr; reflexivity
        | cbn; eexists _, _; split; reflexivity].
    match goal with
    | |- context [if py_truthy found then ?u else ?c] =>
        assert (Hf : final_action (if py_truthy found then u else c))
          by (destruct (py_truthy found);
              [apply update_user_final | apply create_user_final]);
        assert (He : forall w, exists o,
                       fst ((if py_truthy found then u else c) w) = Exit o)
          by (intros w; destruct (py_truthy found);
              [apply update_user_exits | apply create_user_exits])
    end.
    match type of Hf with
    | final_action ?f =>
        destruct (Hf (logged {| server := s1; trace := [Login];
                                atexit_logout := true |} s2
                        (UserGet (alias_filter (alias p)))))
          as (_ & Hat & ext & Htr & _);
        destruct (He (logged {| server := s1; trace := [Login];
                                atexit_logout := true |} s2
                        (UserGet (alias_filter (alias p))))) as (o & Ho);
        destruct (f _) as [r3 w3]
    end.
    cbn [fst snd atexit_logout logged] in *. subst r3. rewrite Hat.
    cbn [fst snd]. rewrite Htr. cbn. eexists _, _; split; reflexivity.
  - destruct (delete_user_final zapi py_repr (alias p)
                {| server := s1; trace := [Login]; atexit_logout := true |})
      as (_ & Hat & ext & Htr & _).
    destruct (delete_user_exits (alias p)
                {| server := s1; trace := [Login]; atexit_logout := true |})
      as (o & Ho).
    destruct (delete_user zapi py_repr (alias p) _) as [r2 w2].
    cbn [fst snd atexit_logout] in *. subst r2. cbn. rewrite Hat.
    cbn [fst snd]. rewrite Htr. eexists _, _; split; reflexivity.
Qed.

End Exits.

Lemma well_formed_lists_never_crash_witness :
  exists o rest,
    ending (scripted_run (bob "p@ss1" "default")
              {| Script.login := Ok tt;
                 Script.answers := [Ok (PInt 5)];
                 Script.applied := Ok PNone |}) = Exit o
    /\ calls (scripted_run (bob "p@ss1" "default")
                {| Script.login := Ok tt;
                   Script.answers := [Ok (PInt 5)];
                   Script.applied := Ok PNone |}) = Login :: rest.
Proof.
  exact (well_formed_lists_never_crash Script.api false repr_opaque
           (bob "p@ss1" "default")
           {| Script.login := Ok tt;
              Script.answers := [Ok (PInt 5)];
              Script.applied := Ok PNone |}
           group7 mail1 eq_refl eq_refl eq_refl eq_refl).
Defined.

(** ** The coercion, applied again *)

Section Stable.

Variable py_repr : pyval -> string.

Lemma convert_usrgrp_entry_stable e e' :
  convert_usrgrp_entry py_repr e = Ok e' ->
  convert_usrgrp_entry py_repr e' = Ok e'.
Proof.
  pose proof (convert_usrgrp_entry_cases py_repr e) as Hc.
  destruct e as [ | | | | | d]; try congruence.
  destruct (Dict.get "usrgrpid" d) as [v |]; [ | congruence].
  rewrite Hc. intros [= <-].
  pose proof (convert_usrgrp_entry_cases py_repr
                (PDict (Dict.set "usrgrpid" (PStr (py_str py_repr v)) d))) as Hc'.
  cbn in Hc'. rewrite dict_get_set_same in Hc'. rewrite Hc'. cbn.
  rewrite dict_set_same_value by apply dict_get_set_same. reflexivity.
Qed.

Lemma convert_if_present_stable k e e' :
  convert_if_present py_repr k e = Ok e' ->
  convert_if_present py_repr k e' = Ok e'.
Proof.
  unfold convert_if_present, py_contains, py_getitem, py_setitem, Dict.mem.
  destruct e as [ | | | s | l | d]; try discriminate.
  - destruct (is_substring k s) eqn:E; [discriminate |].
    intros [= <-]. now rewrite E.
  - destruct (existsb _ l) eqn:E; [discriminate |].
    intros [= <-]. now rewrite E.
  - destruct (Dict.get k d) as [v |] eqn:E; intros [= <-].
    + rewrite dict_get_set_same. cbn.
      rewrite dict_set_same_value by apply dict_get_set_same. reflexivity.
    + now rewrite E.
Qed.

Lemma convert_if_present_on_dict k d :
  convert_if_present py_repr k (PDict d)
  = match Dict.get k d with
    | Some v => Ok (PDict (Dict.set k (PStr (py_str py_repr v)) d))
    | None => Ok (PDict d)
    end.
Proof.
  unfold convert_if_present, py_contains, py_getitem, py_setitem, Dict.mem.
  now destruct (Dict.get k d).
Qed.

(** An entry that the coercion of [k'] leaves alone is still left alone
    after the coercion of another key [k]. *)
Lemma convert_if_present_keeps_fixed k k' e e' :
  String.eqb k' k = false ->
  convert_if_present py_repr k' e = Ok e ->
  convert_if_present py_repr k e = Ok e' ->
  convert_if_present py_repr k' e' = Ok e'.
Proof.
  intros Hk.
  destruct e as [ | | | s | l | d]; try discriminate.
  - unfold convert_if_present, py_contains.
    destruct (is_substring k' s) eqn:E1, (is_substring k s); try discriminate.
    intros _ [= <-]. now rewrite E1.
  - unfold convert_if_present, py_contains.
    destruct (existsb (py_eqb (PStr k')) l) eqn:E1,
      (existsb (py_eqb (PStr k)) l); try discriminate.
    intros _ [= <-]. now rewrite E1.
  - rewrite !convert_if_present_on_dict. intros Hfix.
    assert (Hsame : forall d', Dict.get k' d' = Dict.get k' d ->
              convert_if_present py_repr k' (PDict d') = Ok (PDict d')).
    { intros d' Hd'. rewrite convert_if_present_on_dict, Hd'.
      destruct (Dict.get k' d) as [x |] eqn:Ex; [ | reflexivity].
      injection Hfix as Hfix.
      assert (Dict.get k' (Dict.set k' (PStr (py_str py_repr x)) d)
              = Some (PStr (py_str py_repr x))) as Hx
        by apply dict_get_set_same.
      rewrite Hfix, Ex in Hx. injection Hx as Hx.
      rewrite <- Hx. rewrite dict_set_same_value; [reflexivity | congruence]. }
    destruct (Dict.get k d) as [v |]; intros [= <-].
    + apply Hsame. now apply dict_get_set_other.
    + now apply Hsame.
Qed.

Lemma convert_medias_entry_stable e e' :
  convert_medias_entry py_repr e = Ok e' ->
  convert_medias_entry py_repr e' = Ok e'.
Proof.
  unfold convert_medias_entry.
  destruct (convert_if_present py_repr "mediatypeid" e) as [e1 |] eqn:H1;
    [ | discriminate].
  intros H2.
  rewrite (convert_if_present_keeps_fixed "severity" "mediatypeid" e1 e'
             eq_refl (convert_if_present_stable _ _ _ H1) H2).
  now apply convert_if_present_stable in H2.
Qed.

Lemma for_each_stable (body : pyval -> reply pyval) :
  (forall e e', body e = Ok e' -> body e' = Ok e') ->
  forall l l', for_each body l = Ok l' -> for_each body l' = Ok l'.
Proof.
  intros Hbody. induction l as [| e l IH]; cbn; intros l' H.
  - now injection H as <-.
  - destruct (body e) as [e' |] eqn:He; [ | discriminate].
    destruct (for_each body l) as [r |] eqn:Hr; [ | discriminate].
    injection H as <-. cbn. rewrite (Hbody e e' He), (IH r eq_refl).
    reflexivity.
Qed.

(** X5: the coercion is stable.  Lists that came out of the two loops
    go through them again unchanged, so ids that are already text (as
    the module's documentation asks for) are left exactly as they are,
    and coercing twice is coercing once. *)
Theorem coercion_is_stable groups medias g m :
  for_each (convert_usrgrp_entry py_repr) groups = Ok g ->
  for_each (convert_medias_entry py_repr) medias = Ok m ->
  for_each (convert_usrgrp_entry py_repr) g = Ok g
  /\ for_each (convert_medias_entry py_repr) m = Ok m.
Proof.
  intros Hg Hm. split.
  - eapply for_each_stable; [apply convert_usrgrp_entry_stable | exact Hg].
  - eapply for_each_stable; [apply convert_medias_entry_stable | exact Hm].
Qed.

(** X6: the group loop changes nothing but the id.  Entry by entry, the
    list it leaves has the same dicts with the same keys in the same
    order and the same values, except that the value under
    ["usrgrpid"] is now the text of the old one; no entry is added,
    dropped or moved. *)
Theorem usrgrp_loop_changes_only_the_id l l' :
  for_each (convert_usrgrp_entry py_repr) l = Ok l' ->
  Forall2 (text_under py_repr "usrgrpid") l l'.
Proof.
  revert l'. induction l as [| e l IH]; cbn; intros l' H.
  - injection H as <-. constructor.
  - destruct (convert_usrgrp_entry py_repr e) as [e' |] eqn:He; [ | discriminate].
    destruct (for_each _ l) as [r |]; [ | discriminate].
    injection H as <-. constructor; [ | now apply IH].
    pose proof (convert_usrgrp_entry_cases py_repr e) as Hc.
    destruct e as [ | | | | | d]; try congruence.
    destruct (Dict.get "usrgrpid" d) as [v |] eqn:Ev; [ | congruence].
    rewrite Hc in He. injection He as <-.
    exists d, (Dict.set "usrgrpid" (PStr (py_str py_repr v)) d), v.
    repeat split; auto.
    + apply dict_keys_set_present. unfold Dict.mem. now rewrite Ev.
    + apply dict_get_set_same.
    + intros k' Hk'. now apply dict_get_set_other.
Qed.

End Stable.

Lemma coercion_is_stable_witness :
  for_each (convert_usrgrp_entry repr_opaque) [PDict [("usrgrpid", PStr "7")]]
    = Ok [PDict [("usrgrpid", PStr "7")]]
  /\ for_each (convert_medias_entry repr_opaque)
       [PDict [("mediatypeid", PStr "1"); ("sendto", PList [PStr "a@example.com"])]]
     = Ok [PDict [("mediatypeid", PStr "1");
                  ("sendto", PList [PStr "a@example.com"])]].
Proof.
  exact (coercion_is_stable repr_opaque group7 mail1 _ _ eq_refl eq_refl).
Defined.

Lemma usrgrp_loop_changes_only_the_id_witness :
  Forall2 (text_under repr_opaque "usrgrpid")
    [PDict [("usrgrpid", PInt 7); ("name", PStr "ops")]]
    [PDict [("usrgrpid", PStr "7"); ("name", PStr "ops")]].
Proof.
  exact (usrgrp_loop_changes_only_the_id repr_opaque
           [PDict [("usrgrpid", PInt 7); ("name", PStr "ops")]] _ eq_refl).
Defined.

(** ** Runs, path by path *)

Section Paths.

Context {S : Type} (zapi : ZabbixAPI S).
Variable check_mode : bool.
Variable py_repr : pyval -> string.

(** A run with [state: absent] that got through the loops and the
    login is [delete_user] followed by the logout. *)
Lemma run_absent p s g m s1 :
  state p = absent ->
  for_each_in (convert_usrgrp_entry py_repr) (user_groups p) = Ok g ->
  for_each_in (convert_medias_entry py_repr) (user_medias p) = Ok m ->
  connect zapi (server_url p) (timeout p) (http_login_user p)
    (http_login_password p) (validate_certs p) (login_user p)
    (login_password p) s = (Ok tt, s1) ->
  run zapi check_mode true py_repr p s
  = (fst (delete_user zapi py_repr (alias p)
            {| server := s1; trace := [Login]; atexit_logout := true |}),
     trace (snd (delete_user zapi py_repr (alias p)
                   {| server := s1; trace := [Login]; atexit_logout := true |}))
       ++ [Logout],
     logout zapi
       (server (snd (delete_user zapi py_repr (alias p)
                       {| server := s1; trace := [Login];
                          atexit_logout := true |})))).
Proof.
  intros Hst Hg Hm Hc. unfold run, main. unfold_py. cbn.
  rewrite Hg, Hm. cbn. rewrite Hc, Hst. cbn.
  destruct (delete_user_final zapi py_repr (alias p)
              {| server := s1; trace := [Login]; atexit_logout := true |})
    as (Hnr & Hat & _).
  destruct (delete_user zapi py_repr (alias p) _) as [[u | e | o] w2];
    cbn [fst snd atexit_logout] in *;
    try (exfalso; eapply Hnr; reflexivity);
    rewrite Hat; reflexivity.
Qed.

(** A run with [state: present] whose first lookup finds something is
    [update_user] followed by the logout. *)
Lemma run_present_found p s g m s1 found s2 :
  state p = present ->
  for_each_in (convert_usrgrp_entry py_repr) (user_groups p) = Ok g ->
  for_each_in (convert_medias_entry py_repr) (user_medias p) = Ok m ->
  connect zapi (server_url p) (timeout p) (http_login_user p)
    (http_login_password p) (validate_certs p) (login_user p)
    (login_password p) s = (Ok tt, s1) ->
  user_get zapi (alias_filter (alias p)) s1 = (Ok found, s2) ->
  py_truthy found = true ->
  forall rw,
    rw = update_user zapi (alias p)
           (if negb (autologin p) then PStr "0" else PStr "1")
           (PStr (autologout p)) (PStr (lang p)) (PStr (redirect_url p))
           (PStr (refresh p)) (PStr (str_of_Z (rows_per_page p)))
           (PList g) (PList m)
           (py_opt_str (user_name p)) (py_opt_str (user_password p))
           (py_opt_str (user_surname p)) (PStr (user_theme p))
           (PStr (str_of_Z (user_type p)))
           {| server := s2;
              trace := [Login; UserGet (alias_filter (alias p))];
              atexit_logout := true |} ->
    run zapi check_mode true py_repr p s
    = (fst rw, trace (snd rw) ++ [Logout], logout zapi (server (snd rw))).
Proof.
  intros Hst Hg Hm Hc Hfound Htruthy rw Hrw.
  unfold run, main. unfold_py. cbn.
  rewrite Hg, Hm. cbn. rewrite Hc, Hst. cbn.
  unfold check_user_exist. unfold_py. cbn.
  rewrite Hfound. cbn. rewrite Htruthy.
  match goal with
  | |- context [update_user zapi ?a ?b ?c0 ?d ?e ?f ?g0 ?h ?i ?j ?k ?l ?m0 ?n ?w] =>
      pose proof (update_user_final zapi a b c0 d e f g0 h i j l m0 n k w) as Hf;
      replace (update_user zapi a b c0 d e f g0 h i j k l m0 n w) with rw in *
        by (rewrite Hrw; reflexivity)
  end.
  destruct Hf as (Hnr & Hat & _). clear Hrw.
  destruct rw as [[u | e' | o] w3];
    cbn [fst snd atexit_logout logged] in *;
    try (exfalso; eapply Hnr; reflexivity);
    rewrite Hat; reflexivity.
Qed.

End Paths.

Section PathFacts.

Context {S : Type} (zapi : ZabbixAPI S).
Variable check_mode : bool.
Variable py_repr : pyval -> string.

(** X7: a lookup that raises is never read as "no such user".  When
    the lookup by alias raises, the run fails with the message of the
    function that looked ("Failed to check if the user exists" with
    [state: present], "Failed to get the ID" with [state: absent]),
    after that one call: nothing is created and nothing is deleted. *)
Theorem lookup_failure_is_not_absence p s g m s1 e s2 :
  for_each_in (convert_usrgrp_entry py_repr) (user_groups p) = Ok g ->
  for_each_in (convert_medias_entry py_repr) (user_medias p) = Ok m ->
  connect zapi (server_url p) (timeout p) (http_login_user p)
    (http_login_password p) (validate_certs p) (login_user p)
    (login_password p) s = (Ok tt, s1) ->
  user_get zapi (alias_filter (alias p)) s1 = (Err e, s2) ->
  run zapi check_mode true py_repr p s
  = (Exit (FailJson match state p with
                    | present => FailedToCheckExists (alias p) e
                    | absent => FailedToGetId (alias p) e
                    end),
     [Login; UserGet (alias_filter (alias p)); Logout],
     logout zapi s2).
Proof.
  intros Hg Hm Hc Hget. destruct (state p) eqn:Hst.
  - unfold run, main. unfold_py. cbn.
    rewrite Hg, Hm. cbn. rewrite Hc, Hst. cbn.
    unfold check_user_exist. unfold_py. cbn. rewrite Hget. reflexivity.
  - rewrite (run_absent zapi check_mode py_repr p s g m s1 Hst Hg Hm Hc).
    unfold delete_user. unfold_py.
    erewrite get_user_id_remote_error by (cbn; eassumption).
    reflexivity.
Qed.

(** X8: with [state: absent], a user that the lookup finds is deleted by
    the text of its id.  The one mutating call is [user.delete] on the
    one-element list that holds [str(userid)] of the first record; any
    answer to it is a success with [changed=True], an exception is
    "Failed to remove". *)
Theorem found_user_is_deleted_by_id_text p s g m s1 u rest uid s2 :
  state p = absent ->
  for_each_in (convert_usrgrp_entry py_repr) (user_groups p) = Ok g ->
  for_each_in (convert_medias_entry py_repr) (user_medias p) = Ok m ->
  connect zapi (server_url p) (timeout p) (http_login_user p)
    (http_login_password p) (validate_certs p) (login_user p)
    (login_password p) s = (Ok tt, s1) ->
  user_get zapi (alias_filter (alias p)) s1
    = (Ok (PList (PDict u :: rest)), s2) ->
  Dict.get "userid" u = Some uid ->
  py_truthy uid = true ->
  run zapi check_mode true py_repr p s
  = let (r, s3) := user_delete zapi (PList [PStr (py_str py_repr uid)]) s2 in
    (match r with
     | Ok _ => Exit (ExitJson true (Some (SuccessfullyDeleted (alias p))))
     | Err e => Exit (FailJson (FailedToRemove (alias p) e))
     end,
     [Login; UserGet (alias_filter (alias p));
      UserDelete (PList [PStr (py_str py_repr uid)]); Logout],
     logout zapi s3).
Proof.
  intros Hst Hg Hm Hc Hget Hu Huid.
  rewrite (run_absent zapi check_mode py_repr p s g m s1 Hst Hg Hm Hc).
  unfold delete_user. unfold_py.
  erewrite get_user_id_first_match by (cbn; eassumption).
  rewrite Huid. cbn.
  destruct (user_delete zapi _ s2) as [[v | e] s3]; reflexivity.
Qed.

(** X9: an id that Python counts as false is treated as no user at all.
    With [state: absent], when the first record found holds a
    ["userid"] that is [0], [""], [None], [False] or empty, the run
    fails with "does not exists" and makes no [user.delete] call. *)
Theorem falsy_id_counts_as_missing p s g m s1 u rest uid s2 :
  state p = absent ->
  for_each_in (convert_usrgrp_entry py_repr) (user_groups p) = Ok g ->
  for_each_in (convert_medias_entry py_repr) (user_medias p) = Ok m ->
  connect zapi (server_url p) (timeout p) (http_login_user p)
    (http_login_password p) (validate_certs p) (login_user p)
    (login_password p) s = (Ok tt, s1) ->
  user_get zapi (alias_filter (alias p)) s1
    = (Ok (PList (PDict u :: rest)), s2) ->
  Dict.get "userid" u = Some uid ->
  py_truthy uid = false ->
  run zapi check_mode true py_repr p s
  = (Exit (FailJson (DoesNotExist (alias p))),
     [Login; UserGet (alias_filter (alias p)); Logout],
     logout zapi s2).
Proof.
  intros Hst Hg Hm Hc Hget Hu Huid.
  rewrite (run_absent zapi check_mode py_repr p s g m s1 Hst Hg Hm Hc).
  unfold delete_user. unfold_py.
  erewrite get_user_id_first_match by (cbn; eassumption).
  rewrite Huid. reflexivity.
Qed.

(** X10: a user that vanishes between the existence check and the id
    lookup fails the run.  With [state: present], when the first lookup
    finds the alias and the second returns nothing, the run ends with
    "does not exists" after those two calls; it neither creates nor
    updates. *)
Theorem vanished_user_fails_the_update p s g m s1 found s2 v s3 :
  state p = present ->
  for_each_in (convert_usrgrp_entry py_repr) (user_groups p) = Ok g ->
  for_each_in (convert_medias_entry py_repr) (user_medias p) = Ok m ->
  connect zapi (server_url p) (timeout p) (http_login_user p)
    (http_login_password p) (validate_certs p) (login_user p)
    (login_password p) s = (Ok tt, s1) ->
  user_get zapi (alias_filter (alias p)) s1 = (Ok found, s2) ->
  py_truthy found = true ->
  user_get zapi (alias_filter (alias p)) s2 = (Ok v, s3) ->
  py_truthy v = false ->
  run zapi check_mode true py_repr p s
  = (Exit (FailJson (DoesNotExist (alias p))),
     [Login; UserGet (alias_filter (alias p));
      UserGet (alias_filter (alias p)); Logout],
     logout zapi s3).
Proof.
  intros Hst Hg Hm Hc Hfound Htruthy Hget Hv.
  rewrite (run_present_found zapi check_mode py_repr p s g m s1 found s2
             Hst Hg Hm Hc Hfound Htruthy
             (Exit (FailJson (DoesNotExist (alias p))),
              {| server := s3;
                 trace := [Login; UserGet (alias_filter (alias p));
                           UserGet (alias_filter (alias p))];
                 atexit_logout := true |})); [reflexivity |].
  unfold update_user. unfold_py.
  erewrite get_user_id_no_match by (cbn; eassumption).
  reflexivity.
Qed.

(** X11: the dry run of a creation calls nothing.  In check mode, with
    [state: present] and an alias the lookup does not find, the run
    reports [changed=True] without a message after the one lookup; no
    [user.create] is sent. *)
Theorem dry_creation_makes_no_call p s g m s1 found s2 :
  state p = present ->
  for_each_in (convert_usrgrp_entry py_repr) (user_groups p) = Ok g ->
  for_each_in (convert_medias_entry py_repr) (user_medias p) = Ok m ->
  connect zapi (server_url p) (timeout p) (http_login_user p)
    (http_login_password p) (validate_certs p) (login_user p)
    (login_password p) s = (Ok tt, s1) ->
  user_get zapi (alias_filter (alias p)) s1 = (Ok found, s2) ->
  py_truthy found = false ->
  run zapi true true py_repr p s
  = (Exit (ExitJson true None),
     [Login; UserGet (alias_filter (alias p)); Logout],
     logout zapi s2).
Proof.
  intros Hst Hg Hm Hc Hfound Hfalsy.
  unfold run, main. unfold_py. cbn.
  rewrite Hg, Hm. cbn. rewrite Hc, Hst. cbn.
  unfold check_user_exist. unfold_py. cbn.
  rewrite Hfound. cbn. rewrite Hfalsy. reflexivity.
Qed.

(** X12: a real creation sends the fourteen properties, the password
    among them and no ["userid"], in one [user.create]; what the server
    answers is not looked at: any answer is a success with
    [changed=True], only an exception is "Failed create". *)
Theorem creation_sends_all_properties p s g m s1 found s2 r s3 :
  state p = present ->
  for_each_in (convert_usrgrp_entry py_repr) (user_groups p) = Ok g ->
  for_each_in (convert_medias_entry py_repr) (user_medias p) = Ok m ->
  connect zapi (server_url p) (timeout p) (http_login_user p)
    (http_login_password p) (validate_certs p) (login_user p)
    (login_password p) s = (Ok tt, s1) ->
  user_get zapi (alias_filter (alias p)) s1 = (Ok found, s2) ->
  py_truthy found = false ->
  user_create zapi (PDict (create_params p g m)) s2 = (r, s3) ->
  Dict.keys (create_params p g m)
    = ["alias"; "autologin"; "autologout"; "lang"; "name"; "passwd"; "refresh";
       "url"; "rows_per_page"; "surname"; "theme"; "type"; "usrgrps";
       "user_medias"]
  /\ Dict.get "passwd" (create_params p g m)
     = Some (py_opt_str (user_password p))
  /\ run zapi false true py_repr p s
     = (match r with
        | Ok _ => Exit (ExitJson true (Some (SuccessfullyCreated (alias p))))
        | Err e => Exit (FailJson (FailedCreate (alias p) e))
        end,
        [Login; UserGet (alias_filter (alias p));
         UserCreate (PDict (create_params p g m)); Logout],
        logout zapi s3).
Proof.
  intros Hst Hg Hm Hc Hfound Hfalsy Hcreate.
  split; [reflexivity | split; [reflexivity |]].
  rewrite (run_create_path zapi py_repr p s g m s1 found s2
             Hst Hg Hm Hc Hfound Hfalsy).
  now rewrite Hcreate.
Qed.

End PathFacts.

Lemma lookup_failure_is_not_absence_witness :
  scripted_run remove_bob (script [Err (ApiError "timeout")] (Ok PNone))
  = (Exit (FailJson (FailedToGetId "bob" (ApiError "timeout"))),
     [Login; UserGet (alias_filter "bob"); Logout],
     script [] (Ok PNone)).
Proof.
  exact (lookup_failure_is_not_absence Script.api false repr_opaque
           remove_bob (script [Err (ApiError "timeout")] (Ok PNone))
           [] [] _ _ _ eq_refl eq_refl eq_refl eq_refl).
Defined.

Lemma found_user_is_deleted_by_id_text_witness :
  scripted_run remove_bob
    (script [Ok (PList [PDict [("userid", PInt 3)]])] (Ok PNone))
  = (Exit (ExitJson true (Some (SuccessfullyDeleted "bob"))),
     [Login; UserGet (alias_filter "bob"); UserDelete (PList [PStr "3"]);
      Logout],
     script [] (Ok PNone)).
Proof.
  exact (found_user_is_deleted_by_id_text Script.api false repr_opaque
           remove_bob
           (script [Ok (PList [PDict [("userid", PInt 3)]])] (Ok PNone))
           [] [] _ _ _ _ _ eq_refl eq_refl eq_refl eq_refl eq_refl eq_refl
           eq_refl).
Defined.

Lemma falsy_id_counts_as_missing_witness :
  scripted_run remove_bob
    (script [Ok (PList [PDict [("userid", PInt 0)]])] (Ok PNone))
  = (Exit (FailJson (DoesNotExist "bob")),
     [Login; UserGet (alias_filter "bob"); Logout],
     script [] (Ok PNone)).
Proof.
  exact (falsy_id_counts_as_missing Script.api false repr_opaque
           remove_bob
           (script [Ok (PList [PDict [("userid", PInt 0)]])] (Ok PNone))
           [] [] _ _ _ _ _ eq_refl eq_refl eq_refl eq_refl eq_refl eq_refl
           eq_refl).
Defined.

Lemma vanished_user_fails_the_update_witness :
  scripted_run ensure_bob
    (script [Ok (PList [PDict [("userid", PStr "1")]]); Ok (PList [])]
       (Ok PNone))
  = (Exit (FailJson (DoesNotExist "bob")),
     [Login; UserGet (alias_filter "bob"); UserGet (alias_filter "bob");
      Logout],
     script [] (Ok PNone)).
Proof.
  exact (vanished_user_fails_the_update Script.api false repr_opaque
           ensure_bob
           (script [Ok (PList [PDict [("userid", PStr "1")]]); Ok (PList [])]
              (Ok PNone))
           [] [] _ _ _ _ _ eq_refl eq_refl eq_refl eq_refl eq_refl eq_refl
           eq_refl eq_refl).
Defined.

Lemma dry_creation_makes_no_call_witness :
  run Script.api true true repr_opaque ensure_bob
    (script [Ok (PList [])] (Err (ApiError "must not be called")))
  = (Exit (ExitJson true None),
     [Login; UserGet (alias_filter "bob"); Logout],
     script [] (Err (ApiError "must not be called"))).
Proof.
  exact (dry_creation_makes_no_call Script.api repr_opaque
           ensure_bob
           (script [Ok (PList [])] (Err (ApiError "must not be called")))
           [] [] _ _ _ eq_refl eq_refl eq_refl eq_refl eq_refl eq_refl).
Defined.

Lemma creation_sends_all_properties_witness :
  Dict.get "passwd" (create_params ensure_bob [] []) = Some (PStr "p@ss1")
  /\ scripted_run ensure_bob (script [Ok (PList [])] (Ok (PInt 12)))
     = (Exit (ExitJson true (Some (SuccessfullyCreated "bob"))),
        [Login; UserGet (alias_filter "bob");
         UserCreate (PDict (create_params ensure_bob [] [])); Logout],
        script [] (Ok (PInt 12))).
Proof.
  exact (proj2 (creation_sends_all_properties Script.api repr_opaque
                  ensure_bob (script [Ok (PList [])] (Ok (PInt 12)))
                  [] [] _ _ _ _ _ eq_refl eq_refl eq_refl eq_refl eq_refl
                  eq_refl eq_refl)).
Defined.

(** ** What the calls of a run are about *)

(** One call of the trace is about the task. *)
Ltac concern :=
  cbn [concerns];
  first [exact I
        | reflexivity
        | left; reflexivity
        | right; do 2 eexists; split; [eassumption | reflexivity]
        | eexists; reflexivity].

(** The end of a path through a method: the calls added are read off
    and each one is checked. *)
Ltac adding_leaf :=
  cbn -[concerns]; eexists; split;
  [repeat rewrite <- app_assoc; reflexivity
  | repeat (apply Forall_cons; [concern | ]); apply Forall_nil].

Section Concerns.

Context {S : Type} (zapi : ZabbixAPI S).
Variable check_mode : bool.
Variable HAS_ZABBIX_API : bool.
Variable py_repr : pyval -> string.
Variable p : module_params.
Variables g m : list pyval.

Lemma delete_user_adds :
  adding (concerns p g m) (delete_user zapi py_repr (alias p)).
Proof.
  intros w. unfold delete_user. unfold_py.
  step_id_endings; cbn -[py_truthy concerns];
    [ | adding_leaf | adding_leaf].
  destruct (py_truthy _); cbn -[concerns]; [ | adding_leaf].
  destruct (user_delete zapi _ _) as [[v | e] s2]; adding_leaf.
Qed.

Lemma create_user_adds :
  adding (concerns p g m)
    (create_user zapi check_mode (alias p)
       (if negb (autologin p) then PStr "0" else PStr "1")
       (PStr (autologout p)) (PStr (lang p)) (PStr (redirect_url p))
       (PStr (refresh p)) (PStr (str_of_Z (rows_per_page p)))
       (PList g) (PList m)
       (py_opt_str (user_name p)) (py_opt_str (user_password p))
       (py_opt_str (user_surname p)) (PStr (user_theme p))
       (PStr (str_of_Z (user_type p)))).
Proof.
  intros w. unfold create_user. unfold_py.
  destruct check_mode; cbn -[concerns].
  - exists []. split; [now rewrite app_nil_r | apply Forall_nil].
  - destruct (user_create zapi _ _) as [[v | e] s2]; adding_leaf.
Qed.

Lemma update_user_adds :
  adding (concerns p g m)
    (update_user zapi (alias p)
       (if negb (autologin p) then PStr "0" else PStr "1")
       (PStr (autologout p)) (PStr (lang p)) (PStr (redirect_url p))
       (PStr (refresh p)) (PStr (str_of_Z (rows_per_page p)))
       (PList g) (PList m)
       (py_opt_str (user_name p)) (py_opt_str (user_password p))
       (py_opt_str (user_surname p)) (PStr (user_theme p))
       (PStr (str_of_Z (user_type p)))).
Proof.
  intros w. unfold update_user, _get_user_state. unfold_py.
  step_id_endings; cbn -[py_ne py_first py_keys py_pop concerns];
    [ | adding_leaf | adding_leaf].
  destruct (py_first (PList m)) as [m0 | e0] eqn:Hfirst;
    cbn -[py_ne py_first py_keys py_pop concerns]; [ | adding_leaf].
  destruct (py_keys m0) as [media_keys | e0] eqn:Hkeys;
    cbn -[py_ne py_first py_keys py_pop concerns]; [ | adding_leaf].
  assert (Hmk : media_keys_of (PList m) = Ok media_keys)
    by (unfold media_keys_of; rewrite Hfirst; exact Hkeys).
  clear Hfirst Hkeys.
  step_id_endings; cbn -[py_ne py_first py_keys py_pop concerns];
    [ | adding_leaf | adding_leaf].
  destruct (user_get zapi _ _) as [[result | e] s3];
    cbn -[py_ne py_first py_keys py_pop concerns]; [ | adding_leaf].
  destruct (py_first result); cbn -[py_ne py_first py_keys py_pop concerns];
    [ | adding_leaf].
  destruct (py_pop _ _) as [[med c] | e];
    cbn -[py_ne py_first py_keys py_pop concerns]; [ | adding_leaf].
  destruct (py_setitem _ _ _); cbn -[py_ne concerns]; [ | adding_leaf].
  destruct (py_ne _ _); cbn -[concerns]; [ | adding_leaf].
  destruct (user_update zapi _ _) as [[v | e] s4]; adding_leaf.
Qed.

Hypothesis Hg :
  for_each_in (convert_usrgrp_entry py_repr) (user_groups p) = Ok g.
Hypothesis Hm :
  for_each_in (convert_medias_entry py_repr) (user_medias p) = Ok m.

Lemma main_adds :
  adding (concerns p g m) (main zapi check_mode HAS_ZABBIX_API py_repr p).
Proof.
  intros w. unfold main. unfold_py.
  destruct HAS_ZABBIX_API; cbn -[concerns];
    [ | exists []; split; [now rewrite app_nil_r | apply Forall_nil]].
  rewrite Hg, Hm. cbn -[concerns].
  destruct (connect zapi _ _ _ _ _ _ _ _) as [[[] | e] s1]; cbn -[concerns];
    [ | adding_leaf].
  destruct (state p).
  - (* present *)
    cbn -[concerns].
    destruct (check_user_exist_endings zapi (alias p)
                {| server := s1; trace := trace w ++ [Login];
                   atexit_logout := true |}) as (s2 & Hw & Hr).
    destruct (check_user_exist zapi (alias p) _) as [r2 w2];
      cbn [fst snd] in Hw, Hr; subst w2.
    destruct Hr as [[found ->] | [e ->]]; [ | adding_leaf].
    match goal with
    | |- context [if py_truthy found then ?u else ?c] =>
        assert (Ha : adding (concerns p g m) (if py_truthy found then u else c))
          by (destruct (py_truthy found);
              [apply update_user_adds | apply create_user_adds])
    end.
    match type of Ha with
    | adding _ ?f =>
        destruct (Ha (logged {| server := s1; trace := trace w ++ [Login];
                                atexit_logout := true |} s2
                        (UserGet (alias_filter (alias p)))))
          as (ext & Htr & Hall);
        destruct (f _) as [r3 w3]
    end.
    cbn [fst snd] in *.
    exists (Login :: UserGet (alias_filter (alias p)) :: ext).
    split.
    + destruct r3 as [[] | e | o]; cbn [snd]; rewrite Htr; cbn;
        repeat rewrite <- app_assoc; reflexivity.
    + apply Forall_cons; [concern | apply Forall_cons; [concern | exact Hall]].
  - (* absent *)
    destruct (delete_user_adds
                {| server := s1; trace := trace w ++ [Login];
                   atexit_logout := true |}) as (ext & Htr & Hall).
    destruct (delete_user zapi py_repr (alias p) _) as [r2 w2].
    cbn [fst snd] in Htr, Hall.
    destruct r2 as [[] | e | o]; cbn -[concerns]; exists (Login :: ext);
      (split; [rewrite Htr; cbn; repeat rewrite <- app_assoc; reflexivity
              | apply Forall_cons; [concern | exact Hall]]).
Qed.

(** X13: every call of a run is about the user of the task, on every
    server.  The lists having passed the coercion loops, each lookup is
    by the alias of the task or is the detailed fetch under the keys of
    the first media entry; a [user.create] carries the fourteen
    properties of the task; a [user.update] carries its desired record,
    which holds the task's alias and no password; a [user.delete] names
    one id.  No other call is made. *)
Theorem every_call_concerns_the_task s :
  (forall userid,
      Dict.get "alias" (desired_record p userid g m) = Some (PStr (alias p))
      /\ Dict.mem "passwd" (desired_record p userid g m) = false)
  /\ Forall (concerns p g m)
       (calls (run zapi check_mode HAS_ZABBIX_API py_repr p s)).
Proof.
  split; [intros userid; split; reflexivity | ].
  unfold run, calls.
  destruct (main_adds {| server := s; trace := []; atexit_logout := false |})
    as (ext & Htr & Hall).
  destruct (main zapi check_mode HAS_ZABBIX_API py_repr p _) as [r w].
  cbn [fst snd trace] in *. rewrite app_nil_l in Htr.
  destruct (atexit_logout w); cbn [fst snd]; rewrite Htr; [ | exact Hall].
  apply Forall_app. split; [exact Hall | ].
  apply Forall_cons; [concern | apply Forall_nil].
Qed.

End Concerns.

Lemma every_call_concerns_the_task_witness :
  Forall (concerns (bob "p@ss1" "dark-theme")
            [PDict [("usrgrpid", PStr "7")]]
            [PDict [("mediatypeid", PStr "1");
                    ("sendto", PList [PStr "a@example.com"])]])
    (calls (real_run (bob "p@ss1" "dark-theme") with_bob)).
Proof.
  exact (proj2 (every_call_concerns_the_task Mirror.api false true repr_opaque
                  (bob "p@ss1" "dark-theme") _ _ eq_refl eq_refl with_bob)).
Defined.

(** ** Check mode *)

Section CheckMode.

Context {S : Type} (zapi : ZabbixAPI S).
Variable HAS_ZABBIX_API : bool.
Variable py_repr : pyval -> string.

(** X14: check mode is read on the creation path only.  On every server
    and for every input a dry run is the real run, call for call and
    with the same ending and the same server afterwards, unless the
    real run creates the user: then the dry run stops after the lookup
    and reports [changed=True]. *)
Theorem check_mode_only_guards_creation p s :
  run zapi true HAS_ZABBIX_API py_repr p s
  = run zapi false HAS_ZABBIX_API py_repr p s
  \/ (state p = present
      /\ (exists params,
             calls (run zapi false HAS_ZABBIX_API py_repr p s)
             = [Login; UserGet (alias_filter (alias p)); UserCreate params;
                Logout])
      /\ ending (run zapi true HAS_ZABBIX_API py_repr p s)
         = Exit (ExitJson true None)
      /\ calls (run zapi true HAS_ZABBIX_API py_repr p s)
         = [Login; UserGet (alias_filter (alias p)); Logout]).
Proof.
  unfold run, main. unfold_py.
  destruct HAS_ZABBIX_API; cbn; [ | left; reflexivity].
  destruct (for_each_in _ (user_groups p)) as [g | e]; cbn;
    [ | left; reflexivity].
  destruct (for_each_in _ (user_medias p)) as [m | e]; cbn;
    [ | left; reflexivity].
  destruct (connect zapi _ _ _ _ _ _ _ _) as [[[] | e] s1]; cbn;
    [ | left; reflexivity].
  destruct (state p); [ | left; reflexivity].
  cbn. unfold check_user_exist. unfold_py. cbn.
  destruct (user_get zapi _ _) as [[found | e] s2]; cbn;
    [ | left; reflexivity].
  destruct (py_truthy found); [left; reflexivity | ].
  right. split; [reflexivity | ].
  unfold create_user. unfold_py. cbn.
  destruct (user_create zapi _ _) as [[v | e] s3]; cbn;
    (split; [eexists; reflexivity | split; reflexivity]).
Qed.

End CheckMode.

(** ** Failures on the update path *)

Section UpdateFailures.

Context {S : Type} (zapi : ZabbixAPI S).
Variable check_mode : bool.
Variable py_repr : pyval -> string.

(** X15: without a usable first media entry an existing user can be
    neither updated nor found in sync.  With [state: present], when the
    alias exists and the media list that left the loop is empty, or its
    first entry has no [keys()], the run fails with "Failed to update"
    and the exception of [medias[0].keys()], after the two lookups and
    before any detailed fetch. *)
Theorem unusable_first_media_fails_update p s g m s1 found s2 u rest userid
    s3 e :
  state p = present ->
  for_each_in (convert_usrgrp_entry py_repr) (user_groups p) = Ok g ->
  for_each_in (convert_medias_entry py_repr) (user_medias p) = Ok m ->
  connect zapi (server_url p) (timeout p) (http_login_user p)
    (http_login_password p) (validate_certs p) (login_user p)
    (login_password p) s = (Ok tt, s1) ->
  user_get zapi (alias_filter (alias p)) s1 = (Ok found, s2) ->
  py_truthy found = true ->
  user_get zapi (alias_filter (alias p)) s2
    = (Ok (PList (PDict u :: rest)), s3) ->
  Dict.get "userid" u = Some userid ->
  media_keys_of (PList m) = Err e ->
  run zapi check_mode true py_repr p s
  = (Exit (FailJson (FailedToUpdate (alias p) e)),
     [Login; UserGet (alias_filter (alias p));
      UserGet (alias_filter (alias p)); Logout],
     logout zapi s3)
  /\ (m = [] -> e = IndexError).
Proof.
  intros Hst Hg Hm Hc Hfound Htruthy Hid Hu Hkeys.
  split; [ | intros ->; cbn in Hkeys; congruence].
  rewrite (run_present_found zapi check_mode py_repr p s g m s1 found s2
             Hst Hg Hm Hc Hfound Htruthy
             (Exit (FailJson (FailedToUpdate (alias p) e)),
              {| server := s3;
                 trace := [Login; UserGet (alias_filter (alias p));
                           UserGet (alias_filter (alias p))];
                 atexit_logout := true |})); [reflexivity |].
  unfold update_user, _get_user_state. unfold_py.
  erewrite get_user_id_first_match by (cbn; eassumption).
  cbn -[py_first py_keys]. unfold media_keys_of in Hkeys.
  destruct (py_first (PList m)) as [m0 | e0]; cbn -[py_keys].
  - rewrite Hkeys. reflexivity.
  - now inversion Hkeys.
Qed.

(** The update path up to the detailed fetch: [update_user] after the
    lookups resolved the alias twice and the keys of the first media
    entry were read. *)
Lemma update_user_after_reads p g m w u1 rest1 userid s3 u2 rest2 userids s4
    media_keys r s5 :
  user_get zapi (alias_filter (alias p)) (server w)
    = (Ok (PList (PDict u1 :: rest1)), s3) ->
  Dict.get "userid" u1 = Some userid ->
  user_get zapi (alias_filter (alias p)) s3
    = (Ok (PList (PDict u2 :: rest2)), s4) ->
  Dict.get "userid" u2 = Some userids ->
  media_keys_of (PList m) = Ok media_keys ->
  user_get zapi (state_request media_keys userids) s4 = (r, s5) ->
  let w5 :=
    logged (logged (logged w s3 (UserGet (alias_filter (alias p)))) s4
              (UserGet (alias_filter (alias p)))) s5
      (UserGet (state_request media_keys userids)) in
  update_user zapi (alias p)
    (if negb (autologin p) then PStr "0" else PStr "1")
    (PStr (autologout p)) (PStr (lang p)) (PStr (redirect_url p))
    (PStr (refresh p)) (PStr (str_of_Z (rows_per_page p)))
    (PList g) (PList m)
    (py_opt_str (user_name p)) (py_opt_str (user_password p))
    (py_opt_str (user_surname p)) (PStr (user_theme p))
    (PStr (str_of_Z (user_type p))) w
  = match first_fetched r with
    | Err e => (Exit (FailJson (FailedToGetState (alias p) e)), w5)
    | Ok c =>
        match py_pop c "medias" with
        | Err e => (Exit (FailJson (FailedToUpdate (alias p) e)), w5)
        | Ok (med, c') =>
            match py_setitem c' "user_medias" med with
            | Err e => (Exit (FailJson (FailedToUpdate (alias p) e)), w5)
            | Ok cstate =>
                if py_ne cstate (PDict (desired_record p userid g m))
                then
                  let (r', s6) :=
                    user_update zapi (PDict (desired_record p userid g m)) s5 in
                  (match r' with
                   | Ok _ =>
                       Exit (ExitJson true
                               (Some (SuccessfullyUpdated (alias p) cstate
                                        (PDict (desired_record p userid g m)))))
                   | Err e => Exit (FailJson (FailedToUpdate (alias p) e))
                   end,
                   logged w5 s6
                     (UserUpdate (PDict (desired_record p userid g m))))
                else (Exit (ExitJson false (Some (NoChangesRequired (alias p)))),
                      w5)
            end
        end
    end.
Proof.
  intros Hid1 Hu1 Hid2 Hu2 Hkeys Hget w5. subst w5.
  unfold update_user, _get_user_state. unfold_py.
  erewrite get_user_id_first_match by eassumption.
  cbn -[py_first py_keys py_pop py_ne py_setitem].
  unfold media_keys_of in Hkeys.
  destruct (py_first (PList m)) as [m0 | e0];
    cbn -[py_first py_keys py_pop py_ne py_setitem]; [ | discriminate].
  rewrite Hkeys. cbn -[py_first py_keys py_pop py_ne py_setitem].
  erewrite get_user_id_first_match by (cbn; eassumption).
  cbn -[py_first py_keys py_pop py_ne py_setitem].
  rewrite Hget. unfold first_fetched, desired_record, nstate_of.
  destruct r as [result | e];
    cbn -[py_first py_keys py_pop py_ne py_setitem]; [ | reflexivity].
  destruct (py_first result) as [c | e];
    cbn -[py_first py_keys py_pop py_ne py_setitem]; [ | reflexivity].
  destruct (py_pop c "medias") as [[med c'] | e];
    cbn -[py_first py_keys py_pop py_ne py_setitem]; [ | reflexivity].
  destruct (py_setitem c' "user_medias" med) as [cstate | e];
    cbn -[py_ne]; [ | reflexivity].
  destruct (py_ne cstate _); cbn; [ | reflexivity].
  destruct (user_update zapi _ s5) as [[v | e] s6]; reflexivity.
Qed.

(** X16: a detailed fetch that fails is reported as such, not as a
    failed update.  With [state: present], when the fetch raises, or
    answers with an empty list or with something that has no first
    element, the run fails with "Failed to get the state" and that
    exception; the [except] of [update_user] does not rewrap it, and no
    update is sent. *)
Theorem failed_fetch_is_a_state_failure p s g m s1 found s2 u1 rest1 userid
    s3 u2 rest2 userids s4 media_keys r s5 e :
  state p = present ->
  for_each_in (convert_usrgrp_entry py_repr) (user_groups p) = Ok g ->
  for_each_in (convert_medias_entry py_repr) (user_medias p) = Ok m ->
  connect zapi (server_url p) (timeout p) (http_login_user p)
    (http_login_password p) (validate_certs p) (login_user p)
    (login_password p) s = (Ok tt, s1) ->
  user_get zapi (alias_filter (alias p)) s1 = (Ok found, s2) ->
  py_truthy found = true ->
  user_get zapi (alias_filter (alias p)) s2
    = (Ok (PList (PDict u1 :: rest1)), s3) ->
  Dict.get "userid" u1 = Some userid ->
  user_get zapi (alias_filter (alias p)) s3
    = (Ok (PList (PDict u2 :: rest2)), s4) ->
  Dict.get "userid" u2 = Some userids ->
  media_keys_of (PList m) = Ok media_keys ->
  user_get zapi (state_request media_keys userids) s4 = (r, s5) ->
  first_fetched r = Err e ->
  run zapi check_mode true py_repr p s
  = (Exit (FailJson (FailedToGetState (alias p) e)),
     update_reads (alias p) media_keys userids ++ [Logout],
     logout zapi s5).
Proof.
  intros Hst Hg Hm Hc Hfound Htruthy Hid1 Hu1 Hid2 Hu2 Hkeys Hget Hfirst.
  rewrite (run_present_found zapi check_mode py_repr p s g m s1 found s2
             Hst Hg Hm Hc Hfound Htruthy _ eq_refl).
  rewrite (update_user_after_reads p g m
             {| server := s2;
                trace := [Login; UserGet (alias_filter (alias p))];
                atexit_logout := true |}
             u1 rest1 userid s3 u2 rest2 userids
             s4 media_keys r s5 Hid1 Hu1 Hid2 Hu2 Hkeys Hget).
  rewrite Hfirst. reflexivity.
Qed.

(** X17: a fetched record without its medias fails the update.  With
    [state: present], when the first record of the detailed fetch has
    no ["medias"] to pop (a dict without the key, or no dict at all),
    the run fails with "Failed to update" and the exception of the
    [pop], after the four reads; nothing is compared and no update is
    sent. *)
Theorem record_without_medias_fails_update p s g m s1 found s2 u1 rest1
    userid s3 u2 rest2 userids s4 media_keys r s5 c e :
  state p = present ->
  for_each_in (convert_usrgrp_entry py_repr) (user_groups p) = Ok g ->
  for_each_in (convert_medias_entry py_repr) (user_medias p) = Ok m ->
  connect zapi (server_url p) (timeout p) (http_login_user p)
    (http_login_password p) (validate_certs p) (login_user p)
    (login_password p) s = (Ok tt, s1) ->
  user_get zapi (alias_filter (alias p)) s1 = (Ok found, s2) ->
  py_truthy found = true ->
  user_get zapi (alias_filter (alias p)) s2
    = (Ok (PList (PDict u1 :: rest1)), s3) ->
  Dict.get "userid" u1 = Some userid ->
  user_get zapi (alias_filter (alias p)) s3
    = (Ok (PList (PDict u2 :: rest2)), s4) ->
  Dict.get "userid" u2 = Some userids ->
  media_keys_of (PList m) = Ok media_keys ->
  user_get zapi (state_request media_keys userids) s4 = (r, s5) ->
  first_fetched r = Ok c ->
  py_pop c "medias" = Err e ->
  run zapi check_mode true py_repr p s
  = (Exit (FailJson (FailedToUpdate (alias p) e)),
     update_reads (alias p) media_keys userids ++ [Logout],
     logout zapi s5)
  /\ (forall d, c = PDict d -> e = KeyError (PStr "medias")).
Proof.
  intros Hst Hg Hm Hc Hfound Htruthy Hid1 Hu1 Hid2 Hu2 Hkeys Hget Hfirst Hpop.
  split.
  - rewrite (run_present_found zapi check_mode py_repr p s g m s1 found s2
               Hst Hg Hm Hc Hfound Htruthy _ eq_refl).
    rewrite (update_user_after_reads p g m
               {| server := s2;
                  trace := [Login; UserGet (alias_filter (alias p))];
                  atexit_logout := true |}
               u1 rest1 userid s3 u2 rest2
               userids s4 media_keys r s5 Hid1 Hu1 Hid2 Hu2 Hkeys Hget).
    rewrite Hfirst, Hpop. reflexivity.
  - intros d ->. cbn in Hpop.
    destruct (Dict.get "medias" d); congruence.
Qed.

End UpdateFailures.

Lemma unusable_first_media_fails_update_witness :
  scripted_run ensure_bob
    (script [Ok carol_found; Ok carol_found] (Ok PNone))
  = (Exit (FailJson (FailedToUpdate "bob" IndexError)),
     [Login; UserGet (alias_filter "bob"); UserGet (alias_filter "bob");
      Logout],
     script [] (Ok PNone)).
Proof.
  exact (proj1 (unusable_first_media_fails_update Script.api false repr_opaque
                  ensure_bob
                  (script [Ok carol_found; Ok carol_found] (Ok PNone))
                  [] [] _ _ _ _ _ _ _ IndexError
                  eq_refl eq_refl eq_refl eq_refl eq_refl eq_refl eq_refl
                  eq_refl eq_refl)).
Defined.

Lemma failed_fetch_is_a_state_failure_witness :
  scripted_run (bob "p@ss1" "default")
    (script [Ok carol_found; Ok carol_found; Ok carol_found; Ok (PList [])]
       (Ok PNone))
  = (Exit (FailJson (FailedToGetState "bob" IndexError)),
     update_reads "bob" (PList [PStr "mediatypeid"; PStr "sendto"]) (PStr "3")
       ++ [Logout],
     script [] (Ok PNone)).
Proof.
  exact (failed_fetch_is_a_state_failure Script.api false repr_opaque
           (bob "p@ss1" "default")
           (script [Ok carol_found; Ok carol_found; Ok carol_found;
                    Ok (PList [])] (Ok PNone))
           _ _ _ _ _ _ _ _ _ _ _ _ _ _ _ _ IndexError
           eq_refl eq_refl eq_refl eq_refl eq_refl eq_refl eq_refl eq_refl
           eq_refl eq_refl eq_refl eq_refl eq_refl).
Defined.

Lemma record_without_medias_fails_update_witness :
  scripted_run (bob "p@ss1" "default")
    (script [Ok carol_found; Ok carol_found; Ok carol_found;
             Ok (PList [PDict [("alias", PStr "bob")]])] (Ok PNone))
  = (Exit (FailJson (FailedToUpdate "bob" (KeyError (PStr "medias")))),
     update_reads "bob" (PList [PStr "mediatypeid"; PStr "sendto"]) (PStr "3")
       ++ [Logout],
     script [] (Ok PNone)).
Proof.
  exact (proj1 (record_without_medias_fails_update Script.api false
                  repr_opaque (bob "p@ss1" "default")
                  (script [Ok carol_found; Ok carol_found; Ok carol_found;
                           Ok (PList [PDict [("alias", PStr "bob")]])]
                     (Ok PNone))
                  _ _ _ _ _ _ _ _ _ _ _ _ _ _ _ _ _
                  (KeyError (PStr "medias"))
                  eq_refl eq_refl eq_refl eq_refl eq_refl eq_refl eq_refl
                  eq_refl eq_refl eq_refl eq_refl eq_refl eq_refl eq_refl)).
Defined.

(** ** Creating, then deleting *)

(** The decimal text of a number is never empty. *)
Lemma str_of_Z_not_empty z : String.eqb (str_of_Z z) "" = false.
Proof.
  unfold str_of_Z. destruct (Z.to_int z) as [d | d]; [ | reflexivity].
  destruct d; reflexivity.
Qed.

Lemma filter_keeps_all {A : Type} (f : A -> bool) (l : list A) :
  forallb f l = true -> filter f l = l.
Proof.
  induction l as [| x l IH]; cbn; [reflexivity |].
  intros H. apply andb_true_iff in H as [Hx Hl].
  rewrite Hx. now rewrite IH.
Qed.

Section RoundTrip.

Variable check_mode : bool.
Variable py_repr : pyval -> string.

(** A run with [state: absent] against the mirror server when the alias
    is stored under a text id: the users with that id are removed. *)
Lemma mirror_run_deletes q s g m u rest i :
  state q = absent ->
  for_each_in (convert_usrgrp_entry py_repr) (user_groups q) = Ok g ->
  for_each_in (convert_medias_entry py_repr) (user_medias q) = Ok m ->
  filter (Mirror.has "alias" (PStr (alias q))) (Mirror.users s) = u :: rest ->
  Dict.get "userid" (Mirror.public u) = Some (PStr i) ->
  String.eqb i "" = false ->
  run Mirror.api check_mode true py_repr q s
  = (Exit (ExitJson true (Some (SuccessfullyDeleted (alias q)))),
     [Login; UserGet (alias_filter (alias q)); UserDelete (PList [PStr i]);
      Logout],
     {| Mirror.next_id := Mirror.next_id s;
        Mirror.users :=
          filter (fun u => negb (existsb (fun j => Mirror.has "userid" j u)
                                   [PStr i]))
            (Mirror.users s) |}).
Proof.
  intros Hst Hg Hm Halias Hu Hi.
  rewrite (run_absent Mirror.api check_mode py_repr q s g m s Hst Hg Hm eq_refl).
  unfold delete_user. unfold_py.
  erewrite (get_user_id_first_match Mirror.api (alias q) _ (Mirror.public u)
              (map (fun u => PDict (Mirror.public u)) rest) (PStr i) s);
    [ | cbn [server user_get Mirror.api]; rewrite mirror_get_by_alias, Halias;
        reflexivity
      | exact Hu].
  cbn [py_truthy]. rewrite Hi. reflexivity.
Qed.

(** The same when the alias is not stored: nothing is removed. *)
Lemma mirror_run_misses q s g m :
  state q = absent ->
  for_each_in (convert_usrgrp_entry py_repr) (user_groups q) = Ok g ->
  for_each_in (convert_medias_entry py_repr) (user_medias q) = Ok m ->
  filter (Mirror.has "alias" (PStr (alias q))) (Mirror.users s) = [] ->
  run Mirror.api check_mode true py_repr q s
  = (Exit (FailJson (DoesNotExist (alias q))),
     [Login; UserGet (alias_filter (alias q)); Logout], s).
Proof.
  intros Hst Hg Hm Halias.
  rewrite (run_absent Mirror.api check_mode py_repr q s g m s Hst Hg Hm eq_refl).
  unfold delete_user. unfold_py.
  erewrite (get_user_id_no_match Mirror.api (alias q) _ (PList []) s);
    [reflexivity
    | cbn [server user_get Mirror.api]; rewrite mirror_get_by_alias, Halias;
      reflexivity
    | reflexivity].
Qed.

(** X18: what a run creates, a later run deletes again.  Against the
    mirror server, in order and without the alias: a real run with
    [state: present] creates the user; a run with [state: absent] on the
    same alias then reports "Successfully deleted" and leaves the server
    with exactly the users it had before the creation; and one more
    [state: absent] run fails with "does not exists". *)
Theorem created_user_is_deleted_again p q s g m g' m' :
  state p = present ->
  state q = absent ->
  alias q = alias p ->
  for_each_in (convert_usrgrp_entry py_repr) (user_groups p) = Ok g ->
  for_each_in (convert_medias_entry py_repr) (user_medias p) = Ok m ->
  for_each_in (convert_usrgrp_entry py_repr) (user_groups q) = Ok g' ->
  for_each_in (convert_medias_entry py_repr) (user_medias q) = Ok m' ->
  mirror_ready s = true ->
  filter (Mirror.has "alias" (PStr (alias p))) (Mirror.users s) = [] ->
  let created := run Mirror.api false true py_repr p s in
  let deleted := run Mirror.api check_mode true py_repr q (after created) in
  ending created
    = Exit (ExitJson true (Some (SuccessfullyCreated (alias p))))
  /\ ending deleted
     = Exit (ExitJson true (Some (SuccessfullyDeleted (alias p))))
  /\ Mirror.users (after deleted) = Mirror.users s
  /\ ending (run Mirror.api check_mode true py_repr q (after deleted))
     = Exit (FailJson (DoesNotExist (alias p))).
Proof.
  intros Hst Hstq Hq Hg Hm Hg' Hm' Hready Halias created deleted.
  set (i := str_of_Z (Mirror.next_id s)).
  set (new := Dict.set "userid" (PStr i) (create_params p g m)).
  set (s1 := {| Mirror.next_id := Mirror.next_id s + 1;
                Mirror.users := Mirror.users s ++ [new] |}).
  assert (Hrun : created
                 = (Exit (ExitJson true (Some (SuccessfullyCreated (alias p)))),
                    [Login; UserGet (alias_filter (alias p));
                     UserCreate (PDict (create_params p g m)); Logout],
                    s1)).
  { assert (H := run_create_path Mirror.api py_repr p s g m
                   s (PList []) s Hst Hg Hm eq_refl).
    rewrite mirror_get_by_alias, Halias in H.
    exact (H eq_refl eq_refl). }
  assert (Hnew : Mirror.has "alias" (PStr (alias p)) new = true).
  { subst new. unfold Mirror.has, create_params, user_properties. cbn.
    apply String.eqb_refl. }
  assert (Hid : Dict.get "userid" (Mirror.public new) = Some (PStr i)).
  { subst new. unfold Mirror.public. rewrite dict_get_del_other by reflexivity.
    apply dict_get_set_same. }
  assert (Hhas : Mirror.has "userid" (PStr i) new = true).
  { unfold Mirror.has. subst new. rewrite dict_get_set_same. cbn.
    apply String.eqb_refl. }
  assert (Hfound : filter (Mirror.has "alias" (PStr (alias q))) (Mirror.users s1)
                   = [new]).
  { rewrite Hq. subst s1. cbn [Mirror.users].
    rewrite filter_app, Halias. cbn [filter app]. now rewrite Hnew. }
  assert (Husers :
            filter (fun u => negb (existsb (fun j => Mirror.has "userid" j u)
                                     [PStr i]))
              (Mirror.users s1)
            = Mirror.users s).
  { subst s1. cbn [Mirror.users]. rewrite filter_app. cbn [filter existsb].
    rewrite Hhas. cbn [orb negb app]. rewrite app_nil_r.
    apply filter_keeps_all. apply forallb_forall. intros u Hin.
    destruct (mirror_ready_text s u Hready Hin) as (j & Hj & Hne).
    unfold Mirror.has. rewrite Hj. cbn. fold i in Hne. now rewrite Hne. }
  assert (Hdel := mirror_run_deletes q s1 g' m' new [] i Hstq Hg' Hm'
                    Hfound Hid (str_of_Z_not_empty _)).
  rewrite Husers, Hq in Hdel.
  assert (Hafter : after created = s1) by (rewrite Hrun; reflexivity).
  subst deleted. rewrite Hafter, Hdel, Hrun.
  unfold after, ending. cbn [fst snd Mirror.users].
  repeat split.
  rewrite (mirror_run_misses q _ g' m' Hstq Hg' Hm');
    [now rewrite Hq | cbn [Mirror.users]; now rewrite Hq].
Qed.

End RoundTrip.

Lemma created_user_is_deleted_again_witness :
  Mirror.users
    (after (real_run (task "carol" absent None "default" (Some []) (Some []))
              (after (real_run (carol "secret") with_bob))))
  = Mirror.users with_bob.
Proof.
  exact (proj1 (proj2 (proj2
           (created_user_is_deleted_again false repr_opaque
              (carol "secret")
              (task "carol" absent None "default" (Some []) (Some []))
              with_bob _ _ [] [] eq_refl eq_refl eq_refl eq_refl eq_refl
              eq_refl eq_refl eq_refl eq_refl)))).
Defined.

(** ** The media loop, entry by entry *)

Section MediaLoop.

Variable py_repr : pyval -> string.

(** The coercion of one key of a dict. *)
Lemma convert_if_present_gets k d :
  exists d',
    convert_if_present py_repr k (PDict d) = Ok (PDict d')
    /\ Dict.keys d' = Dict.keys d
    /\ forall k',
         Dict.get k' d'
         = if String.eqb k' k
           then match Dict.get k' d with
                | Some v => Some (PStr (py_str py_repr v))
                | None => None
                end
           else Dict.get k' d.
Proof.
  rewrite convert_if_present_on_dict.
  destruct (Dict.get k d) as [v |] eqn:Ev; eexists; split; try reflexivity.
  - split.
    + apply dict_keys_set_present. unfold Dict.mem. now rewrite Ev.
    + intros k'. destruct (String.eqb k' k) eqn:E.
      * apply String.eqb_eq in E. subst k'. rewrite Ev.
        apply dict_get_set_same.
      * now apply dict_get_set_other.
  - split; [reflexivity | ].
    intros k'. destruct (String.eqb k' k) eqn:E; [ | reflexivity].
    apply String.eqb_eq in E. subst k'. now rewrite Ev.
Qed.

(** An entry that is no dict passes the coercion of a key unchanged, or
    not at all. *)
Lemma convert_if_present_other k e e' :
  is_dict e = false -> convert_if_present py_repr k e = Ok e' -> e' = e.
Proof.
  unfold convert_if_present, py_contains, py_getitem.
  destruct e as [ | | | t | l | d]; try discriminate; intros _.
  - destruct (is_substring k t); [discriminate | now intros [= <-]].
  - destruct (existsb _ l); [discriminate | now intros [= <-]].
Qed.

Lemma convert_medias_entry_coerced e e' :
  convert_medias_entry py_repr e = Ok e' -> media_coerced py_repr e e'.
Proof.
  unfold convert_medias_entry.
  destruct (is_dict e) eqn:Hd.
  - destruct e as [ | | | | | d]; try discriminate.
    destruct (convert_if_present_gets "mediatypeid" d) as (d1 & -> & Hk1 & Hg1).
    destruct (convert_if_present_gets "severity" d1) as (d2 & -> & Hk2 & Hg2).
    intros [= <-]. exists d2. split; [reflexivity | ].
    split; [now rewrite Hk2 | ].
    intros k. rewrite Hg2, Hg1.
    destruct (String.eqb k "severity") eqn:Es.
    + apply String.eqb_eq in Es. subst k. reflexivity.
    + rewrite orb_false_r. reflexivity.
  - destruct (convert_if_present py_repr "mediatypeid" e) as [e1 |] eqn:H1;
      [ | discriminate].
    apply convert_if_present_other in H1; [ | exact Hd]. subst e1.
    intros H2. apply convert_if_present_other in H2; [ | exact Hd]. subst e'.
    destruct e; try reflexivity. discriminate.
Qed.

(** X19: the media loop changes nothing but the two ids it names.
    Entry by entry, a dict comes out with the same keys in the same
    order and the same values, except that what it holds under
    ["mediatypeid"] and ["severity"] is now the text of the old value,
    and a key it lacks is not added; an entry that is no dict comes out
    as it went in.  No entry is added, dropped or moved. *)
Theorem media_loop_changes_only_the_ids l l' :
  for_each (convert_medias_entry py_repr) l = Ok l' ->
  Forall2 (media_coerced py_repr) l l'.
Proof.
  revert l'. induction l as [| e l IH]; cbn; intros l' H.
  - injection H as <-. constructor.
  - destruct (convert_medias_entry py_repr e) as [e' |] eqn:He;
      [ | discriminate].
    destruct (for_each _ l) as [r |]; [ | discriminate].
    injection H as <-. constructor; [ | now apply IH].
    now apply convert_medias_entry_coerced.
Qed.

End MediaLoop.

Lemma media_loop_changes_only_the_ids_witness :
  Forall2 (media_coerced repr_opaque)
    [PDict [("mediatypeid", PInt 1); ("sendto", PList [PStr "a@example.com"]);
            ("severity", PInt 63)];
     PStr "mail"]
    [PDict [("mediatypeid", PStr "1"); ("sendto", PList [PStr "a@example.com"]);
            ("severity", PStr "63")];
     PStr "mail"].
Proof.
  exact (media_loop_changes_only_the_ids repr_opaque
           [PDict [("mediatypeid", PInt 1);
                   ("sendto", PList [PStr "a@example.com"]);
                   ("severity", PInt 63)];
            PStr "mail"] _ eq_refl).
Defined.
